(** * cap-data: report and chart scripts

    A shallow embedding of the parts of the cap-data scripts that carry
    behaviour of their own: the call-out box flowables and the page-numbering
    canvases of the PDF scripts, the exception handling of the script entry
    points, the colour tables and data of the chart functions, and the
    loops that turn the report text into paragraphs. *)

From Stdlib Require Import List Bool Arith NArith ZArith QArith Lia Lqa.
From Stdlib Require Import Ascii String.
Import ListNotations.

Set Implicit Arguments.

(** ** Python strings *)

(** A Python [str] is a sequence of Unicode code points; [len] counts code
    points. *)
Module PyStr.

Definition char := N.
Definition str := list char.

Definition len (s : str) : nat := List.length s.

(** A literal of the source whose characters are all ASCII. *)
Fixpoint lit (s : string) : str :=
  match s with
  | EmptyString => []
  | String a s' => N_of_ascii a :: lit s'
  end.

Definition space : char := 32%N.

(** [str.isspace] on one code point, which is what [str.split()] and
    [str.strip()] without arguments test: the code points of bidirectional
    type WS, B or S, or of category Zs. *)
Definition isspace (c : char) : bool :=
  ((9 <=? c) && (c <=? 13) || (28 <=? c) && (c <=? 32)
   || (c =? 133) || (c =? 160) || (c =? 5760)
   || (8192 <=? c) && (c <=? 8202)
   || (c =? 8232) || (c =? 8233) || (c =? 8239) || (c =? 8287)
   || (c =? 12288))%N.

(** Truth value of a string: non-empty. *)
Definition truthy (s : str) : bool :=
  match s with [] => false | _ :: _ => true end.

(** [s.split()]: scan left to right; [cur] holds, reversed, the characters
    of the word being read. Runs of whitespace separate words and produce
    no empty word. *)
Fixpoint split_from (cur : str) (s : str) : list str :=
  match s with
  | [] => if truthy cur then [rev cur] else []
  | c :: s' =>
      if isspace c
      then (if truthy cur then rev cur :: split_from [] s'
            else split_from [] s')
      else split_from (c :: cur) s'
  end.

Definition split (s : str) : list str := split_from [] s.

(** [s.lstrip()], [s.rstrip()], [s.strip()]. *)
Fixpoint lstrip (s : str) : str :=
  match s with
  | [] => []
  | c :: s' => if isspace c then lstrip s' else s
  end.

Definition rstrip (s : str) : str := rev (lstrip (rev s)).

Definition strip (s : str) : str := rstrip (lstrip s).

(** [str(n)] for a non-negative integer: its decimal digits. *)
Definition digit (d : N) : char := (48 + d)%N.

Fixpoint digits_fuel (fuel : nat) (n : N) (acc : str) : str :=
  match fuel with
  | O => acc
  | S fuel' =>
      let acc' := digit (n mod 10) :: acc in
      if (n / 10 =? 0)%N then acc' else digits_fuel fuel' (n / 10)%N acc'
  end.

Definition str_of_N (n : N) : str := digits_fuel (S (N.to_nat (N.log2 n))) n [].

(** [str(z)] for an integer. *)
Definition str_of_int (z : Z) : str :=
  match z with
  | Zneg p => lit "-" ++ str_of_N (Npos p)
  | _ => str_of_N (Z.to_N z)
  end.

(** The characters of an ASCII text, as a literal. *)
Definition ascii_text (s : str) : string :=
  string_of_list_ascii (map ascii_of_N s).

End PyStr.
Import PyStr.

Definition Qltb (x y : Q) : bool := negb (Qle_bool y x).

(** [max(a, b)]: the first of the largest arguments. *)
Definition py_max (a b : Q) : Q := if Qltb a b then b else a.

(** [d.get(key, default)] on a dict literal with string keys, written as the
    list of its items. *)
Fixpoint dict_get {V : Type} (d : list (string * V)) (key : string) (default : V) : V :=
  match d with
  | [] => default
  | (k, v) :: d' => if String.eqb k key then v else dict_get d' key default
  end.

(** ** ReportLab, as far as the scripts rely on it *)

(** The scripts subclass two ReportLab classes, [Flowable] and
    [pdfgen.canvas.Canvas]. This module records the library behaviour the
    subclasses build on: units, colours, the drawing operators a canvas
    appends to the content stream of the current page, and the page
    bookkeeping of [Canvas]. *)
Module Reportlab.

#[local] Open Scope Q_scope.

(** [reportlab.lib.units.inch] and [reportlab.lib.pagesizes.letter], in
    points. *)
Definition inch : Q := 72.
Definition letter : Q * Q := (612, 792).

Inductive color :=
| HexColor (hex : string)
| black
| white.

(** One canvas call that adds to the content stream of the current page. *)
Inductive drawop :=
| SaveState
| RestoreState
| SetFont (name : string) (size : Q)
| SetFillColor (c : color)
| SetStrokeColor (c : color)
| SetLineWidth (w : Q)
| Rect (x y w h : Q) (fill : bool)
| Line (x1 y1 x2 y2 : Q)
| DrawString (x y : Q) (text : str)
| DrawRightString (x y : Q) (text : str)
| DrawCentredString (x y : Q) (text : str).

(** The text a drawing operator puts on the page, if any. *)
Definition text_of (op : drawop) : option str :=
  match op with
  | DrawString _ _ t | DrawRightString _ _ t | DrawCentredString _ _ t => Some t
  | _ => None
  end.

Fixpoint texts (ops : list drawop) : list str :=
  match ops with
  | [] => []
  | op :: ops' =>
      match text_of op with
      | Some t => t :: texts ops'
      | None => texts ops'
      end
  end.

Definition page := list drawop.

(** The entries of a canvas instance's [__dict__] that the page
    bookkeeping rebinds: the page counter and the content stream of the
    page being drawn. [dict(self.__dict__)] copies them, and
    [self.__dict__.update(state)] puts a copy back. *)
Record attrs := {
  _pageNumber : Z;
  _code : list drawop
}.

(** A canvas object of one of the [NumberedCanvas] subclasses. Besides its
    own attributes it names two objects that every copy of its [__dict__]
    names as well, so that restoring a copy leaves them as they are: the
    PDF document [_doc], to which finished pages are added, and the list
    [_saved_page_states] that the subclasses create in [__init__].
    [_file] is what [SaveToFile] wrote, once it has. *)
Record canvas := {
  dict : attrs;
  _saved_page_states : list attrs;
  _doc : list page;
  _file : option (list page)
}.

Definition set_dict (c : canvas) (a : attrs) : canvas :=
  {| dict := a; _saved_page_states := _saved_page_states c;
     _doc := _doc c; _file := _file c |}.

(** A drawing call appends its operator to the current content stream. *)
Definition put (op : drawop) (c : canvas) : canvas :=
  set_dict c {| _pageNumber := _pageNumber (dict c);
                _code := _code (dict c) ++ [op] |}.

Definition puts (ops : list drawop) (c : canvas) : canvas :=
  fold_left (fun c op => put op c) ops c.

(** [Canvas.__init__]: the page counter starts at 1, the content stream is
    empty, the document has no page. *)
Definition Canvas_init : canvas :=
  {| dict := {| _pageNumber := 1; _code := [] |};
     _saved_page_states := []; _doc := []; _file := None |}.

(** [Canvas._startPage]: count the page and start an empty stream. *)
Definition Canvas_startPage (c : canvas) : canvas :=
  set_dict c {| _pageNumber := _pageNumber (dict c) + 1; _code := [] |}.

(** [Canvas.showPage]: add the current stream to the document as a page,
    then [_startPage]. *)
Definition Canvas_showPage (c : canvas) : canvas :=
  Canvas_startPage
    {| dict := dict c; _saved_page_states := _saved_page_states c;
       _doc := _doc c ++ [_code (dict c)]; _file := _file c |}.

(** [Canvas.save]: [if len(self._code): self.showPage()], through the
    method of the instance's class, then write the document. *)
Definition Canvas_save (showPage : canvas -> canvas) (c : canvas) : canvas :=
  let c' := match _code (dict c) with
            | [] => c
            | _ :: _ => showPage c
            end in
  {| dict := dict c'; _saved_page_states := _saved_page_states c';
     _doc := _doc c'; _file := Some (_doc c') |}.

(** What [SimpleDocTemplate.build(..., canvasmaker=K)] does with the
    canvas [K(...)]: for each page it draws the page's flowables and calls
    [showPage]; at the end it calls [save]. *)
Definition build (init : canvas) (showPage save : canvas -> canvas)
           (pages : list page) : canvas :=
  save (fold_left (fun c p => showPage (puts p c)) pages init).

End Reportlab.
Import Reportlab.

(** ** Running a script: library calls, exceptions, random numbers *)

(** The scripts are sequences of calls into plotly, ReportLab and the
    operating system. A call may raise; [try]/[except] may handle what it
    raises. The monad [M] threads the calls completed so far and the number
    of normal samples drawn, and returns a value or the exception that
    escapes. What each call does is decided by the [world] the script runs
    in. *)
Module Script.

#[local] Open Scope string_scope.

Inductive exn :=
| Exception (message : string)
| CalledProcessError
| SystemExit (code : Z)
| KeyboardInterrupt.

(** [isinstance(e, Exception)]: what [except Exception] handles. A bare
    [except:] handles every exception. *)
Definition is_Exception (e : exn) : bool :=
  match e with
  | Exception _ | CalledProcessError => true
  | SystemExit _ | KeyboardInterrupt => false
  end.

Definition is_CalledProcessError (e : exn) : bool :=
  match e with
  | CalledProcessError => true
  | _ => false
  end.

Definition bare (e : exn) : bool := true.

(** [str(e)] *)
Definition str_exn (e : exn) : string :=
  match e with
  | Exception message => message
  | CalledProcessError => "Command returned non-zero exit status."
  | SystemExit _ => EmptyString
  | KeyboardInterrupt => EmptyString
  end.

Inductive op :=
| makedirs (path : string)        (* os.makedirs(path, exist_ok=True) *)
| read_text (path : string)       (* with open(path, 'r') as f: f.read() *)
| plotly (fn : string)            (* the plotly calls that build the figure of [fn] *)
| write_html (path : string)      (* fig.write_html(path) *)
| write_image (path : string)     (* fig.write_image(path, ...), pio.write_image(fig, path, ...) *)
| kaleido_scope                   (* pio.kaleido.scope.mathjax = None *)
| load_image (path : string)      (* platypus.Image(path, width=..., height=...) *)
| build_pdf (path : string)       (* doc.build(story, canvasmaker=NumberedCanvas) *)
| getsize (path : string)         (* os.path.getsize(path) *)
| subprocess_run (args : list string) (* subprocess.run(args, check=True) *)
| print.                          (* print(...); the text is not recorded *)

Definition op_eqb (a b : op) : bool :=
  match a, b with
  | makedirs p, makedirs q | read_text p, read_text q
  | plotly p, plotly q | write_html p, write_html q
  | write_image p, write_image q | load_image p, load_image q
  | build_pdf p, build_pdf q | getsize p, getsize q => String.eqb p q
  | kaleido_scope, kaleido_scope | print, print => true
  | subprocess_run p, subprocess_run q =>
      if list_eq_dec string_dec p q then true else false
  | _, _ => false
  end.

Record world := {
  (** the exception a call raises, if it raises *)
  outcome : op -> option exn;
  (** [os.path.exists] *)
  path_exists : string -> bool;
  (** the standard normal samples of [np.random], in the order drawn *)
  gauss : nat -> Q;
  (** [format(x, '.1f')] *)
  format_1f : Q -> string
}.

Record state := {
  trace : list op;
  drawn : nat
}.

Definition start : state := {| trace := []; drawn := O |}.

Definition M (A : Type) : Type := world -> state -> (A + exn) * state.

Definition ret {A} (a : A) : M A := fun _ s => (inl a, s).

Definition raise {A} (e : exn) : M A := fun _ s => (inr e, s).

Definition bind {A B} (m : M A) (k : A -> M B) : M B :=
  fun w s =>
    match m w s with
    | (inl a, s') => k a w s'
    | (inr e, s') => (inr e, s')
    end.

(** A library call: it raises what the world says, or else completes and
    is recorded. *)
Definition call (o : op) : M unit :=
  fun w s =>
    match outcome w o with
    | Some e => (inr e, s)
    | None => (inl tt, {| trace := trace s ++ [o]; drawn := drawn s |})
    end.

(** [os.path.exists(path)] *)
Definition exists_ (path : string) : M bool :=
  fun w s => (inl (path_exists w path), s).

(** [np.random.normal(loc, scale)] *)
Definition normal (loc scale : Q) : M Q :=
  fun w s =>
    (inl (loc + scale * gauss w (drawn s))%Q,
     {| trace := trace s; drawn := S (drawn s) |}).

(** [f'{x:.1f}'] *)
Definition fmt_1f (x : Q) : M string :=
  fun w s => (inl (format_1f w x), s).

(** [try: body / except <handles> as e: handler e] *)
Definition try_except {A} (body : M A) (handles : exn -> bool)
           (handler : exn -> M A) : M A :=
  fun w s =>
    match body w s with
    | (inl a, s') => (inl a, s')
    | (inr e, s') => if handles e then handler e w s' else (inr e, s')
    end.

(** [sys.exit(code)] *)
Definition sys_exit {A} (code : Z) : M A := raise (SystemExit code).

End Script.
Import Script.

Declare Scope script_scope.
Delimit Scope script_scope with script.
Notation "x <- m ;; k" := (bind m (fun x => k))
  (at level 61, m at next level, right associativity) : script_scope.
Notation "m ;; k" := (bind m (fun _ => k))
  (at level 61, right associativity) : script_scope.
Open Scope script_scope.

(** [for x in xs: body x] *)
Fixpoint for_each {A} (xs : list A) (body : A -> M unit) : M unit :=
  match xs with
  | [] => ret tt
  | x :: xs' => body x ;; for_each xs' body
  end.

(** [[f(x) for x in xs]] *)
Fixpoint list_comp {A B} (xs : list A) (f : A -> M B) : M (list B) :=
  match xs with
  | [] => ret []
  | x :: xs' => y <- f x ;; ys <- list_comp xs' f ;; ret (y :: ys)
  end.

(** [n] calls of [print] in a row. *)
Definition prints (n : nat) : M unit :=
  for_each (repeat tt n) (fun _ => call print).

Definition run {A} (m : M A) (w : world) : (A + exn) * state := m w start.

(** ** plotly figures *)

(** A figure is what the plotly calls of a chart function were given: the
    trace constructors, [update_layout], [add_annotation], each with its
    keyword arguments as a Python value. *)
Module Plotly.

#[local] Open Scope string_scope.

#[local] Unset Elimination Schemes.

Inductive pyval :=
| Str (s : string)
| Num (x : Q)          (* float *)
| Int (n : Z)
| Bool (b : bool)
| List (items : list pyval)
| Dict (items : list (string * pyval)).

#[local] Set Elimination Schemes.

(** [go.Bar(...)], [go.Scatter3d(...)], ...: a trace of the given type. *)
Definition go (type : string) (kwargs : list (string * pyval)) : pyval :=
  Dict (("type", Str type) :: kwargs).

(** [built_by] names the chart function; [calls] lists its plotly calls in
    order. A function whose body is not transcribed in this development
    has an empty list. *)
Record figure := {
  built_by : string;
  calls : list (string * pyval)
}.

Definition untranscribed (fn : string) : figure :=
  {| built_by := fn; calls := [] |}.

Definition ends_with (suffix s : string) : bool :=
  let n := String.length s in
  let m := String.length suffix in
  (m <=? n)%nat && String.eqb (substring (n - m) m s) suffix.

(** The keyword arguments that set a colour: [color], [marker_color],
    [paper_bgcolor], [gridcolor], ..., and [colorscale]. *)
Definition is_color_key (k : string) : bool :=
  ends_with "color" k || String.eqb k "colorscale".

Fixpoint strings_in (v : pyval) : list string :=
  match v with
  | Str s => [s]
  | List items => flat_map strings_in items
  | Dict items => flat_map (fun '(_, x) => strings_in x) items
  | _ => []
  end.

(** The colours a value applies: the strings given under colour keys. *)
Fixpoint colors_in (v : pyval) : list string :=
  match v with
  | List items => flat_map colors_in items
  | Dict items =>
      flat_map (fun '(k, x) => if is_color_key k then strings_in x
                               else colors_in x) items
  | _ => []
  end.

Definition colors_of (fig : figure) : list string :=
  flat_map (fun '(_, v) => colors_in v) (calls fig).

Definition repeat_list {A} (l : list A) (n : nat) : list A :=
  List.concat (repeat l n).

End Plotly.
Import Plotly.

(** ** Python strings: searching and slicing *)

Module PyText.

(** [s.startswith(prefix)] *)
Fixpoint startswith (s prefix : str) : bool :=
  match prefix, s with
  | [], _ => true
  | p :: prefix', c :: s' => (c =? p)%N && startswith s' prefix'
  | _ :: _, [] => false
  end.

(** [s.endswith(suffix)] *)
Definition endswith (s suffix : str) : bool := startswith (rev s) (rev suffix).

(** [a == b] *)
Fixpoint eqb (a b : str) : bool :=
  match a, b with
  | [], [] => true
  | c :: a', d :: b' => (c =? d)%N && eqb a' b'
  | _, _ => false
  end.

(** [sub in s] *)
Fixpoint contains (s sub : str) : bool :=
  startswith s sub
  || match s with
     | [] => false
     | _ :: s' => contains s' sub
     end.

(** [s.find(sub)]: the lowest index at which [sub] occurs in [s], or -1. *)
Fixpoint find (s sub : str) : Z :=
  if startswith s sub then 0%Z
  else match s with
       | [] => (-1)%Z
       | _ :: s' =>
           let i := find s' sub in
           if (i <? 0)%Z then (-1)%Z else (i + 1)%Z
       end.

(** [s[i:j]] for [i] and [j] that are not negative. *)
Definition slice (s : str) (i j : Z) : str :=
  firstn (Z.to_nat (j - i)) (skipn (Z.to_nat i) s).

(** [s.split(sep)] for a separator of one character: [cur] holds,
    reversed, the characters of the piece being read. *)
Fixpoint split_at (sep : char) (cur : str) (s : str) : list str :=
  match s with
  | [] => [rev cur]
  | c :: s' =>
      if (c =? sep)%N then rev cur :: split_at sep [] s'
      else split_at sep (c :: cur) s'
  end.

Definition splitlines (s : str) : list str := split_at 10%N [] s.

(** [s.split(sep)] for a separator of one character or more: the
    occurrences of [sep] are taken from the left and do not overlap;
    [skip] counts the characters of an occurrence still to pass. *)
Fixpoint split_sep (sep : str) (skip : nat) (cur : str) (s : str) : list str :=
  match s with
  | [] => [rev cur]
  | c :: s' =>
      match skip with
      | S skip' => split_sep sep skip' cur s'
      | O =>
          if startswith s sep
          then rev cur :: split_sep sep (len sep - 1) [] s'
          else split_sep sep 0 (c :: cur) s'
      end
  end.

End PyText.
Import PyText.

(** ** create_cap_graphics.py *)

Module CapGraphics.

#[local] Open Scope string_scope.

Definition cap_colors : list (string * string) :=
  [ ("primary", "#ED1B2E");    (* Red Cross Red *)
    ("secondary", "#6B7280");  (* Gray *)
    ("accent", "#1E40AF");     (* Blue *)
    ("success", "#059669");    (* Green *)
    ("warning", "#D97706") ].  (* Orange *)

(** [cap_colors[key]] for a key of the table. *)
Definition cap_color (key : string) : string := dict_get cap_colors key EmptyString.

Definition disasters : list string :=
  [ "KY Floods<br>(DR 539-25)"; "TN Tornados<br>(DR 540-25)";
    "Hurricane Francine<br>(DR 207-25)"; "FLOCOM<br>(DR 220-25)";
    "South TX Floods<br>(DR 503-25)"; "MO/AR Storms<br>(DR 535-25)" ].

Definition red_cross_days : list Z := [4; 3; 1; 1; 1; 1]%Z.

(** The figure that [create_speed_comparison] builds. *)
Definition speed_comparison_figure : figure :=
  {| built_by := "create_speed_comparison";
         calls :=
    [ ("Figure", Dict []);
      ("add_trace", go "Bar"
         [ ("name", Str "Red Cross Standard");
           ("x", List (map Str disasters));
           ("y", List (map Int red_cross_days));
           ("marker_color", Str (cap_color "secondary"));
           ("text", List (map (fun d =>
               if (0 <? d)%Z
               then Str ("+" ++ ascii_text (str_of_int d) ++ " days")
               else Str "Same day") red_cross_days));
           ("textposition", Str "outside") ]);
      ("add_trace", go "Bar"
         [ ("name", Str "CAP Partners");
           ("x", List (map Str disasters));
           ("y", List (repeat_list [Num 0.5] 6));
           ("marker_color", Str (cap_color "primary"));
           ("text", List (repeat_list [Str "Same day"] 6));
           ("textposition", Str "outside") ]);
      ("update_layout", Dict
         [ ("title", Dict
              [ ("text", Str "Speed Advantage: Days to First Service Delivery<br><sub>CAP Partners Consistently Faster in Top-Damaged Counties</sub>");
                ("x", Num 0.5);
                ("xanchor", Str "center");
                ("font", Dict [ ("size", Int 24);
                                ("color", Str (cap_color "primary")) ]) ]);
           ("yaxis_title", Str "Days After Impact");
           ("barmode", Str "group");
           ("height", Int 500);
           ("paper_bgcolor", Str "white");
           ("plot_bgcolor", Str "rgba(0,0,0,0.02)");
           ("legend", Dict [ ("orientation", Str "h");
                             ("yanchor", Str "bottom");
                             ("y", Num 1.02);
                             ("xanchor", Str "right");
                             ("x", Int 1) ]) ]);
      ("add_annotation", Dict
         [ ("text", Str "CAP partners were 1-4 days faster<br>across all measured DROs");
           ("xref", Str "paper"); ("yref", Str "paper");
           ("x", Num 0.02); ("y", Num 0.95);
           ("showarrow", Bool false);
           ("bgcolor", Str (cap_color "primary"));
           ("font", Dict [ ("color", Str "white"); ("size", Int 12) ]);
           ("borderpad", Int 10) ]) ] |}.

Definition create_speed_comparison : M figure :=
  call (plotly "create_speed_comparison") ;;
  ret speed_comparison_figure.

(** The other chart functions, in the order [__main__] calls them; their
    bodies are plotly calls on literal data and are not transcribed. *)
Definition chart (fn : string) : M figure :=
  if String.eqb fn "create_speed_comparison" then create_speed_comparison
  else (call (plotly fn) ;; ret (untranscribed fn)).

Definition graphics : string := "/Users/jefffranzen/cap-data/graphics/".

Definition figures : list (string * string) :=
  [ ("create_roi_comparison", "roi_comparison");
    ("create_speed_comparison", "speed_comparison");
    ("create_volunteer_trend", "volunteer_trend");
    ("create_ia_uptake", "ia_uptake");
    ("create_homes_safer", "homes_safer");
    ("create_cost_breakdown", "cost_breakdown");
    ("create_coalition_growth", "coalition_growth") ].

(** [if __name__ == "__main__":] *)
Definition main : M unit :=
  call print ;;
  for_each figures (fun '(fn, _) => _ <- chart fn ;; ret tt) ;;
  for_each figures (fun '(_, name) =>
    call (write_html (graphics ++ name ++ ".html"))) ;;
  try_except
    (for_each figures (fun '(_, name) =>
       call (write_image (graphics ++ name ++ ".png"))) ;;
     call print)
    bare
    (fun _ => call print) ;;
  prints 2.

End CapGraphics.

(** ** Python/create_20_visualizations.py *)

Module Viz20.

#[local] Open Scope string_scope.

Definition ARC_RED := "#CC0000".
Definition ARC_GRAY := "#6B7C93".
Definition ARC_DARK_GRAY := "#4A5568".
Definition ARC_LIGHT_GRAY := "#E2E8F0".
Definition ARC_BLACK := "#000000".
Definition ARC_WHITE := "#FFFFFF".

Definition FONT_FAMILY := "Arial, Helvetica, sans-serif".
Definition TITLE_FONT_SIZE : Z := 20.
Definition AXIS_FONT_SIZE : Z := 12.
Definition LABEL_FONT_SIZE : Z := 11.

(** The statements of the module outside any function: they run when the
    script runs, and when another script imports the module. *)
Definition module_body : M unit :=
  call (makedirs "/Users/jefffranzen/cap-data/visualizations").

Definition save_figure (fig : figure) (name : string) : M figure :=
  call (write_html ("/Users/jefffranzen/cap-data/visualizations/" ++ name ++ ".html")) ;;
  call print ;;
  ret fig.

Definition data_Disaster_Type : list string := ["Hurricane"; "Flooding"; "Tornado"].
Definition data_ROI : list Q := [37.30; 25.53; 9.77]%Q.

(** The figure that [create_roi_by_disaster] builds; [labels] are the
    values of [data['ROI']] as [f'{v:.1f}'] formats them. *)
Definition roi_by_disaster_figure (labels : list string) : figure :=
  {| built_by := "create_roi_by_disaster";
     calls :=
       [ ("Figure", go "Bar"
            [ ("y", List (map Str data_Disaster_Type));
              ("x", List (map Num data_ROI));
              ("orientation", Str "h");
              ("marker_color", List [Str ARC_RED; Str ARC_RED; Str ARC_GRAY]);
              ("text", List (map (fun s => Str (s ++ "%")) labels));
              ("textposition", Str "outside");
              ("textfont", Dict [ ("size", Int 14);
                                  ("family", Str FONT_FAMILY);
                                  ("color", Str ARC_BLACK) ]) ]);
         ("update_layout", Dict
            [ ("title", Str "Return on Investment by Disaster Type");
              ("title_font", Dict [ ("size", Int TITLE_FONT_SIZE);
                                    ("family", Str FONT_FAMILY);
                                    ("color", Str ARC_RED) ]);
              ("xaxis_title", Str "ROI (%)");
              ("yaxis_title", Str EmptyString);
              ("font", Dict [ ("family", Str FONT_FAMILY);
                              ("size", Int AXIS_FONT_SIZE) ]);
              ("paper_bgcolor", Str ARC_WHITE);
              ("plot_bgcolor", Str ARC_WHITE);
              ("height", Int 400);
              ("width", Int 800);
              ("xaxis", Dict [ ("gridcolor", Str ARC_LIGHT_GRAY);
                               ("range", List [Int 0; Int 45]) ]);
              ("margin", Dict [ ("l", Int 100); ("r", Int 50);
                                ("t", Int 50); ("b", Int 50) ]) ]) ] |}.

Definition create_roi_by_disaster : M figure :=
  call (plotly "create_roi_by_disaster") ;;
  labels <- list_comp data_ROI fmt_1f ;;
  save_figure (roi_by_disaster_figure labels) "roi_by_disaster".

(** The chart functions in the order [create_all_visualizations] calls
    them, each with the name it gives to [save_figure]. *)
Definition functions : list (string * string) :=
  [ ("create_roi_by_disaster", "roi_by_disaster");
    ("create_roi_by_partner", "roi_partner_waterfall");
    ("create_cost_containment_donut", "cost_containment_donut");
    ("create_ia_uptake_comparison", "ia_uptake_comparison");
    ("create_speed_advantage", "speed_advantage");
    ("create_volunteer_trends", "volunteer_trends");
    ("create_homes_safer_impact", "homes_safer_impact");
    ("create_stakeholder_sentiment", "stakeholder_sentiment");
    ("create_meal_cost_comparison", "meal_cost_comparison");
    ("create_response_timeline", "response_timeline");
    ("create_geographic_heatmap", "geographic_impact");
    ("create_quarterly_trends", "quarterly_trends");
    ("create_partner_distribution", "partner_distribution");
    ("create_failures_prevented", "failures_prevented");
    ("create_youth_preparedness", "youth_preparedness");
    ("create_francine_breakdown", "francine_breakdown");
    ("create_asset_utilization", "asset_utilization");
    ("create_coalition_growth", "coalition_growth");
    ("create_disaster_efficiency", "disaster_efficiency");
    ("create_kpi_dashboard", "kpi_dashboard");
    ("create_risk_timeline", "risk_timeline");
    ("create_cultural_metrics", "cultural_metrics");
    ("create_investment_return", "investment_return");
    ("create_executive_scorecard", "executive_scorecard") ].

(** A call of the chart function [fn]. Every function builds a figure
    with plotly and ends in [return save_figure(fig, name)]; the plotly
    calls are transcribed for [create_roi_by_disaster]. *)
Definition chart (fn : string) : M figure :=
  if String.eqb fn "create_roi_by_disaster" then create_roi_by_disaster
  else (call (plotly fn) ;;
        save_figure (untranscribed fn) (dict_get functions fn EmptyString)).

Definition create_all_visualizations : M (list figure) :=
  prints 2 ;;
  visualizations <- list_comp functions (fun '(fn, _) => chart fn) ;;
  prints 8 ;;
  ret visualizations.

(** Running the file as a program. *)
Definition main : M unit :=
  module_body ;;
  _ <- create_all_visualizations ;;
  ret tt.

End Viz20.

(** ** Python/create_cool_visualizations.py *)

Module CoolViz.

#[local] Open Scope string_scope.

Definition ARC_RED := "#CC0000".
Definition ARC_GRAY := "#6B7C93".
Definition ARC_DARK_GRAY := "#4A5568".
Definition ARC_LIGHT_GRAY := "#E2E8F0".
Definition ARC_BLACK := "#000000".
Definition ARC_WHITE := "#FFFFFF".

Definition PALETTE : list string :=
  [ "#CC0000"; "#E53E3E"; "#6B7C93"; "#4A5568";
    "#F56565"; "#FC8181"; "#FEB2B2"; "#FED7D7" ].

Definition module_body : M unit :=
  call (makedirs "/Users/jefffranzen/cap-data/cool_visualizations").

Definition save_figure (fig : figure) (name : string) : M figure :=
  call (write_html ("/Users/jefffranzen/cap-data/cool_visualizations/" ++ name ++ ".html")) ;;
  try_except
    (call (write_image ("/Users/jefffranzen/cap-data/cool_visualizations/" ++ name ++ ".png")))
    bare
    (fun _ => ret tt) ;;
  call print ;;
  ret fig.

Definition functions : list (string * string) :=
  [ ("create_3d_performance", "3d_performance_matrix");
    ("create_animated_bubbles", "animated_bubble_evolution");
    ("create_sunburst_breakdown", "sunburst_cost_hierarchy");
    ("create_scatter_matrix", "scatter_matrix_analysis");
    ("create_advanced_heatmap", "advanced_heatmap");
    ("create_parallel_coordinates", "parallel_coordinates");
    ("create_violin_distribution", "violin_distribution");
    ("create_sankey_flow", "sankey_resource_flow");
    ("create_scatter_marginal", "scatter_marginal_analysis");
    ("create_treemap_impact", "treemap_impact");
    ("create_funnel_pipeline", "funnel_pipeline");
    ("create_network_graph", "network_graph");
    ("create_line_race", "growth_race");
    ("create_polar_bar", "polar_360_view");
    ("create_density_contour", "density_clusters");
    ("create_surface_landscape", "surface_landscape");
    ("create_ridgeline", "ridgeline_evolution");
    ("create_spider_comparison", "spider_comparison");
    ("create_box_jitter", "box_jitter_stats");
    ("create_executive_dashboard", "executive_dashboard_complete") ].

(** A call of the chart function [fn]; none of the bodies is transcribed. *)
Definition chart (fn : string) : M figure :=
  call (plotly fn) ;;
  save_figure (untranscribed fn) (dict_get functions fn EmptyString).

Definition create_all_cool_visualizations : M unit :=
  prints 2 ;;
  _ <- list_comp functions (fun '(fn, _) => chart fn) ;;
  prints 16.

Definition main : M unit :=
  module_body ;;
  create_all_cool_visualizations.

End CoolViz.

(** ** create_cool_visualizations_fixed.py *)

Module CoolVizFixed.

#[local] Open Scope string_scope.

Definition ARC_RED := "#CC0000".
Definition ARC_GRAY := "#6B7C93".
Definition ARC_DARK_GRAY := "#4A5568".
Definition ARC_LIGHT_GRAY := "#E2E8F0".

Definition module_body : M unit :=
  call (makedirs "/Users/jefffranzen/cap-data/cool_visualizations").

Definition save_figure (fig : figure) (name : string) : M figure :=
  call (write_html ("/Users/jefffranzen/cap-data/cool_visualizations/" ++ name ++ ".html")) ;;
  try_except
    (call (write_image ("/Users/jefffranzen/cap-data/cool_visualizations/" ++ name ++ ".png")))
    bare
    (fun _ => ret tt) ;;
  call print ;;
  ret fig.

Definition partners : list string :=
  [ "Resilience Hub A"; "Resilience Hub B"; "Gateway A"; "Gateway B";
    "Hunger Partner A"; "Hunger Partner B"; "Health Partner";
    "Housing Partner"; "Faith Partner"; "School Partner" ].

Definition roi_data : list Q :=
  [33.5; 32.1; 30.1; 28.5; 26.3; 24.2; 23.0; 4.9; 22.5; 25.0]%Q.
Definition speed_data : list Z := [95; 92; 88; 85; 82; 78; 75; 65; 80; 83]%Z.
Definition quality_data : list Z := [98; 95; 92; 90; 88; 85; 83; 75; 87; 89]%Z.

(** The figure that [create_3d_scatter] builds from the data with noise
    added. *)
Definition scatter_3d_figure (roi speed quality : list Q) : figure :=
  {| built_by := "create_3d_scatter";
     calls :=
       [ ("Figure", List [ go "Scatter3d"
            [ ("x", List (map Num roi));
              ("y", List (map Num speed));
              ("z", List (map Num quality));
              ("mode", Str "markers");
              ("text", List (map Str (repeat_list partners 3)));
              ("marker", Dict
                 [ ("size", List (map (fun r => Num (r / 3)%Q) roi));
                   ("color", List (map Num roi));
                   ("colorscale", List [ List [Int 0; Str ARC_GRAY];
                                         List [Num 0.5; Str "#FC8181"];
                                         List [Int 1; Str ARC_RED] ]);
                   ("showscale", Bool true);
                   ("colorbar", Dict [ ("title", Str "ROI %") ]);
                   ("line", Dict [ ("color", Str "white"); ("width", Int 1) ]);
                   ("opacity", Num 0.8) ]);
              ("hovertemplate", Str "<b>%{text}</b><br>ROI: %{x:.1f}%<br>Speed: %{y}<br>Quality: %{z}<extra></extra>") ] ]);
         ("update_layout", Dict
            [ ("title", Str "3D Performance Space: ROI × Speed × Quality");
              ("title_font", Dict [ ("size", Int 24);
                                    ("family", Str "Arial Black");
                                    ("color", Str ARC_RED) ]);
              ("scene", Dict
                 [ ("xaxis", Dict [ ("title", Str "ROI (%)");
                                    ("gridcolor", Str "lightgray") ]);
                   ("yaxis", Dict [ ("title", Str "Speed Score");
                                    ("gridcolor", Str "lightgray") ]);
                   ("zaxis", Dict [ ("title", Str "Quality Score");
                                    ("gridcolor", Str "lightgray") ]);
                   ("camera", Dict [ ("eye", Dict [ ("x", Num 1.5);
                                                    ("y", Num 1.5);
                                                    ("z", Num 1.3) ]) ]) ]);
              ("paper_bgcolor", Str "white");
              ("height", Int 800);
              ("width", Int 1400) ]) ] |}.

Definition create_3d_scatter : M figure :=
  let roi := repeat_list roi_data 3 in
  let speed := repeat_list speed_data 3 in
  let quality := repeat_list quality_data 3 in
  (* Add some noise *)
  roi <- list_comp roi
           (fun r => n <- normal 0 2 ;; ret (r + n)%Q) ;;
  speed <- list_comp speed
             (fun s => n <- normal 0 3 ;; ret (inject_Z s + n)%Q) ;;
  quality <- list_comp quality
               (fun q => n <- normal 0 2 ;; ret (inject_Z q + n)%Q) ;;
  call (plotly "create_3d_scatter") ;;
  save_figure (scatter_3d_figure roi speed quality) "3d_scatter_performance".

Definition functions : list (string * string) :=
  [ ("create_3d_scatter", "3d_scatter_performance");
    ("create_animated_scatter", "animated_scatter_evolution");
    ("create_sunburst", "sunburst_hierarchy");
    ("create_correlation_matrix", "correlation_matrix");
    ("create_bubble_map", "bubble_map_impact");
    ("create_parallel", "parallel_coordinates");
    ("create_violin_scatter", "violin_scatter_distribution");
    ("create_sankey", "sankey_flow");
    ("create_scatter_trend", "scatter_trend_roi");
    ("create_heatmap_matrix", "heatmap_matrix");
    ("create_treemap", "treemap_impact");
    ("create_funnel", "funnel_pipeline");
    ("create_polar_scatter", "polar_scatter_360");
    ("create_dual_axis", "dual_axis_analysis");
    ("create_contour", "contour_density");
    ("create_radar_comparison", "radar_comparison");
    ("create_network", "network_partners");
    ("create_box_plots", "box_plots_stats");
    ("create_gantt", "gantt_timeline");
    ("create_dashboard", "executive_dashboard") ].

(** A call of the chart function [fn]; the body is transcribed for
    [create_3d_scatter]. The samples that the other functions draw from
    [np.random] are not counted. *)
Definition chart (fn : string) : M figure :=
  if String.eqb fn "create_3d_scatter" then create_3d_scatter
  else (call (plotly fn) ;;
        save_figure (untranscribed fn) (dict_get functions fn EmptyString)).

Definition main_ : M unit :=
  prints 2 ;;
  _ <- list_comp functions (fun '(fn, _) => chart fn) ;;
  prints 13.

(** Running the file as a program: the module statements, then [main()]. *)
Definition main : M unit :=
  module_body ;;
  main_.

End CoolVizFixed.

(** ** fortune500_graphics.py *)

Module Fortune500Graphics.

#[local] Open Scope string_scope.

Definition ARC_COLORS : list (string * string) :=
  [ ("primary", "#CC0000");       (* American Red Cross Red *)
    ("secondary", "#6B7C93");     (* Professional Gray *)
    ("background", "#FFFFFF");    (* White *)
    ("text", "#000000");          (* Black *)
    ("accent_light", "#E6F3FF");  (* Light Blue *)
    ("accent_dark", "#2C5282");   (* Dark Blue *)
    ("success", "#059669");       (* Green *)
    ("warning", "#D97706") ].     (* Orange *)

Definition ARC_COLOR (key : string) : string := dict_get ARC_COLORS key EmptyString.

Definition FONT_FAMILY := "Arial, Helvetica, sans-serif".

Definition graphics_dir := "/Users/jefffranzen/cap-data/graphics".

(** The items of [charts], in insertion order: file name and the function
    that builds the figure. None of the eight bodies is transcribed. *)
Definition charts : list (string * string) :=
  [ ("roi_disaster_type", "create_roi_by_disaster_type");
    ("roi_partner_type", "create_roi_by_partner_type");
    ("cost_containment", "create_cost_containment_donut");
    ("ia_uptake", "create_ia_uptake_comparison");
    ("speed_advantage", "create_speed_advantage_chart");
    ("volunteer_trends", "create_volunteer_engagement_trends");
    ("homes_safer", "create_homes_safer_impact");
    ("stakeholder_sentiment", "create_stakeholder_sentiment_radar") ].

(** The figure that [create_executive_dashboard] builds with
    [make_subplots] and [update_layout]. *)
Definition executive_dashboard_figure : figure :=
  {| built_by := "create_executive_dashboard";
     calls :=
       [ ("make_subplots", Dict
            [ ("rows", Int 4); ("cols", Int 2);
              ("subplot_titles", List (map Str
                 [ "ROI by Disaster Type"; "ROI by Partner Type";
                   "Cost Containment ($1.6M)"; "IA Uptake Rates";
                   "Speed Advantage (Days)"; "Volunteer Growth Trends";
                   "Homes Made Safer Impact"; "Stakeholder Sentiment" ]));
              ("specs", List
                 [ List [Dict [("type", Str "bar")]; Dict [("type", Str "bar")]];
                   List [Dict [("type", Str "pie")]; Dict [("type", Str "bar")]];
                   List [Dict [("type", Str "bar")]; Dict [("type", Str "scatter")]];
                   List [Dict [("type", Str "scatter")]; Dict [("type", Str "polar")]] ]);
              ("vertical_spacing", Num 0.12);
              ("horizontal_spacing", Num 0.1) ]);
         ("update_layout", Dict
            [ ("title", Dict
                 [ ("text", Str "<b>CAP Evaluation Executive Dashboard</b><br><span style='font-size:16px;color:#6B7C93'>Comprehensive Impact Analysis - Fortune 500 Presentation</span>");
                   ("x", Num 0.5);
                   ("xanchor", Str "center");
                   ("font", Dict [ ("size", Int 32);
                                   ("color", Str (ARC_COLOR "text"));
                                   ("family", Str FONT_FAMILY) ]) ]);
              ("font", Dict [ ("family", Str FONT_FAMILY); ("size", Int 10) ]);
              ("paper_bgcolor", Str (ARC_COLOR "background"));
              ("height", Int 1600);
              ("showlegend", Bool false) ]) ] |}.

Definition create_executive_dashboard : M unit :=
  call (plotly "create_executive_dashboard") ;;
  call (write_html (graphics_dir ++ "/executive_dashboard.html")) ;;
  try_except
    (call (write_image (graphics_dir ++ "/executive_dashboard.png")))
    bare
    (fun _ => ret tt) ;;
  call print.

Definition export_all_visualizations : M unit :=
  call (makedirs graphics_dir) ;;
  prints 2 ;;
  for_each charts (fun '(_, fn) => call (plotly fn)) ;;
  call print ;;
  for_each charts (fun '(name, _) =>
    call (write_html (graphics_dir ++ "/" ++ name ++ ".html")) ;;
    call print) ;;
  call print ;;
  try_except
    (for_each charts (fun '(name, _) =>
       call (write_image (graphics_dir ++ "/" ++ name ++ ".png")) ;;
       call print))
    is_Exception
    (fun _ => prints 2) ;;
  call print ;;
  create_executive_dashboard ;;
  prints 9.

Definition main_ : M unit :=
  try_except
    (export_all_visualizations ;;
     prints 5)
    is_Exception
    (fun _ => prints 3).

Definition main : M unit := main_.

End Fortune500Graphics.

(** ** convert_to_images.py *)

Module ConvertToImages.

#[local] Open Scope string_scope.

Definition ARC_RED := "#CC0000".
Definition ARC_GRAY := "#6B7C93".
Definition ARC_DARK_GRAY := "#4A5568".
Definition ARC_LIGHT_GRAY := "#E2E8F0".

Definition viz_functions : list (string * string) :=
  [ ("roi_by_disaster", "create_roi_by_disaster");
    ("roi_by_partner", "create_roi_by_partner");
    ("cost_containment_donut", "create_cost_containment_donut");
    ("ia_uptake_comparison", "create_ia_uptake_comparison");
    ("speed_advantage", "create_speed_advantage");
    ("volunteer_trends", "create_volunteer_trends");
    ("homes_safer_impact", "create_homes_safer_impact");
    ("stakeholder_sentiment", "create_stakeholder_sentiment");
    ("meal_cost_comparison", "create_meal_cost_comparison");
    ("response_timeline", "create_response_timeline");
    ("geographic_impact", "create_geographic_heatmap");
    ("quarterly_trends", "create_quarterly_trends");
    ("partner_distribution", "create_partner_distribution");
    ("failures_prevented", "create_failures_prevented");
    ("youth_preparedness", "create_youth_preparedness");
    ("francine_breakdown", "create_francine_breakdown");
    ("asset_utilization", "create_asset_utilization");
    ("coalition_growth", "create_coalition_growth");
    ("disaster_efficiency", "create_disaster_efficiency");
    ("kpi_dashboard", "create_kpi_dashboard");
    ("risk_timeline", "create_risk_timeline");
    ("cultural_metrics", "create_cultural_metrics");
    ("investment_return", "create_investment_return");
    ("executive_scorecard", "create_executive_scorecard") ].

(** One turn of [for name, func in viz_functions], on the counters
    [(successful, failed)]. *)
Definition convert (counts : Z * Z) (item : string * string) : M (Z * Z) :=
  let '(successful, failed) := counts in
  let '(name, func) := item in
  try_except
    (_ <- Viz20.chart func ;;
     call (write_image ("/Users/jefffranzen/cap-data/images/" ++ name ++ ".png")) ;;
     call (write_image ("/Users/jefffranzen/cap-data/images/" ++ name ++ ".jpg")) ;;
     call print ;;
     ret (successful + 1, failed)%Z)
    is_Exception
    (fun _ => call print ;; ret (successful, failed + 1)%Z).

Fixpoint convert_all (counts : Z * Z) (items : list (string * string)) : M (Z * Z) :=
  match items with
  | [] => ret counts
  | item :: items' => counts' <- convert counts item ;; convert_all counts' items'
  end.

(** The script has no functions: these are its statements, in order.
    [import create_20_visualizations as viz] runs the statements of that
    module. *)
Definition main : M unit :=
  call kaleido_scope ;;
  prints 2 ;;
  Viz20.module_body ;;
  call (makedirs "/Users/jefffranzen/cap-data/images") ;;
  counts <- convert_all (0, 0)%Z viz_functions ;;
  prints 3 ;;
  (if (0 <? snd counts)%Z then call print else ret tt) ;;
  prints 4.

End ConvertToImages.

(** ** create_pdf_simple.py *)

Module SimplePdf.

#[local] Open Scope Q_scope.

(** *** [CalloutBox] *)

Record CalloutBox := {
  title : str;
  content : str;
  box_type : string
}.

(** [self.colors] *)
Definition colors : list (string * color) :=
  [ ("metric", HexColor "#CC0000");
    ("quote", HexColor "#6B7C93");
    ("success", HexColor "#4CAF50");
    ("priority", HexColor "#FF6B35");
    ("speed", HexColor "#2196F3") ]%string.

Definition width : Q := 5.5 * inch.

Definition _calculate_height (self : CalloutBox) : Q :=
  let char_count := len (content self) in
  if (char_count <? 50)%nat then 1.0 * inch
  else if (char_count <? 100)%nat then 1.3 * inch
  else if (char_count <? 150)%nat then 1.6 * inch
  else 2.0 * inch.

Definition height (self : CalloutBox) : Q := _calculate_height self.

Definition max_chars_per_line : nat := 65.

(** One turn of [for word in words], on [(lines, current_line)]. *)
Definition wrap_word (st : list str * str) (word : str) : list str * str :=
  let '(lines, current_line) := st in
  if (len (current_line ++ lit " " ++ word) <=? max_chars_per_line)%nat
  then (lines,
        if truthy current_line then current_line ++ lit " " ++ word else word)
  else ((if truthy current_line then lines ++ [current_line] else lines),
        word).

(** The list [lines] when the drawing loop starts. *)
Definition wrap (content : str) : list str :=
  let words := split content in
  let '(lines, current_line) := fold_left wrap_word words ([], []) in
  if truthy current_line then lines ++ [current_line] else lines.

(** One turn of [for line in lines], on the operators drawn so far and
    [y_position]. *)
Definition draw_line (st : list drawop * Q) (line : str)
  : list drawop * Q :=
  let '(ops, y_position) := st in
  if Qltb (0.2 * inch) y_position
  then (ops ++ [DrawCentredString (width / 2) y_position (strip line)],
        y_position - 0.18 * inch)
  else (ops, y_position).

Definition draw_lines (h : Q) (lines : list str) : list drawop :=
  fst (fold_left draw_line lines ([], h - 0.55 * inch)).

(** The operators of the box frame and title bar, up to the content. *)
Definition draw_frame (self : CalloutBox) : list drawop :=
  let color := dict_get colors (box_type self) black in
  let h := height self in
  [ SetStrokeColor color;
    SetLineWidth 2;
    Rect 0 0 width h false;
    SetFillColor color;
    Rect 0 (h - 0.35 * inch) width (0.35 * inch) true;
    SetFillColor white;
    SetFont "Helvetica-Bold" 11;
    DrawCentredString (width / 2) (h - 0.23 * inch) (title self);
    SetFillColor black;
    SetFont "Helvetica" 9 ].

(** [CalloutBox.draw]: the calls it makes on [self.canv], in order. *)
Definition draw (self : CalloutBox) : list drawop :=
  draw_frame self ++ draw_lines (height self) (wrap (content self)).

(** The text operators of [draw] that render the content, that is all but
    the title. *)
Definition drawn_content (self : CalloutBox) : list str :=
  texts (draw_lines (height self) (wrap (content self))).

(** *** [NumberedCanvas] *)

Definition NumberedCanvas_init : canvas :=
  {| dict := dict Canvas_init; _saved_page_states := [];
     _doc := _doc Canvas_init; _file := _file Canvas_init |}.

Definition showPage (c : canvas) : canvas :=
  Canvas_startPage
    {| dict := dict c;
       _saved_page_states := _saved_page_states c ++ [dict c];
       _doc := _doc c; _file := _file c |}.

Definition header_ops : list drawop :=
  [ SetFont "Helvetica" 8;
    SetFillColor (HexColor "#6B7C93");
    DrawString (1 * inch) (snd letter - 0.5 * inch)
      (lit "Community Adaptation Program Evaluation Report");
    DrawRightString (fst letter - 1 * inch) (snd letter - 0.5 * inch)
      (lit "September 2025");
    SetStrokeColor (HexColor "#CC0000");
    SetLineWidth 1;
    Line (1 * inch) (snd letter - 0.55 * inch)
         (fst letter - 1 * inch) (snd letter - 0.55 * inch) ].

Definition page_text (n page_count : Z) : str :=
  lit "Page " ++ str_of_int n ++ lit " of " ++ str_of_int page_count.

Definition number_ops (n page_count : Z) : list drawop :=
  [ SetFont "Helvetica" 9;
    SetFillColor (HexColor "#6B7C93");
    DrawCentredString (fst letter / 2) (0.5 * inch) (page_text n page_count) ].

Definition draw_page_number (page_count : Z) (c : canvas) : canvas :=
  let n := _pageNumber (dict c) in
  let c1 := put SaveState c in
  let c2 := if (1 <? n)%Z then puts header_ops c1 else c1 in
  let c3 := if (1 <? n)%Z then puts (number_ops n page_count) c2 else c2 in
  put RestoreState c3.

(** The body of [for state in self._saved_page_states]. *)
Definition save_state (num_pages : Z) (c : canvas) (state : attrs) : canvas :=
  Canvas_showPage (draw_page_number num_pages (set_dict c state)).

Definition save (c : canvas) : canvas :=
  let num_pages := Z.of_nat (List.length (_saved_page_states c)) in
  Canvas_save showPage
    (fold_left (save_state num_pages) (_saved_page_states c) c).

(** *** The script *)

Definition pdf_file : string :=
  "/Users/jefffranzen/cap-data/CAP_Evaluation_Report_Professional.pdf".

(** [create_professional_pdf()]: the flowables are built from literal
    text, call-out boxes and tables, and from the report text that is
    read; then the document is built. *)
Definition create_professional_pdf : M string :=
  call (read_text "/Users/jefffranzen/cap-data/Updated_CAP_Report_September_30_2025_COMPLETE.txt") ;;
  call (build_pdf pdf_file) ;;
  ret pdf_file.

(** [if __name__ == "__main__":] *)
Definition main : M unit :=
  try_except
    (_ <- create_professional_pdf ;;
     prints 10)
    is_Exception
    (fun _ => call print).

End SimplePdf.

(** ** create_professional_pdf.py *)

Module ProfessionalPdf.

#[local] Open Scope Q_scope.

(** *** [CalloutBox] *)

Record CalloutBox := {
  title : str;
  content : str;
  box_type : string
}.

Definition colors : list (string * color) :=
  [ ("metric", HexColor "#CC0000");
    ("quote", HexColor "#6B7C93");
    ("success", HexColor "#4CAF50");
    ("priority", HexColor "#FF6B35") ]%string.

Definition width : Q := 5 * inch.

(** [len(self.content) / 50] is true division. *)
Definition _calculate_height (self : CalloutBox) : Q :=
  let lines := inject_Z (Z.of_nat (len (content self))) / 50 in
  py_max (1.5 * inch) ((0.5 + lines * 0.2) * inch).

Definition height (self : CalloutBox) : Q := _calculate_height self.

Section Draw.

(** [canvas.stringWidth(text, fontName, fontSize)]: the width of a string
    in a font, from the font's metrics. *)
Variable stringWidth : str -> string -> Q -> Q.

Definition max_width : Q := width - 0.4 * inch.

(** One turn of [for word in words], on the operators drawn so far,
    [y_position] and [line]. ([line_width] is assigned and never read.) *)
Definition draw_word (st : list drawop * Q * str) (word : str)
  : list drawop * Q * str :=
  let '(ops, y_position, line) := st in
  let test_line := if truthy line then line ++ lit " " ++ word else word in
  let test_width := stringWidth test_line "Helvetica"%string 10 in
  if Qltb test_width max_width
  then (ops, y_position, test_line)
  else if truthy line
       then (ops ++ [DrawCentredString (width / 2) y_position line],
             y_position - 0.2 * inch, word)
       else (ops, y_position, word).

Definition draw_words (h : Q) (content : str) : list drawop :=
  let words := split content in
  let '(ops, y_position, line) :=
    fold_left draw_word words ([], h - 0.6 * inch, []) in
  if truthy line
  then ops ++ [DrawCentredString (width / 2) y_position line]
  else ops.

Definition draw_frame (self : CalloutBox) : list drawop :=
  let h := height self in
  [ SetStrokeColor (dict_get colors (box_type self) black);
    SetLineWidth 2;
    Rect 0 0 width h false;
    SetFillColor (dict_get colors (box_type self) black);
    Rect 0 (h - 0.35 * inch) width (0.35 * inch) true;
    SetFillColor white;
    SetFont "Helvetica-Bold" 12;
    DrawCentredString (width / 2) (h - 0.25 * inch) (title self);
    SetFillColor black;
    SetFont "Helvetica" 10 ].

Definition draw (self : CalloutBox) : list drawop :=
  draw_frame self ++ draw_words (height self) (content self).

Definition drawn_content (self : CalloutBox) : list str :=
  texts (draw_words (height self) (content self)).

End Draw.

(** *** [NumberedCanvas] *)

Definition NumberedCanvas_init : canvas :=
  {| dict := dict Canvas_init; _saved_page_states := [];
     _doc := _doc Canvas_init; _file := _file Canvas_init |}.

Definition showPage (c : canvas) : canvas :=
  Canvas_startPage
    {| dict := dict c;
       _saved_page_states := _saved_page_states c ++ [dict c];
       _doc := _doc c; _file := _file c |}.

Definition page_text (n page_count : Z) : str :=
  lit "Page " ++ str_of_int n ++ lit " of " ++ str_of_int page_count.

(** [now] is [datetime.now().strftime("%B %Y")] as read during the call. *)
Definition stamp_ops (now : str) (n page_count : Z) : list drawop :=
  [ SaveState;
    SetFont "Helvetica" 9;
    SetFillColor (HexColor "#6B7C93");
    DrawString (1 * inch) (snd letter - 0.5 * inch)
      (lit "Community Adaptation Program Evaluation Report");
    DrawRightString (fst letter - 1 * inch) (snd letter - 0.5 * inch) now;
    DrawCentredString (fst letter / 2) (0.5 * inch) (page_text n page_count);
    SetStrokeColor (HexColor "#CC0000");
    SetLineWidth 2;
    Line (1 * inch) (snd letter - 0.6 * inch)
         (fst letter - 1 * inch) (snd letter - 0.6 * inch);
    RestoreState ].

Definition draw_page_number (now : str) (page_count : Z) (c : canvas) : canvas :=
  puts (stamp_ops now (_pageNumber (dict c)) page_count) c.

(** [for state in self._saved_page_states], on the canvas and the number
    of turns made; [clock k] is the month and year that the system clock
    shows during turn [k]. *)
Definition save_state (clock : nat -> str) (num_pages : Z)
           (st : canvas * nat) (state : attrs) : canvas * nat :=
  let '(c, k) := st in
  (Canvas_showPage (draw_page_number (clock k) num_pages (set_dict c state)),
   S k).

Definition save (clock : nat -> str) (c : canvas) : canvas :=
  let num_pages := Z.of_nat (List.length (_saved_page_states c)) in
  Canvas_save showPage
    (fst (fold_left (save_state clock num_pages) (_saved_page_states c) (c, O))).

(** *** The script *)

Definition pdf_file : string :=
  "/Users/jefffranzen/cap-data/output/CAP_Evaluation_Report_Professional.pdf".

(** The three figures of the report: the chart function of
    create_cap_graphics that builds it and the image written for it. *)
Definition embed (fn img_path : string) : M unit :=
  fig <- CapGraphics.chart fn ;;
  call (write_image img_path) ;;
  found <- exists_ img_path ;;
  if found then call (load_image img_path) else ret tt.

Definition create_professional_pdf : M string :=
  call (makedirs "/Users/jefffranzen/cap-data/output") ;;
  call (read_text "/Users/jefffranzen/cap-data/Updated_CAP_Report_September_30_2025_COMPLETE.txt") ;;
  embed "create_roi_comparison" "/Users/jefffranzen/cap-data/output/roi_comparison.png" ;;
  embed "create_speed_comparison" "/Users/jefffranzen/cap-data/output/speed_comparison.png" ;;
  embed "create_cost_breakdown" "/Users/jefffranzen/cap-data/output/cost_breakdown.png" ;;
  call (build_pdf pdf_file) ;;
  call print ;;
  ret pdf_file.

(** [if __name__ == "__main__":] *)
Definition main : M unit :=
  _ <- create_professional_pdf ;;
  prints 7.

End ProfessionalPdf.

(** ** create_real_cap_pdf.py *)

Module RealCapPdf.

#[local] Open Scope Q_scope.

(** [__init__] rebinds [_pageNumber] to 0 after [Canvas.__init__]. *)
Definition NumberedCanvas_init : canvas :=
  {| dict := {| _pageNumber := 0; _code := _code (dict Canvas_init) |};
     _saved_page_states := [];
     _doc := _doc Canvas_init; _file := _file Canvas_init |}.

Definition showPage (c : canvas) : canvas :=
  Canvas_startPage
    {| dict := dict c;
       _saved_page_states := _saved_page_states c ++ [dict c];
       _doc := _doc c; _file := _file c |}.

Definition number_ops (n : Z) : list drawop :=
  [ SetFont "Times-Roman" 10;
    SetFillColor black;
    DrawRightString (fst letter - 0.75 * inch) (0.5 * inch) (str_of_int n) ].

Definition draw_page_number (c : canvas) : canvas :=
  if (1 <? _pageNumber (dict c))%Z
  then puts (number_ops (_pageNumber (dict c))) c
  else c.

(** [self._pageNumber += 1] *)
Definition bump (c : canvas) : canvas :=
  set_dict c {| _pageNumber := _pageNumber (dict c) + 1;
                _code := _code (dict c) |}.

Definition save_state (c : canvas) (state : attrs) : canvas :=
  Canvas_showPage (draw_page_number (bump (set_dict c state))).

(** [num_pages] is computed and not used. *)
Definition save (c : canvas) : canvas :=
  Canvas_save showPage (fold_left save_state (_saved_page_states c) c).

(** *** The script *)

Definition pdf_file : string :=
  "/Users/jefffranzen/cap-data/CAP_Final_Report_September_2025.pdf".

(** [create_cap_report_pdf()]: the flowables are built from the lines of
    the report text that is read, and from a literal list of captions.
    [os.path.exists] is asked once, for a placeholder paragraph; it makes
    no call that is recorded. *)
Definition create_cap_report_pdf : M string :=
  call (read_text "/Users/jefffranzen/cap-data/FINAL_CAP_Report_With_Updates.txt") ;;
  call (build_pdf pdf_file) ;;
  prints 10 ;;
  ret pdf_file.

(** [if __name__ == "__main__":] *)
Definition main : M unit :=
  _ <- create_cap_report_pdf ;;
  ret tt.

End RealCapPdf.

(** ** create_fortune500_pdf.py *)

Module Fortune500Pdf.

#[local] Open Scope string_scope.
#[local] Open Scope list_scope.

(** The flowables of the story. [Prose fn k] stands for the paragraphs,
    spacers, tables and page breaks that the function [fn] appends from
    literal text in its [k]-th stretch between visualizations. *)
Inductive flowable :=
| Paragraph (text style : string)
| Spacer (w h : Q)
| Image (path : string) (width height : Q) (hAlign : string)
| Prose (fn : string) (k : nat).

Definition flowables := list flowable.

Definition add_visualization (story : flowables) (viz_path title description : string)
           (width height : Q) : M flowables :=
  let story := story ++ [Paragraph title "SubsectionHeader"] in
  found <- exists_ viz_path ;;
  story <-
    (if found
     then try_except
            (call (load_image viz_path) ;;
             ret (story ++ [Image viz_path width height "CENTER"]))
            is_Exception
            (fun _ =>
               (* Fallback if image doesn't load *)
               ret (story ++ [Paragraph ("[Visualization: " ++ title ++ "]")%string "BodyText"]))
     else ret (story ++ [Paragraph ("[Visualization: " ++ title ++ " - File not found: "
                                      ++ viz_path ++ "]")%string "BodyText"])) ;;
  let story :=
    if (0 <? String.length description)%nat
    then story ++ [Spacer 1 6; Paragraph description "BodyText"]
    else story in
  ret (story ++ [Spacer 1 12]).

(** The defaults [width=6*inch, height=4*inch]. *)
Definition add_viz (story : flowables) (viz_path title description : string) : M flowables :=
  add_visualization story viz_path title description (6 * inch)%Q (4 * inch)%Q.

Definition prose (fn : string) (k : nat) (story : flowables) : M flowables :=
  ret (story ++ [Prose fn k]).

Definition create_executive_summary (story : flowables) : M flowables :=
  story <- prose "create_executive_summary" 0 story ;;
  story <- add_viz story
    "/Users/jefffranzen/cap-data/graphics/executive_dashboard.png"
    "CAP Performance Dashboard"
    "Comprehensive overview of CAP's impact across all key performance indicators, demonstrating consistent value delivery across multiple metrics." ;;
  prose "create_executive_summary" 1 story.

Definition create_dro_findings_section (story : flowables) : M flowables :=
  story <- prose "create_dro_findings_section" 0 story ;;
  story <- add_viz story
    "/Users/jefffranzen/cap-data/graphics/ia_uptake.png"
    "Immediate Assistance Uptake Rates"
    "CAP jurisdictions consistently demonstrate higher IA completion rates, with Terrebonne Parish achieving 93% completion during Hurricane Francine compared to 67% overall." ;;
  story <- prose "create_dro_findings_section" 1 story ;;
  story <- add_viz story
    "/Users/jefffranzen/cap-data/graphics/speed_advantage.png"
    "Response Speed Advantage"
    "CAP partners consistently deliver first services 1-4 days faster than traditional Red Cross responses across multiple disaster operations." ;;
  prose "create_dro_findings_section" 2 story.

Definition create_financial_analysis_section (story : flowables) : M flowables :=
  story <- prose "create_financial_analysis_section" 0 story ;;
  story <- add_viz story
    "/Users/jefffranzen/cap-data/graphics/cost_containment.png"
    "Cost Containment Analysis"
    "Total documented cost containment of $1.6M+ across multiple DROs, demonstrating clear financial value to Red Cross operations." ;;
  story <- add_viz story
    "/Users/jefffranzen/cap-data/graphics/roi_partner_type.png"
    "Return on Investment by Partner Type"
    "Resilience Hub and Community Gateway partners show the highest ROI, with rates exceeding 30% for strategic investments." ;;
  story <- add_viz story
    "/Users/jefffranzen/cap-data/graphics/roi_disaster_type.png"
    "ROI Analysis by Disaster Type"
    "Hurricane responses demonstrate the highest ROI at 37.3%, followed by flooding events at 25.5%." ;;
  prose "create_financial_analysis_section" 1 story.

Definition create_halo_effect_section (story : flowables) : M flowables :=
  story <- prose "create_halo_effect_section" 0 story ;;
  story <- add_viz story
    "/Users/jefffranzen/cap-data/graphics/volunteer_trends.png"
    "Volunteer Engagement Growth"
    "CAP jurisdictions show 35.92% increase in volunteer engagement compared to 16.05% national average, demonstrating enhanced community mobilization." ;;
  story <- add_viz story
    "/Users/jefffranzen/cap-data/graphics/homes_safer.png"
    "Homes Made Safer Initiative Impact"
    "CAP jurisdictions achieved 66.24% increase in homes made safer compared to 14.02% national increase, showing enhanced preparedness outcomes." ;;
  story <- add_viz story
    "/Users/jefffranzen/cap-data/graphics/stakeholder_sentiment.png"
    "Stakeholder Sentiment Analysis"
    "Overwhelmingly positive sentiment from community partners and stakeholders, with 97% reporting improved disaster service capability." ;;
  prose "create_halo_effect_section" 1 story.

Definition output_path : string :=
  "/Users/jefffranzen/cap-data/CAP_Evaluation_Report_Fortune500.pdf".

Definition create_pdf_report : M string :=
  call print ;;
  story <- prose "create_title_page" 0 [] ;;
  story <- prose "create_toc" 0 story ;;
  story <- create_executive_summary story ;;
  story <- prose "create_methodology_section" 0 story ;;
  story <- create_dro_findings_section story ;;
  story <- create_financial_analysis_section story ;;
  story <- create_halo_effect_section story ;;
  story <- prose "create_challenges_section" 0 story ;;
  story <- prose "create_recommendations_section" 0 story ;;
  story <- prose "create_implementation_section" 0 story ;;
  story <- prose "create_conclusion_section" 0 story ;;
  story <- prose "create_appendices_section" 0 story ;;
  call print ;;
  call (build_pdf output_path) ;;
  prints 2 ;;
  call (getsize output_path) ;;
  call print ;;
  ret output_path.

(** [if __name__ == "__main__":] *)
Definition main : M unit :=
  try_except
    (pdf_path <- create_pdf_report ;;
     (* Try to open the PDF (macOS) *)
     try_except
       (call (subprocess_run ["open"; pdf_path]) ;;
        call print)
       is_CalledProcessError
       (fun _ => call print))
    is_Exception
    (fun _ => call print ;; sys_exit 1).

End Fortune500Pdf.

(** ** create_fortune500_pdf.py: [NumberedCanvas] *)

Module Fortune500Canvas.

#[local] Open Scope Q_scope.

Definition ARC_RED : color := HexColor "#CC0000".
Definition ARC_GRAY : color := HexColor "#6B7C93".

(** [__init__] also sets [self.page_num = 0], an attribute that no method
    reads. *)
Definition NumberedCanvas_init : canvas :=
  {| dict := dict Canvas_init; _saved_page_states := [];
     _doc := _doc Canvas_init; _file := _file Canvas_init |}.

Definition showPage (c : canvas) : canvas :=
  Canvas_startPage
    {| dict := dict c;
       _saved_page_states := _saved_page_states c ++ [dict c];
       _doc := _doc c; _file := _file c |}.

Definition page_text (page_num total_pages : Z) : str :=
  lit "Page " ++ str_of_int (page_num - 1) ++ lit " of "
  ++ str_of_int (total_pages - 1).

Definition stamp_ops (page_num total_pages : Z) : list drawop :=
  [ SetStrokeColor ARC_RED;
    SetLineWidth 2;
    Line 72 (snd letter - 72) (fst letter - 72) (snd letter - 72);
    SetFont "Helvetica" 10;
    SetFillColor ARC_GRAY;
    DrawRightString (fst letter - 72) 36 (page_text page_num total_pages);
    SetFont "Helvetica-Bold" 10;
    SetFillColor ARC_RED;
    DrawString 72 (snd letter - 60) (lit "CAP EVALUATION REPORT") ].

Definition draw_page_number (page_num total_pages : Z) (c : canvas) : canvas :=
  if (page_num =? 1)%Z then c   (* Skip title page *)
  else puts (stamp_ops page_num total_pages) c.

(** One turn of [for (page_num, state) in enumerate(...)], on the canvas
    and the index that [enumerate] gives next. *)
Definition save_state (num_pages : Z) (st : canvas * Z) (state : attrs)
  : canvas * Z :=
  let '(c, page_num) := st in
  (Canvas_showPage (draw_page_number (page_num + 1) num_pages (set_dict c state)),
   (page_num + 1)%Z).

Definition save (c : canvas) : canvas :=
  let num_pages := Z.of_nat (List.length (_saved_page_states c)) in
  Canvas_save showPage
    (fst (fold_left (save_state num_pages) (_saved_page_states c) (c, 0%Z))).

End Fortune500Canvas.

(** ** create_real_cap_pdf.py: the report text *)

Module RealCapText.

#[local] Open Scope Q_scope.

(** The flowables that the loop over the lines appends. *)
Inductive element :=
| Paragraph (text : str) (style : string)
| Spacer (w h : Q).

(** The prefix of a bullet line as the source file has it: the three
    code points U+00E2, U+20AC, U+00A2 and a space. *)
Definition bullet : str := [226; 8364; 162; 32]%N.

Definition quote : str := [34%N].

Definition section_header (line : str) : bool :=
  startswith line (lit "I. ") || startswith line (lit "II. ")
  || startswith line (lit "III. ") || startswith line (lit "IV. ")
  || startswith line (lit "V. ") || startswith line (lit "VI. ")
  || startswith line (lit "VII. ") || startswith line (lit "VIII. ")
  || startswith line (lit "IX. ").

Definition subsection_header (line : str) : bool :=
  startswith line (lit "A. ") || startswith line (lit "B. ")
  || startswith line (lit "C. ") || startswith line (lit "D. ")
  || startswith line (lit "E. ").

Definition figure_1 : list element :=
  [ Spacer 1 (0.2 * inch);
    Paragraph (lit "<i>[Figure 1: Return on Investment by Disaster Type - See attached visualizations]</i>")
              "Normal";
    Spacer 1 (0.2 * inch) ].

(** One turn of [for line in lines], on [elements] and [in_bullet];
    [roi_exists] is what [os.path.exists] answers for roi_by_disaster.html. *)
Definition process_line (roi_exists : bool) (st : list element * bool) (line : str)
  : list element * bool :=
  let '(elements, in_bullet) := st in
  let line := strip line in
  if negb (truthy line) then
    ((if negb in_bullet then elements ++ [Spacer 1 (0.1 * inch)] else elements),
     false)
  else if section_header line then
    let elements := elements ++ [Paragraph line "SectionHeader"] in
    ((if contains line (lit "Executive Summary")
      then (if roi_exists then elements ++ figure_1 else elements)
      else elements),
     false)
  else if subsection_header line then
    (elements ++ [Paragraph line "SubsectionHeader"], false)
  else if eqb line (lit "Key Findings:") then
    (elements ++ [Paragraph (lit "<b>" ++ line ++ lit "</b>") "BodyJustified"], false)
  else if startswith line bullet then
    (elements ++ [Paragraph line "BulletStyle"], true)
  else if startswith line (lit "o ") then
    (elements ++ [Paragraph (lit "    " ++ line) "BulletStyle"], true)
  else if startswith line quote && endswith line quote then
    (elements ++ [Paragraph (lit "<i>" ++ line ++ lit "</i>") "BodyJustified"], false)
  else
    let in_bullet :=
      if in_bullet && negb (startswith line (lit " ")) then false else in_bullet in
    (elements ++ [Paragraph line "BodyJustified"], in_bullet).

(** The loop, from the elements built so far. *)
Definition process_lines (roi_exists : bool) (elements : list element) (content : str)
  : list element * bool :=
  fold_left (process_line roi_exists) (splitlines content) (elements, false).

End RealCapText.

(** ** create_pdf_simple.py: the executive summary *)

Module SimpleText.

Inductive element :=
| Paragraph (text : str) (style : string).

Definition summary_marker : str := lit "The Community Adaptation Program (CAP)".

Definition findings_marker : str := lit "Key Findings:".

Definition exec_summary_start (full_content : str) : Z :=
  find full_content summary_marker.

Definition exec_summary_end (full_content : str) : Z :=
  find full_content findings_marker.

(** The statement [if exec_summary_start > 0 and exec_summary_end > 0: ...],
    on the elements built so far. *)
Definition add_exec_summary (elements : list element) (full_content : str)
  : list element :=
  let exec_summary_start := exec_summary_start full_content in
  let exec_summary_end := exec_summary_end full_content in
  if (0 <? exec_summary_start)%Z && (0 <? exec_summary_end)%Z
  then
    let exec_text := strip (slice full_content exec_summary_start exec_summary_end) in
    elements ++ [Paragraph exec_text "CustomBody"]
  else elements.

End SimpleText.

(** ** create_professional_pdf.py: the report text *)

Module ProfessionalText.

Inductive element :=
| Paragraph (text : str) (style : string).

(** [content.split('\n\n')] *)
Definition sections (content : str) : list str :=
  split_sep [10; 10]%N 0 [] content.

(** [if line.strip(): elements.append(Paragraph(line, styles['CustomBody']))] *)
Definition add_body_line (elements : list element) (line : str) : list element :=
  if truthy (strip line)
  then elements ++ [Paragraph line "CustomBody"]
  else elements.

(** One turn of the loop that processes the executive summary, on
    [elements] and [exec_summary_found]. *)
Definition exec_summary_section (st : list element * bool) (section : str)
  : list element * bool :=
  let '(elements, exec_summary_found) := st in
  if contains section (lit "Executive Summary") && negb exec_summary_found
  then
    let lines := tl (splitlines section) in
    (fold_left add_body_line (firstn 10 lines) elements, true)
  else (elements, exec_summary_found).

Definition add_exec_summary (elements : list element) (sections : list str)
  : list element :=
  fst (fold_left exec_summary_section sections (elements, false)).

(** The bullet U+2022. *)
Definition bullet : str := [8226%N].

Definition add_quality_line (elements : list element) (line : str) : list element :=
  if truthy (strip line) && contains line bullet
  then elements ++ [Paragraph line "BulletText"]
  else if truthy (strip line)
       then elements ++ [Paragraph line "CustomBody"]
       else elements.

(** One turn of the loop that finds the quality section. *)
Definition quality_section (elements : list element) (section : str) : list element :=
  if contains section (lit "Quality of Service:")
  then
    let lines := splitlines section in
    fold_left add_quality_line (firstn 7 (skipn 1 lines)) elements
  else elements.

Definition add_quality (elements : list element) (sections : list str)
  : list element :=
  fold_left quality_section sections elements.

End ProfessionalText.

(** ** The scripts of the repository *)

Definition scripts : list (string * M unit) :=
  [ ("create_cap_graphics.py", CapGraphics.main);
    ("Python/create_20_visualizations.py", Viz20.main);
    ("Python/create_cool_visualizations.py", CoolViz.main);
    ("create_cool_visualizations_fixed.py", CoolVizFixed.main);
    ("fortune500_graphics.py", Fortune500Graphics.main);
    ("convert_to_images.py", ConvertToImages.main);
    ("create_pdf_simple.py", SimplePdf.main);
    ("create_professional_pdf.py", ProfessionalPdf.main);
    ("create_real_cap_pdf.py", RealCapPdf.main);
    ("create_fortune500_pdf.py", Fortune500Pdf.main) ]%string.

(** ** Notions used in the statements *)

(** A word: non-empty and free of whitespace. *)
Definition nospace (s : str) : Prop := Forall (fun c => isspace c = false) s.

Definition word (w : str) : Prop := w <> [] /\ nospace w.

(** A wrapped line fits, or it is one word that is longer than the limit. *)
Definition line_fits (line : str) : Prop :=
  (len line <= SimplePdf.max_chars_per_line)%nat
  \/ ((SimplePdf.max_chars_per_line < len line)%nat /\ split line = [line]).

(** The number of lines, out of [n], that the drawing loop of the simple
    call-out box draws when it starts at height [y]: it draws while
    [y_position] is above 0.2 inch and steps down by 0.18 inch. *)
Fixpoint room (n : nat) (y : Q) : nat :=
  match n with
  | O => O
  | S n' => if Qltb (0.2 * inch) y then S (room n' (y - 0.18 * inch)) else O
  end.

(** The number of lines for which a simple call-out box has room, by the
    length of its content: boxes of 1.0, 1.3, 1.6 and 2.0 inch. *)
Definition capacity (char_count : nat) : nat :=
  if (char_count <? 50)%nat then 2
  else if (char_count <? 100)%nat then 4
  else if (char_count <? 150)%nat then 5
  else 7.

(** The words that a drawn text shows. *)
Definition words_of (drawn : list str) : list str :=
  List.concat (map split drawn).

(** The characters that a list of words or lines takes, counting one
    separator after each. *)
Definition cost (ws : list str) : nat := list_sum (map (fun w => S (len w)) ws).

(** A line that consists of its words and one space between them. *)
Definition tight (line : str) : Prop := S (len line) = cost (split line).

(** The copies of [__dict__] that [showPage] saves when the pages [pages]
    are drawn one after the other, starting with the page counter at [j]. *)
Fixpoint snapshots (j : Z) (pages : list page) : list attrs :=
  match pages with
  | [] => []
  | p :: pages' => {| _pageNumber := j; _code := p |} :: snapshots (j + 1) pages'
  end.

(** The stamp that [draw_page_number] of create_pdf_simple.py adds to a
    page whose number is [i]. *)
Definition simple_stamp (i page_count : Z) : list drawop :=
  [SaveState]
  ++ (if (1 <? i)%Z then SimplePdf.header_ops else [])
  ++ (if (1 <? i)%Z then SimplePdf.number_ops i page_count else [])
  ++ [RestoreState].

(** The stamp that [draw_page_number] of create_real_cap_pdf.py adds to a
    page whose number is [i]. *)
Definition real_cap_stamp (i : Z) : list drawop :=
  if (1 <? i)%Z then RealCapPdf.number_ops i else [].

(** What a call returns, if it returns. *)
Definition returned {A} (m : M A) (w : world) (s : state) : option A :=
  match fst (m w s) with
  | inl a => Some a
  | inr _ => None
  end.

(** A chart function that returns the same figure at every call, whatever
    ran before. *)
Definition same_figure_at_every_call (f : M figure) : Prop :=
  forall w s1 s2, returned f w s1 = returned f w s2.

(** The chart functions whose plotly calls are transcribed. *)
Definition transcribed_chart_functions : list (M figure) :=
  [ Viz20.create_roi_by_disaster;
    CapGraphics.create_speed_comparison;
    CoolVizFixed.create_3d_scatter ].

(** Two states from which the next [n] normal samples are the same. *)
Definition agree (w : world) (n : nat) (s1 s2 : state) : Prop :=
  forall i, (i < n)%nat -> gauss w (drawn s1 + i) = gauss w (drawn s2 + i).

(** A computation whose result depends on the state at most through the
    next [k] normal samples. *)
Definition uses {A} (k : nat) (m : M A) : Prop :=
  forall w s1 s2 n,
    agree w (k + n) s1 s2 ->
    fst (m w s1) = fst (m w s2) /\ agree w n (snd (m w s1)) (snd (m w s2)).

(** The colour constants that each chart script defines. *)
Definition color_tables : list (string * list string) :=
  [ ("create_cap_graphics.py", map snd CapGraphics.cap_colors);
    ("convert_to_images.py",
       [ ConvertToImages.ARC_RED; ConvertToImages.ARC_GRAY;
         ConvertToImages.ARC_DARK_GRAY; ConvertToImages.ARC_LIGHT_GRAY ]);
    ("fortune500_graphics.py", map snd Fortune500Graphics.ARC_COLORS);
    ("Python/create_20_visualizations.py",
       [ Viz20.ARC_RED; Viz20.ARC_GRAY; Viz20.ARC_DARK_GRAY;
         Viz20.ARC_LIGHT_GRAY; Viz20.ARC_BLACK; Viz20.ARC_WHITE ]);
    ("Python/create_cool_visualizations.py",
       ([ CoolViz.ARC_RED; CoolViz.ARC_GRAY; CoolViz.ARC_DARK_GRAY;
          CoolViz.ARC_LIGHT_GRAY; CoolViz.ARC_BLACK; CoolViz.ARC_WHITE ]
        ++ CoolViz.PALETTE)%list);
    ("create_cool_visualizations_fixed.py",
       [ CoolVizFixed.ARC_RED; CoolVizFixed.ARC_GRAY;
         CoolVizFixed.ARC_DARK_GRAY; CoolVizFixed.ARC_LIGHT_GRAY ]) ]%string.

(** The figures of the chart functions whose plotly calls are transcribed,
    for any labels and any data with noise. *)
Definition transcribed_figures (labels : list string) (roi speed quality : list Q)
  : list figure :=
  [ CapGraphics.speed_comparison_figure;
    Viz20.roi_by_disaster_figure labels;
    CoolVizFixed.scatter_3d_figure roi speed quality;
    Fortune500Graphics.executive_dashboard_figure ].

(** C2 as stated: one set of colours is the colour table of every script,
    and every chart takes its colours from it. *)
Definition one_palette_for_all_charts : Prop :=
  exists palette : list string,
    (forall script table,
        In (script, table) color_tables ->
        forall c, In c table <-> In c palette)
    /\ (forall labels roi speed quality fig,
           In fig (transcribed_figures labels roi speed quality) ->
           incl (colors_of fig) palette).

(** A world in which every call succeeds and every file exists. *)
Definition all_succeed : world :=
  {| outcome := fun _ => None;
     path_exists := fun _ => true;
     gauss := fun _ => 0;
     format_1f := fun _ => EmptyString |}.

(** The same world, but for the call [o], which raises [e]. *)
Definition fails_only (o : op) (e : exn) : world :=
  {| outcome := fun o' => if op_eqb o' o then Some e else None;
     path_exists := fun _ => true;
     gauss := fun _ => 0;
     format_1f := fun _ => EmptyString |}.

(** The calls that a script makes when none fails. *)
Definition attempted (main : M unit) : list op := trace (snd (run main all_succeed)).

(** The exception with which a run ends, if it ends with one. *)
Definition escapes {A} (m : M A) (w : world) : option exn :=
  match fst (run m w) with
  | inl _ => None
  | inr e => Some e
  end.

(** Static image export: [fig.write_image], [pio.write_image]. *)
Definition is_image_export (o : op) : bool :=
  match o with
  | write_image _ => true
  | _ => false
  end.

(** C1 as stated: no handler around anything but static image export, so
    that the failure of any other call ends the script with the exception
    raised. *)
Definition handlers_only_around_image_export : Prop :=
  forall script main,
    In (script, main) scripts ->
    forall o message,
      In o (attempted main) ->
      is_image_export o = false ->
      escapes main (fails_only o (Exception message)) = Some (Exception message).

(** How each script ends when the call [o] alone fails with
    [Exception(message)]: [None] when the script handles the failure and
    ends normally. *)
Definition ends_with (script : string) (o : op) (message : string) : option exn :=
  let raised := Some (Exception message) in
  if String.eqb script "create_cap_graphics.py" then
    if is_image_export o then None else raised
  else if String.eqb script "Python/create_cool_visualizations.py"
          || String.eqb script "create_cool_visualizations_fixed.py" then
    if is_image_export o then None else raised
  else if String.eqb script "fortune500_graphics.py" then
    match o with print => raised | _ => None end
  else if String.eqb script "convert_to_images.py" then
    match o with
    | plotly _ | write_html _ | write_image _ => None
    | _ => raised
    end
  else if String.eqb script "create_pdf_simple.py" then
    match o with print => raised | _ => None end
  else if String.eqb script "create_fortune500_pdf.py" then
    match o with
    | load_image _ => None
    | print => raised
    | _ => Some (SystemExit 1)
    end
  else raised.

(** An output file written: HTML, PNG or JPG image, or PDF. *)
Definition is_output_file (o : op) : bool :=
  match o with
  | write_html _ | write_image _ | build_pdf _ => true
  | _ => false
  end.

(** A call of a chart-construction function. *)
Definition is_chart_call (o : op) : bool :=
  match o with
  | plotly _ => true
  | _ => false
  end.

(** C7 as stated, for what a run shows of it: every script calls
    chart-construction functions and writes an output file. *)
Definition every_script_charts_and_writes : Prop :=
  forall script main,
    In (script, main) scripts ->
    existsb is_chart_call (attempted main) = true
    /\ existsb is_output_file (attempted main) = true.

(** The scripts that build no chart. *)
Definition layout_only : list string :=
  [ "create_pdf_simple.py"; "create_real_cap_pdf.py"; "create_fortune500_pdf.py" ]%string.

(** C6 as stated, for the image of a visualization: when it cannot be
    loaded, the failure is passed on and nothing stands in for the image. *)
Definition no_fallback_for_images : Prop :=
  forall story viz_path title description w e,
    path_exists w viz_path = true ->
    outcome w (load_image viz_path) = Some e ->
    fst (run (Fortune500Pdf.add_viz story viz_path title description) w) = inr e.

(** ** Sample inputs *)

Definition forty_a : str := repeat 97%N 40.

(** Eight words of forty characters: 327 characters that wrap to eight
    lines. *)
Definition eight_long_words : str :=
  forty_a ++ List.concat (repeat (space :: forty_a) 7).

Definition long_box : SimplePdf.CalloutBox :=
  {| SimplePdf.title := lit "FUTURE VISION";
     SimplePdf.content := eight_long_words;
     SimplePdf.box_type := "metric"%string |}.

(** A call-out of the simple report, 97 characters. *)
Definition vision_box : SimplePdf.CalloutBox :=
  {| SimplePdf.title := lit "FUTURE VISION";
     SimplePdf.content :=
       lit "ESSENTIAL FOR FY27 AND BEYOND - Critical disaster tool + Powerful steady-state mobilization asset";
     SimplePdf.box_type := "metric"%string |}.

(** A call-out of the professional report, 66 characters. *)
Definition roi_box : ProfessionalPdf.CalloutBox :=
  {| ProfessionalPdf.title := lit "RETURN ON INVESTMENT";
     ProfessionalPdf.content :=
       lit "$1.6M IN COST CONTAINMENT - 28.3% ROI on $5.67M partner investment";
     ProfessionalPdf.box_type := "success"%string |}.

Definition priority_box : ProfessionalPdf.CalloutBox :=
  {| ProfessionalPdf.title := lit "PRIORITY ACTIONS";
     ProfessionalPdf.content :=
       lit "TOP 3: 1. Invest in Blue-Sky Relationships 2. Formalize MOUs 3. Institutionalize CAP Liaison Role";
     ProfessionalPdf.box_type := "priority"%string |}.

(** The content of a document of three pages. *)
Definition three_pages : list page :=
  [ [DrawString 72 700 (lit "Community Adaptation Program")];
    [DrawString 72 700 (lit "Key Findings")];
    [DrawString 72 700 (lit "Strategic Recommendations")] ].

(** A world in which every call succeeds and the [n]-th normal sample is
    [n]. *)
Definition counting_world : world :=
  {| outcome := fun _ => None;
     path_exists := fun _ => true;
     gauss := fun n => inject_Z (Z.of_nat n);
     format_1f := fun _ => EmptyString |}.

(** A world in which every call succeeds and every normal sample is 1/2. *)
Definition steady_world : world :=
  {| outcome := fun _ => None;
     path_exists := fun _ => true;
     gauss := fun _ => 0.5%Q;
     format_1f := fun _ => EmptyString |}.

Definition later : state := {| trace := [print]; drawn := 7 |}.

Definition dashboard_png : string :=
  "/Users/jefffranzen/cap-data/graphics/executive_dashboard.png"%string.

(** ** Further notions used in the statements *)

(** The stamp that [draw_page_number] of create_fortune500_pdf.py adds to
    the page that [enumerate] counts as [page_num]. *)
Definition fortune500_stamp (page_num total_pages : Z) : list drawop :=
  if (page_num =? 1)%Z then []
  else Fortune500Canvas.stamp_ops page_num total_pages.

(** The pages that [save] of create_fortune500_pdf.py adds for the saved
    states [states], the first of which [enumerate] counts as [j + 1]. *)
Fixpoint fortune500_pages (total_pages j : Z) (states : list attrs) : list page :=
  match states with
  | [] => []
  | state :: states' =>
      (_code state ++ fortune500_stamp (j + 1) total_pages)
      :: fortune500_pages total_pages (j + 1) states'
  end.

(** [' '.join(words)] *)
Fixpoint join_words (words : list str) : str :=
  match words with
  | [] => []
  | [w] => w
  | w :: words' => w ++ space :: join_words words'
  end.

(** A line of text as the wrapping loop builds it: not empty, its words
    joined by single spaces, no whitespace at either end. *)
Definition well_spaced (line : str) : Prop :=
  line = join_words (split line)
  /\ (exists c rest, line = c :: rest /\ isspace c = false)
  /\ (exists rest c, line = rest ++ [c] /\ isspace c = false).

(** A world in which [print] works. *)
Definition print_works (w : world) : Prop := outcome w print = None.

(** A world in which the calls raise nothing but [Exception]s. *)
Definition only_Exceptions (w : world) : Prop :=
  forall o e, outcome w o = Some e -> is_Exception e = true.

(** A world in which nothing but static image export fails. *)
Definition only_image_export_fails (w : world) : Prop :=
  forall o, is_image_export o = false -> outcome w o = None.

(** The calls that a run completes. *)
Definition calls_of {A} (m : M A) (w : world) : list op := trace (snd (run m w)).

(** The static images among the calls [t]. *)
Definition images_of (t : list op) : list op := filter is_image_export t.

(** A computation that completes only calls that satisfy [P], keeps the
    calls completed before it, and raises only what one of its calls
    raised. *)
Definition tame (P : op -> Prop) {A} (m : M A) : Prop :=
  forall w s, exists t,
    trace (snd (m w s)) = trace s ++ t
    /\ Forall P t
    /\ forall e, fst (m w s) = inr e -> exists o, outcome w o = Some e.

(** The items of [l] before the first that does not satisfy [ok]. *)
Fixpoint take_while {A} (ok : A -> bool) (l : list A) : list A :=
  match l with
  | [] => []
  | x :: l' => if ok x then x :: take_while ok l' else []
  end.

(** A call that works in the world [w]. *)
Definition works (w : world) (o : op) : bool :=
  match outcome w o with
  | None => true
  | Some _ => false
  end.

(** A call that is not a static image export. *)
Definition no_image (o : op) : Prop := is_image_export o = false.

(** The exception with which a result ends, if it is one. *)
Definition exn_of {A} (r : A + exn) : option exn :=
  match r with
  | inl _ => None
  | inr e => Some e
  end.

(** [does w m t r]: in the world [w] and from any state, [m] completes the
    calls [t], in this order, and then returns ([r] is [None]) or raises
    [e] ([r] is [Some e]). *)
Definition does {A} (w : world) (m : M A) (t : list op) (r : option exn) : Prop :=
  forall s, trace (snd (m w s)) = trace s ++ t /\ exn_of (fst (m w s)) = r.

(** What the first call of [ops] that fails raises. *)
Fixpoint first_failure (w : world) (ops : list op) : option exn :=
  match ops with
  | [] => None
  | o :: ops' =>
      match outcome w o with
      | Some e => Some e
      | None => first_failure w ops'
      end
  end.

(** A computation that makes the calls [ops] one after the other and
    stops at the first that fails, with what it raises. *)
Definition linear {A} (w : world) (ops : list op) (m : M A) : Prop :=
  does w m (take_while (works w) ops) (first_failure w ops).

(** The calls that a script attempts in the world [w]: an image is loaded
    only if its file exists. *)
Definition attempts (w : world) (o : op) : bool :=
  match o with
  | load_image path => path_exists w path
  | _ => true
  end.

(** The calls that a chart function of the cool-visualization scripts
    completes when nothing but static image export fails; [item] is the
    function and the name under which it saves the figure. *)
Definition cool_chart_calls (w : world) (item : string * string) : list op :=
  let html := ("/Users/jefffranzen/cap-data/cool_visualizations/" ++ snd item ++ ".html")%string in
  let png := ("/Users/jefffranzen/cap-data/cool_visualizations/" ++ snd item ++ ".png")%string in
  [plotly (fst item); write_html html]
    ++ (if works w (write_image png) then [write_image png] else [])
    ++ [print].

(** The HTML and the PNG file of a figure of the cool-visualization
    scripts. *)
Definition cool_html (item : string * string) : op :=
  write_html ("/Users/jefffranzen/cap-data/cool_visualizations/" ++ snd item ++ ".html")%string.

Definition cool_png (item : string * string) : op :=
  write_image ("/Users/jefffranzen/cap-data/cool_visualizations/" ++ snd item ++ ".png")%string.

(** The HTML and the PNG file of a chart of fortune500_graphics.py;
    [item] is the name of the chart and the function that builds it. *)
Definition f500_html (item : string * string) : op :=
  write_html (Fortune500Graphics.graphics_dir ++ "/" ++ fst item ++ ".html")%string.

Definition f500_png (item : string * string) : op :=
  write_image (Fortune500Graphics.graphics_dir ++ "/" ++ fst item ++ ".png")%string.

(** The image files that create_fortune500_pdf.py embeds, in the order of
    the sections. *)
Definition viz_paths : list string :=
  [ "/Users/jefffranzen/cap-data/graphics/executive_dashboard.png";
    "/Users/jefffranzen/cap-data/graphics/ia_uptake.png";
    "/Users/jefffranzen/cap-data/graphics/speed_advantage.png";
    "/Users/jefffranzen/cap-data/graphics/cost_containment.png";
    "/Users/jefffranzen/cap-data/graphics/roi_partner_type.png";
    "/Users/jefffranzen/cap-data/graphics/roi_disaster_type.png";
    "/Users/jefffranzen/cap-data/graphics/volunteer_trends.png";
    "/Users/jefffranzen/cap-data/graphics/homes_safer.png";
    "/Users/jefffranzen/cap-data/graphics/stakeholder_sentiment.png" ]%string.

(** An image file that exists and that ReportLab can load. *)
Definition loadable (w : world) (path : string) : bool :=
  path_exists w path && works w (load_image path).

(** The images among [paths] that are loaded. *)
Definition loaded (w : world) (paths : list string) : list op :=
  map load_image (filter (loadable w) paths).

Definition is_load_image (o : op) : bool :=
  match o with
  | load_image _ => true
  | _ => false
  end.

(** Opening the PDF works, or fails with the [CalledProcessError] that the
    script handles. *)
Definition opened (w : world) : bool :=
  match outcome w (subprocess_run ["open"; Fortune500Pdf.output_path]%string) with
  | None => true
  | Some e => is_CalledProcessError e
  end.

(** A line that the box of create_professional_pdf.py may draw: one word,
    or narrower than the box less its margins. *)
Definition fits_width (stringWidth : str -> string -> Q -> Q) (line : str) : Prop :=
  split line = [line]
  \/ stringWidth line "Helvetica"%string 10 < ProfessionalPdf.max_width.

(** A line of the report text that create_real_cap_pdf.py sets as a
    bullet or a sub-bullet. *)
Definition bullet_line (line : str) : bool :=
  startswith (strip line) RealCapText.bullet || startswith (strip line) (lit "o ").

(** The paragraphs that come from a line of the report text: all but the
    note that stands for Figure 1, the only paragraph that the loop sets
    in the style ['Normal']. *)
Definition from_line (e : RealCapText.element) : bool :=
  match e with
  | RealCapText.Paragraph _ style => negb (String.eqb style "Normal")
  | RealCapText.Spacer _ _ => false
  end.

Definition paragraph_text (e : RealCapText.element) : str :=
  match e with
  | RealCapText.Paragraph text _ => text
  | RealCapText.Spacer _ _ => []
  end.

(** [text] is [line] with markup or indentation around it. *)
Definition decorates (text line : str) : Prop :=
  exists before after, text = before ++ line ++ after.

(** A line that is not blank. *)
Definition not_blank (line : str) : bool := truthy (strip line).

(** The paragraph that create_professional_pdf.py makes of a line of the
    quality section. *)
Definition quality_paragraph (line : str) : ProfessionalText.element :=
  ProfessionalText.Paragraph
    line (if contains line ProfessionalText.bullet then "BulletText" else "CustomBody").

(** The height at which a text operator draws. *)
Definition text_y (op : drawop) : option Q :=
  match op with
  | DrawString _ y _ | DrawRightString _ y _ | DrawCentredString _ y _ => Some y
  | _ => None
  end.

Fixpoint text_ys (ops : list drawop) : list Q :=
  match ops with
  | [] => []
  | op :: ops' =>
      match text_y op with
      | Some y => y :: text_ys ops'
      | None => text_ys ops'
      end
  end.

(** The height of line [k] when the first line is at [top] and the
    lines are [step] apart. *)
Definition line_y (top step : Q) (k : nat) : Q :=
  top - inject_Z (Z.of_nat k) * step.

(** * Properties *)

(** ** The model at work *)

Example split_skips_runs_of_whitespace :
  split (lit "  a bc   d ") = [lit "a"; lit "bc"; lit "d"].
Proof. reflexivity. Qed.

Example strip_removes_both_ends : strip (lit "  a b  ") = lit "a b".
Proof. reflexivity. Qed.

Example str_of_int_digits :
  str_of_int 1205 = lit "1205" /\ str_of_int 0 = lit "0" /\ str_of_int 10 = lit "10".
Proof. repeat split; reflexivity. Qed.

Example vision_box_wraps_to_two_lines :
  SimplePdf.wrap (SimplePdf.content vision_box)
  = [ lit "ESSENTIAL FOR FY27 AND BEYOND - Critical disaster tool + Powerful";
      lit "steady-state mobilization asset" ].
Proof. vm_compute. reflexivity. Qed.

Example vision_box_height :
  len (SimplePdf.content vision_box) = 97%nat
  /\ SimplePdf.height vision_box == 1.3 * inch.
Proof. split; vm_compute; reflexivity. Qed.

Example long_box_draws_seven_lines :
  List.length (SimplePdf.wrap (SimplePdf.content long_box)) = 8%nat
  /\ List.length (SimplePdf.drawn_content long_box) = 7%nat.
Proof. split; vm_compute; reflexivity. Qed.

Example simple_canvas_three_pages :
  map texts (_doc (build SimplePdf.NumberedCanvas_init SimplePdf.showPage
                     SimplePdf.save three_pages))
  = [ [ lit "Community Adaptation Program" ];
      [ lit "Key Findings";
        lit "Community Adaptation Program Evaluation Report";
        lit "September 2025"; lit "Page 2 of 3" ];
      [ lit "Strategic Recommendations";
        lit "Community Adaptation Program Evaluation Report";
        lit "September 2025"; lit "Page 3 of 3" ] ].
Proof. vm_compute. reflexivity. Qed.

Example real_cap_canvas_three_pages :
  map texts (_doc (build RealCapPdf.NumberedCanvas_init RealCapPdf.showPage
                     RealCapPdf.save three_pages))
  = [ [ lit "Community Adaptation Program" ];
      [ lit "Key Findings"; lit "2" ];
      [ lit "Strategic Recommendations"; lit "3" ] ].
Proof. vm_compute. reflexivity. Qed.

Example cap_graphics_without_kaleido :
  escapes CapGraphics.main
    (fails_only (write_image "/Users/jefffranzen/cap-data/graphics/roi_comparison.png")
                (Exception "kaleido is not installed"))
  = None
  /\ escapes CapGraphics.main
       (fails_only (write_html "/Users/jefffranzen/cap-data/graphics/roi_comparison.html")
                   (Exception "No such file or directory"))
     = Some (Exception "No such file or directory").
Proof. split; vm_compute; reflexivity. Qed.

(** ** Words of a string *)

Section Words.

Lemma truthy_true (s : str) : truthy s = true <-> s <> [].
Proof. destruct s; simpl; split; congruence. Qed.

Lemma truthy_false (s : str) : truthy s = false <-> s = [].
Proof. destruct s; simpl; split; congruence. Qed.

Lemma nospace_rev (s : str) : nospace s -> nospace (rev s).
Proof. unfold nospace. intros H. now apply Forall_rev. Qed.

Lemma split_from_nospace (w : str) :
  nospace w -> forall cur s, split_from cur (w ++ s) = split_from (rev w ++ cur) s.
Proof.
  induction 1 as [|c w Hc Hw IH]; intros cur s; simpl.
  - reflexivity.
  - rewrite Hc, IH, <- app_assoc. reflexivity.
Qed.

Lemma split_word (w : str) : word w -> split w = [w].
Proof.
  intros [Hne Hw]. unfold split.
  rewrite <- (app_nil_r w) at 1.
  rewrite split_from_nospace by assumption.
  simpl. rewrite app_nil_r, rev_involutive.
  destruct w as [|c w]; [congruence|].
  destruct (rev (c :: w)) eqn:E; simpl.
  - apply (f_equal (@rev _)) in E. rewrite rev_involutive in E. discriminate.
  - reflexivity.
Qed.

Lemma split_from_words (s : str) :
  forall cur, nospace cur -> Forall word (split_from cur s).
Proof.
  induction s as [|c s IH]; intros cur Hcur; simpl.
  - destruct (truthy cur) eqn:E; constructor; [|constructor].
    split.
    + apply truthy_true in E. intros R. apply E.
      apply (f_equal (@rev _)) in R. now rewrite rev_involutive in R.
    + now apply nospace_rev.
  - destruct (isspace c) eqn:Ec.
    + destruct (truthy cur) eqn:E.
      * constructor; [|apply IH; constructor].
        split.
        -- apply truthy_true in E. intros R. apply E.
           apply (f_equal (@rev _)) in R. now rewrite rev_involutive in R.
        -- now apply nospace_rev.
      * apply IH. constructor.
    + apply IH. constructor; assumption.
Qed.

Lemma split_words (s : str) : Forall word (split s).
Proof. apply split_from_words. constructor. Qed.

(** Appending a space and a word to any string appends the word to its
    words. *)
Lemma split_from_snoc_word (w : str) :
  word w ->
  forall s cur, split_from cur (s ++ space :: w) = split_from cur s ++ [w].
Proof.
  intros Hw. induction s as [|c s IH]; intros cur.
  - simpl. change (split_from [] w) with (split w). rewrite split_word by assumption.
    destruct (truthy cur); reflexivity.
  - simpl. destruct (isspace c).
    + destruct (truthy cur); rewrite IH; reflexivity.
    + apply IH.
Qed.

Lemma split_snoc_word (s w : str) :
  word w -> split (s ++ space :: w) = split s ++ [w].
Proof. intros Hw. apply split_from_snoc_word. assumption. Qed.

(** Leading whitespace does not change the words. *)
Lemma split_lstrip (s : str) : split (lstrip s) = split s.
Proof.
  unfold split. induction s as [|c s IH]; simpl.
  - reflexivity.
  - destruct (isspace c) eqn:E.
    + exact IH.
    + simpl. rewrite E. reflexivity.
Qed.

Lemma lstrip_split_spaces (s : str) :
  exists ws, Forall (fun c => isspace c = true) ws /\ s = ws ++ lstrip s.
Proof.
  induction s as [|c s [ws [Hws E]]]; simpl.
  - exists []. split; [constructor | reflexivity].
  - destruct (isspace c) eqn:Ec.
    + exists (c :: ws). split; [constructor; assumption|].
      simpl. now rewrite <- E.
    + exists []. split; [constructor | reflexivity].
Qed.

Lemma rstrip_split_spaces (s : str) :
  exists ws, Forall (fun c => isspace c = true) ws /\ s = rstrip s ++ ws.
Proof.
  destruct (lstrip_split_spaces (rev s)) as [ws [Hws E]].
  exists (rev ws). split.
  - now apply Forall_rev.
  - unfold rstrip. rewrite <- rev_app_distr, <- E. now rewrite rev_involutive.
Qed.

Lemma split_from_spaces (ws : str) :
  Forall (fun c => isspace c = true) ws ->
  forall cur, split_from cur ws = split_from cur [].
Proof.
  induction 1 as [|c ws Hc Hws IH]; intros cur.
  - reflexivity.
  - simpl. rewrite Hc, (IH []). simpl. reflexivity.
Qed.

Lemma split_from_trailing_spaces (ws : str) :
  Forall (fun c => isspace c = true) ws ->
  forall s cur, split_from cur (s ++ ws) = split_from cur s.
Proof.
  intros Hws. induction s as [|c s IH]; intros cur.
  - simpl. now apply split_from_spaces.
  - simpl. destruct (isspace c).
    + destruct (truthy cur); now rewrite IH.
    + apply IH.
Qed.

Lemma split_rstrip (s : str) : split (rstrip s) = split s.
Proof.
  destruct (rstrip_split_spaces s) as [ws [Hws E]].
  rewrite E at 2. unfold split.
  now rewrite split_from_trailing_spaces.
Qed.

(** [strip] keeps the words. *)
Lemma split_strip (s : str) : split (strip s) = split s.
Proof. unfold strip. now rewrite split_rstrip, split_lstrip. Qed.

End Words.

(** ** create_pdf_simple.py: wrapping the content of a call-out box *)

Section Wrap.

Import SimplePdf.

Lemma line_fits_word (w : str) : word w -> line_fits w.
Proof.
  intros Hw. unfold line_fits.
  destruct (le_lt_dec (len w) max_chars_per_line) as [H|H].
  - now left.
  - right. split; [assumption | now apply split_word].
Qed.

(** The loop invariant of [for word in words]: the lines closed so far
    fit, the open line fits unless it is empty, and the words of the
    closed lines followed by those of the open line are the words read. *)
Lemma wrap_word_invariant (words : list str) :
  Forall word words ->
  forall lines current_line,
    Forall line_fits lines ->
    current_line = [] \/ line_fits current_line ->
    let '(lines', current_line') :=
      fold_left wrap_word words (lines, current_line) in
    Forall line_fits lines'
    /\ (current_line' = [] \/ line_fits current_line')
    /\ List.concat (map split lines') ++ split current_line'
       = List.concat (map split lines) ++ split current_line ++ words.
Proof.
  induction 1 as [|w words Hw Hws IH]; intros lines cur Hlines Hcur.
  - simpl. rewrite app_nil_r. auto.
  - simpl fold_left. change 32%N with space.
    destruct (len (cur ++ space :: w) <=? max_chars_per_line)%nat eqn:Hfit.
    + apply Nat.leb_le in Hfit.
      destruct (truthy cur) eqn:Hne; cbv iota.
      * assert (Hnew : cur ++ space :: w = [] \/ line_fits (cur ++ space :: w))
          by (right; now left).
        specialize (IH lines (cur ++ space :: w) Hlines Hnew). revert IH.
        destruct (fold_left wrap_word words _) as [lines' cur'].
        cbv beta iota. intros (H1 & H2 & H3). repeat split; try assumption.
        rewrite H3, (split_snoc_word cur Hw).
        now rewrite <- !app_assoc.
      * apply truthy_false in Hne. subst cur.
        specialize (IH lines w Hlines (or_intror (line_fits_word Hw))).
        revert IH.
        destruct (fold_left wrap_word words _) as [lines' cur'].
        cbv beta iota. intros (H1 & H2 & H3). repeat split; try assumption.
        rewrite H3, (split_word Hw). reflexivity.
    + destruct (truthy cur) eqn:Hne; cbv iota.
      * apply truthy_true in Hne.
        assert (Hc : line_fits cur) by (destruct Hcur; [contradiction|assumption]).
        assert (Hall : Forall line_fits (lines ++ [cur])).
        { apply Forall_app. split; [assumption|]. now constructor. }
        specialize (IH (lines ++ [cur]) w Hall (or_intror (line_fits_word Hw))).
        revert IH.
        destruct (fold_left wrap_word words _) as [lines' cur'].
        cbv beta iota. intros (H1 & H2 & H3). repeat split; try assumption.
        rewrite H3, map_app, concat_app. simpl.
        rewrite app_nil_r, (split_word Hw).
        now rewrite <- !app_assoc.
      * apply truthy_false in Hne. subst cur.
        specialize (IH lines w Hlines (or_intror (line_fits_word Hw))).
        revert IH.
        destruct (fold_left wrap_word words _) as [lines' cur'].
        cbv beta iota. intros (H1 & H2 & H3). repeat split; try assumption.
        rewrite H3, (split_word Hw). reflexivity.
Qed.

Lemma wrap_fits (content : str) : Forall line_fits (wrap content).
Proof.
  unfold wrap.
  generalize (wrap_word_invariant (split_words content) (lines := []) (current_line := [])
                (Forall_nil _) (or_introl eq_refl)).
  destruct (fold_left wrap_word (split content) ([], [])) as [lines cur].
  cbv beta iota. intros (H1 & H2 & _).
  destruct (truthy cur) eqn:E; [|assumption].
  apply Forall_app. split; [assumption|].
  constructor; [|constructor].
  apply truthy_true in E. destruct H2; [contradiction|assumption].
Qed.

Lemma wrap_words (content : str) :
  List.concat (map split (wrap content)) = split content.
Proof.
  unfold wrap.
  generalize (wrap_word_invariant (split_words content) (lines := []) (current_line := [])
                (Forall_nil _) (or_introl eq_refl)).
  destruct (fold_left wrap_word (split content) ([], [])) as [lines cur].
  cbv beta iota. intros (_ & _ & H3). simpl in H3.
  destruct (truthy cur) eqn:E.
  - rewrite map_app, concat_app. simpl. now rewrite app_nil_r.
  - apply truthy_false in E. subst cur. simpl in H3.
    now rewrite app_nil_r in H3.
Qed.

End Wrap.

(** C8. For every content string, the wrapping loop of the simple
    [CalloutBox.draw] produces lines of which each has at most 65
    characters or is a single word longer than 65 characters, and the words
    of the lines, in order, are [content.split()]. *)
Theorem wrap_lines_fit_and_keep_words (content : str) :
  Forall (fun line =>
            (len line <= 65)%nat
            \/ ((65 < len line)%nat /\ split line = [line]))
         (SimplePdf.wrap content)
  /\ List.concat (map split (SimplePdf.wrap content)) = split content.
Proof.
  split.
  - exact (wrap_fits content).
  - exact (wrap_words content).
Qed.

(** ** The call-out boxes: which words reach the page *)

Lemma texts_app (a b : list drawop) : texts (a ++ b) = texts a ++ texts b.
Proof.
  induction a as [|op a IH]; simpl.
  - reflexivity.
  - destruct (text_of op); simpl; now rewrite IH.
Qed.

Lemma words_of_app (a b : list str) : words_of (a ++ b) = words_of a ++ words_of b.
Proof. unfold words_of. now rewrite map_app, concat_app. Qed.

Lemma words_of_map_strip (lines : list str) :
  words_of (map strip lines) = words_of lines.
Proof.
  unfold words_of. induction lines as [|l lines IH]; simpl.
  - reflexivity.
  - now rewrite split_strip, IH.
Qed.

Section SimpleBox.

Import SimplePdf.

(** The drawing loop draws a prefix of the lines. *)
Lemma draw_line_prefix (lines : list str) :
  forall ops y,
    texts (fst (fold_left draw_line lines (ops, y)))
    = texts ops ++ map strip (firstn (room (List.length lines) y) lines).
Proof.
  induction lines as [|l lines IH]; intros ops y.
  - simpl. now rewrite app_nil_r.
  - simpl. destruct (Qltb (0.2 * inch) y) eqn:E.
    + rewrite IH, texts_app. simpl. now rewrite <- app_assoc.
    + rewrite IH. clear IH.
      assert (R : forall n, room n y = O).
      { intros [|n]; simpl; [reflexivity | now rewrite E]. }
      rewrite R. simpl. reflexivity.
Qed.

Lemma room_height (box : CalloutBox) (n : nat) :
  room n (height box - 0.55 * inch) = Nat.min n (capacity (len (content box))).
Proof.
  unfold height, _calculate_height, capacity.
  destruct (len (content box) <? 50)%nat;
    [|destruct (len (content box) <? 100)%nat;
      [|destruct (len (content box) <? 150)%nat]];
    do 8 (destruct n as [|n]; [reflexivity|]); reflexivity.
Qed.

Lemma drawn_content_prefix (box : CalloutBox) :
  drawn_content box
  = map strip (firstn (capacity (len (content box))) (wrap (content box))).
Proof.
  unfold drawn_content, draw_lines.
  rewrite draw_line_prefix, room_height. simpl.
  rewrite <- firstn_firstn. f_equal.
  apply firstn_all2. rewrite length_firstn. apply Nat.le_min_r.
Qed.

End SimpleBox.

Section ProfessionalBox.

Import ProfessionalPdf.

Variable stringWidth : str -> string -> Q -> Q.

(** The loop invariant of [for word in words]: the words of the lines
    drawn so far, followed by those of the open line, are the words
    read. *)
Lemma draw_word_invariant (words : list str) :
  Forall word words ->
  forall ops y line,
    let '(ops', _, line') :=
      fold_left (draw_word stringWidth) words (ops, y, line) in
    words_of (texts ops') ++ split line'
    = words_of (texts ops) ++ split line ++ words.
Proof.
  induction 1 as [|w words Hw Hws IH]; intros ops y line.
  - simpl. now rewrite app_nil_r.
  - simpl fold_left. change 32%N with space.
    destruct (truthy line) eqn:Hne; cbv iota.
    + destruct (Qltb (stringWidth (line ++ space :: w) "Helvetica"%string 10) max_width).
      * generalize (IH ops y (line ++ space :: w)).
        destruct (fold_left (draw_word stringWidth) words _) as [[ops' y'] line'].
        intros ->. rewrite (split_snoc_word line Hw).
        now rewrite <- !app_assoc.
      * generalize (IH (ops ++ [DrawCentredString (width / 2) y line])
                       (y - 0.2 * inch)%Q w).
        destruct (fold_left (draw_word stringWidth) words _) as [[ops' y'] line'].
        intros ->. rewrite texts_app, words_of_app. simpl.
        unfold words_of at 2. simpl.
        rewrite app_nil_r, (split_word Hw).
        now rewrite <- !app_assoc.
    + apply truthy_false in Hne. subst line.
      destruct (Qltb (stringWidth w "Helvetica"%string 10) max_width).
      * generalize (IH ops y w).
        destruct (fold_left (draw_word stringWidth) words _) as [[ops' y'] line'].
        intros ->. now rewrite (split_word Hw).
      * generalize (IH ops y w).
        destruct (fold_left (draw_word stringWidth) words _) as [[ops' y'] line'].
        intros ->. now rewrite (split_word Hw).
Qed.

Lemma professional_draws_all_words (box : CalloutBox) :
  words_of (drawn_content stringWidth box) = split (content box).
Proof.
  unfold drawn_content, draw_words.
  generalize (draw_word_invariant (split_words (content box)) []
                (height box - 0.6 * inch)%Q []).
  destruct (fold_left (draw_word stringWidth) (split (content box)) _)
    as [[ops y] line].
  simpl. intros E.
  destruct (truthy line) eqn:Hne.
  - rewrite texts_app, words_of_app. simpl. unfold words_of at 2. simpl.
    now rewrite app_nil_r.
  - apply truthy_false in Hne. subst line. simpl in E.
    now rewrite app_nil_r in E.
Qed.

End ProfessionalBox.

(** ** create_pdf_simple.py: how many lines a content wraps to *)

Lemma cost_app (a b : list str) : cost (a ++ b) = (cost a + cost b)%nat.
Proof. unfold cost. now rewrite map_app, list_sum_app. Qed.

Lemma cost_split_from (s : str) :
  forall cur, (cost (split_from cur s) <= len cur + len s + 1)%nat.
Proof.
  induction s as [|c s IH]; intros cur; simpl.
  - destruct (truthy cur); unfold cost, len; simpl; rewrite ?length_rev; lia.
  - destruct (isspace c).
    + specialize (IH []). unfold len in *. simpl in IH.
      destruct (truthy cur).
      * change (rev cur :: split_from [] s) with ([rev cur] ++ split_from [] s).
        rewrite cost_app. unfold cost at 1. simpl. unfold len.
        rewrite length_rev. lia.
      * lia.
    + specialize (IH (c :: cur)). unfold len in *. simpl in IH. lia.
Qed.

Lemma cost_split (s : str) : (cost (split s) <= len s + 1)%nat.
Proof. apply (cost_split_from s []). Qed.

Lemma tight_word (w : str) : word w -> tight w.
Proof. intros Hw. unfold tight. rewrite (split_word Hw). unfold cost. simpl. lia. Qed.

Lemma tight_snoc_word (line w : str) :
  tight line -> word w -> tight (line ++ space :: w).
Proof.
  unfold tight. intros Hl Hw.
  rewrite (split_snoc_word line Hw), cost_app, <- Hl.
  unfold cost, len. simpl. rewrite length_app. simpl. lia.
Qed.

Lemma cost_words_of_tight (lines : list str) :
  Forall tight lines ->
  cost (words_of lines) = (list_sum (map len lines) + List.length lines)%nat.
Proof.
  unfold words_of. induction 1 as [|l lines Hl Hls IH]; simpl.
  - reflexivity.
  - rewrite cost_app, IH, <- Hl. lia.
Qed.

Lemma len_snoc (line : str) (c : char) (w : str) :
  len (line ++ c :: w) = (len line + S (len w))%nat.
Proof. unfold len. now rewrite length_app. Qed.

Section LineCount.

Import SimplePdf.

(** The loop keeps every line tight, and any two lines in a row take at
    least 65 characters: [lines] closed lines take at least 65 for every
    pair, and so do they together with the open line. *)
Lemma wrap_word_count (words : list str) :
  Forall word words ->
  forall lines current_line,
    Forall tight lines ->
    current_line = [] \/ tight current_line ->
    (65 * (List.length lines / 2) <= list_sum (map len lines))%nat ->
    (65 * ((List.length lines + 1) / 2)
     <= list_sum (map len lines) + len current_line)%nat ->
    let '(lines', current_line') :=
      fold_left wrap_word words (lines, current_line) in
    Forall tight lines'
    /\ (current_line' = [] \/ tight current_line')
    /\ (65 * (List.length lines' / 2) <= list_sum (map len lines'))%nat
    /\ (65 * ((List.length lines' + 1) / 2)
        <= list_sum (map len lines') + len current_line')%nat.
Proof.
  induction 1 as [|w words Hw Hws IH]; intros lines cur Ht Hc K J.
  - simpl. auto.
  - simpl fold_left. change 32%N with space.
    pose proof (len_snoc cur space w) as Hlen.
    destruct (len (cur ++ space :: w) <=? max_chars_per_line)%nat eqn:Hfit.
    + destruct (truthy cur) eqn:Hne; cbv iota.
      * apply truthy_true in Hne.
        apply IH; try assumption.
        -- right. apply tight_snoc_word; [|assumption].
           destruct Hc; [contradiction|assumption].
        -- lia.
      * apply IH; try assumption.
        -- right. now apply tight_word.
        -- apply truthy_false in Hne. subst cur.
           change (len []) with O in J. lia.
    + apply Nat.leb_gt in Hfit. unfold max_chars_per_line in Hfit.
      destruct (truthy cur) eqn:Hne; cbv iota.
      * apply truthy_true in Hne.
        apply IH.
        -- apply Forall_app. split; [assumption|].
           constructor; [|constructor]. destruct Hc; [contradiction|assumption].
        -- right. now apply tight_word.
        -- rewrite length_app, map_app, list_sum_app.
           cbn [List.length map list_sum fold_right]. lia.
        -- rewrite length_app, map_app, list_sum_app.
           cbn [List.length map list_sum fold_right].
           replace ((List.length lines + 1 + 1) / 2)%nat
             with (List.length lines / 2 + 1)%nat
             by (rewrite <- Nat.add_assoc;
                 change (1 + 1)%nat with (1 * 2)%nat;
                 now rewrite Nat.div_add).
           lia.
      * apply IH; try assumption.
        -- right. now apply tight_word.
        -- apply truthy_false in Hne. subst cur.
           change (len []) with O in J. lia.
Qed.

(** A content of [n] characters that wraps to [L] lines has
    [65 * (L / 2) + L <= n + 1]. *)
Lemma wrap_line_count (content : str) :
  (65 * (List.length (wrap content) / 2) + List.length (wrap content)
   <= len content + 1)%nat.
Proof.
  assert (Htight : Forall tight (wrap content)
                   /\ (65 * (List.length (wrap content) / 2)
                       <= list_sum (map len (wrap content)))%nat).
  { unfold wrap.
    generalize (wrap_word_count (split_words content) (lines := []) (current_line := [])
                  (Forall_nil _) (or_introl eq_refl) (Nat.le_0_l _) (Nat.le_0_l _)).
    destruct (fold_left wrap_word (split content) _) as [lines cur].
    cbv beta iota. intros (H1 & H2 & K & J).
    destruct (truthy cur) eqn:Hne.
    - apply truthy_true in Hne. split.
      + apply Forall_app. split; [assumption|].
        constructor; [|constructor]. destruct H2; [contradiction|assumption].
      + rewrite length_app, map_app, list_sum_app.
        cbn [List.length map list_sum fold_right]. lia.
    - split; assumption. }
  destruct Htight as [Ht Hh].
  pose proof (cost_words_of_tight Ht) as E.
  unfold words_of in E. rewrite wrap_words in E.
  pose proof (cost_split content). lia.
Qed.

(** A box whose content has fewer than 150 characters has room for all
    its lines. *)
Lemma capacity_enough (content : str) :
  (len content < 150)%nat ->
  (List.length (wrap content) <= capacity (len content))%nat.
Proof.
  intros Hlen. pose proof (wrap_line_count content) as H.
  unfold capacity.
  set (L := List.length (wrap content)) in *.
  assert (HL : (L = 2 * (L / 2) + L mod 2)%nat) by apply Nat.div_mod_eq.
  assert (Hm : (L mod 2 < 2)%nat) by (apply Nat.mod_upper_bound; lia).
  destruct (len content <? 50)%nat eqn:E1;
    [apply Nat.ltb_lt in E1; lia|apply Nat.ltb_ge in E1].
  destruct (len content <? 100)%nat eqn:E2;
    [apply Nat.ltb_lt in E2; lia|apply Nat.ltb_ge in E2].
  destruct (len content <? 150)%nat eqn:E3;
    [apply Nat.ltb_lt in E3; lia|apply Nat.ltb_ge in E3; lia].
Qed.

End LineCount.

(** ** The call-out boxes: claims *)

(** C5, as stated, fails for the box of create_pdf_simple.py: a content of
    eight words of forty characters wraps to eight lines, the box of 2.0
    inch has room for seven, and the eighth word is not drawn. *)
Lemma simple_box_drops_words :
  List.length (split (SimplePdf.content long_box)) = 8%nat
  /\ List.length (words_of (SimplePdf.drawn_content long_box)) = 7%nat
  /\ words_of (SimplePdf.drawn_content long_box) <> split (SimplePdf.content long_box).
Proof.
  split; [|split].
  - vm_compute. reflexivity.
  - vm_compute. reflexivity.
  - intros E. apply (f_equal (@List.length _)) in E. vm_compute in E. discriminate.
Qed.

(** C5, amended. [CalloutBox.draw] of create_professional_pdf.py draws
    every word of the content, whatever the font metrics: the words of the
    lines it draws are [content.split()]. [CalloutBox.draw] of
    create_pdf_simple.py draws the first 2, 4, 5 or 7 wrapped lines, for a
    content of fewer than 50, 100, 150 or of more characters; the words it
    draws are [content.split()] whenever the content has fewer than 150
    characters or wraps to at most seven lines. *)
Theorem callout_box_words_drawn :
  (forall (stringWidth : str -> string -> Q -> Q) (box : ProfessionalPdf.CalloutBox),
      words_of (ProfessionalPdf.drawn_content stringWidth box)
      = split (ProfessionalPdf.content box))
  /\ (forall box : SimplePdf.CalloutBox,
         SimplePdf.drawn_content box
         = map strip (firstn (capacity (len (SimplePdf.content box)))
                             (SimplePdf.wrap (SimplePdf.content box))))
  /\ (forall box : SimplePdf.CalloutBox,
         (len (SimplePdf.content box) < 150)%nat
         \/ (List.length (SimplePdf.wrap (SimplePdf.content box)) <= 7)%nat ->
         words_of (SimplePdf.drawn_content box) = split (SimplePdf.content box)).
Proof.
  split; [|split].
  - exact professional_draws_all_words.
  - exact drawn_content_prefix.
  - intros box H.
    rewrite drawn_content_prefix, words_of_map_strip.
    rewrite firstn_all2.
    + apply wrap_words.
    + destruct (Nat.lt_ge_cases (len (SimplePdf.content box)) 150) as [Hlt|Hge].
      * now apply capacity_enough.
      * destruct H as [H|H]; [lia|]. unfold capacity.
        destruct (len (SimplePdf.content box) <? 50)%nat eqn:E1;
          [apply Nat.ltb_lt in E1; lia|].
        destruct (len (SimplePdf.content box) <? 100)%nat eqn:E2;
          [apply Nat.ltb_lt in E2; lia|].
        destruct (len (SimplePdf.content box) <? 150)%nat eqn:E3;
          [apply Nat.ltb_lt in E3; lia|].
        assumption.
Qed.

Lemma callout_box_words_drawn_witness :
  ((len (SimplePdf.content vision_box) < 150)%nat
   \/ (List.length (SimplePdf.wrap (SimplePdf.content vision_box)) <= 7)%nat)
  /\ words_of (SimplePdf.drawn_content vision_box)
     = split (SimplePdf.content vision_box).
Proof.
  assert (H : (len (SimplePdf.content vision_box) < 150)%nat
              \/ (List.length (SimplePdf.wrap (SimplePdf.content vision_box)) <= 7)%nat).
  { left. apply Nat.ltb_lt. vm_compute. reflexivity. }
  split.
  - exact H.
  - exact (proj2 (proj2 callout_box_words_drawn) vision_box H).
Defined.

(** C9. [_calculate_height] does not decrease when the content gets longer;
    in create_pdf_simple.py it returns between 1.0 and 2.0 inch, in
    create_professional_pdf.py at least 1.5 inch. *)
Theorem calculate_height_monotone_and_bounded :
  (forall b1 b2 : SimplePdf.CalloutBox,
      (len (SimplePdf.content b1) <= len (SimplePdf.content b2))%nat ->
      SimplePdf._calculate_height b1 <= SimplePdf._calculate_height b2)
  /\ (forall b : SimplePdf.CalloutBox,
         1.0 * inch <= SimplePdf._calculate_height b
         /\ SimplePdf._calculate_height b <= 2.0 * inch)
  /\ (forall b1 b2 : ProfessionalPdf.CalloutBox,
         (len (ProfessionalPdf.content b1) <= len (ProfessionalPdf.content b2))%nat ->
         ProfessionalPdf._calculate_height b1 <= ProfessionalPdf._calculate_height b2)
  /\ (forall b : ProfessionalPdf.CalloutBox,
         1.5 * inch <= ProfessionalPdf._calculate_height b).
Proof.
  split; [|split; [|split]].
  - intros b1 b2 H. unfold SimplePdf._calculate_height.
    destruct (len (SimplePdf.content b1) <? 50)%nat eqn:A1;
    destruct (len (SimplePdf.content b1) <? 100)%nat eqn:A2;
    destruct (len (SimplePdf.content b1) <? 150)%nat eqn:A3;
    destruct (len (SimplePdf.content b2) <? 50)%nat eqn:B1;
    destruct (len (SimplePdf.content b2) <? 100)%nat eqn:B2;
    destruct (len (SimplePdf.content b2) <? 150)%nat eqn:B3;
    try (apply Qle_bool_imp_le; reflexivity);
    rewrite ?Nat.ltb_lt, ?Nat.ltb_ge in *; lia.
  - intros b. unfold SimplePdf._calculate_height.
    destruct (len (SimplePdf.content b) <? 50)%nat;
      [|destruct (len (SimplePdf.content b) <? 100)%nat;
        [|destruct (len (SimplePdf.content b) <? 150)%nat]];
      split; apply Qle_bool_imp_le; reflexivity.
  - intros b1 b2 H. unfold ProfessionalPdf._calculate_height, py_max, Qltb, inch, Qdiv.
    change (/ 50) with (1 # 50).
    assert (Hq : inject_Z (Z.of_nat (len (ProfessionalPdf.content b1)))
                 <= inject_Z (Z.of_nat (len (ProfessionalPdf.content b2)))).
    { rewrite <- Zle_Qle. lia. }
    set (n1 := inject_Z (Z.of_nat (len (ProfessionalPdf.content b1)))) in *.
    set (n2 := inject_Z (Z.of_nat (len (ProfessionalPdf.content b2)))) in *.
    destruct (Qle_bool ((0.5 + n1 * (1 # 50) * 0.2) * 72) (1.5 * 72)) eqn:E1;
    destruct (Qle_bool ((0.5 + n2 * (1 # 50) * 0.2) * 72) (1.5 * 72)) eqn:E2;
    simpl negb; cbv iota;
    try (apply Qle_bool_iff in E1); try (apply Qle_bool_iff in E2);
    try (assert (~ (0.5 + n1 * (1 # 50) * 0.2) * 72 <= 1.5 * 72)
          by (intros C; apply Qle_bool_iff in C; congruence));
    try (assert (~ (0.5 + n2 * (1 # 50) * 0.2) * 72 <= 1.5 * 72)
          by (intros C; apply Qle_bool_iff in C; congruence));
    lra.
  - intros b. unfold ProfessionalPdf._calculate_height, py_max, Qltb, inch, Qdiv.
    change (/ 50) with (1 # 50).
    set (n := inject_Z (Z.of_nat (len (ProfessionalPdf.content b)))).
    destruct (Qle_bool ((0.5 + n * (1 # 50) * 0.2) * 72) (1.5 * 72)) eqn:E;
    simpl negb; cbv iota.
    + lra.
    + assert (~ (0.5 + n * (1 # 50) * 0.2) * 72 <= 1.5 * 72)
        by (intros C; apply Qle_bool_iff in C; congruence).
      lra.
Qed.

Lemma calculate_height_monotone_and_bounded_witness :
  (len (SimplePdf.content vision_box) <= len (SimplePdf.content long_box))%nat
  /\ SimplePdf._calculate_height vision_box <= SimplePdf._calculate_height long_box
  /\ (len (ProfessionalPdf.content roi_box) <= len (ProfessionalPdf.content priority_box))%nat
  /\ ProfessionalPdf._calculate_height roi_box
     <= ProfessionalPdf._calculate_height priority_box.
Proof.
  assert (H1 : (len (SimplePdf.content vision_box) <= len (SimplePdf.content long_box))%nat).
  { apply Nat.leb_le. vm_compute. reflexivity. }
  assert (H2 : (len (ProfessionalPdf.content roi_box)
                <= len (ProfessionalPdf.content priority_box))%nat).
  { apply Nat.leb_le. vm_compute. reflexivity. }
  split; [exact H1|].
  split; [exact (proj1 calculate_height_monotone_and_bounded vision_box long_box H1)|].
  split; [exact H2|].
  exact (proj1 (proj2 (proj2 calculate_height_monotone_and_bounded)) roi_box priority_box H2).
Defined.

(** ** The page-numbering canvases *)

Lemma puts_fields (ops : list drawop) :
  forall c,
    dict (puts ops c)
    = {| _pageNumber := _pageNumber (dict c); _code := _code (dict c) ++ ops |}
    /\ _saved_page_states (puts ops c) = _saved_page_states c
    /\ _doc (puts ops c) = _doc c
    /\ _file (puts ops c) = _file c.
Proof.
  unfold puts. induction ops as [|op ops IH]; intros c.
  - simpl. rewrite app_nil_r. destruct (dict c). auto.
  - simpl. destruct (IH (put op c)) as (H1 & H2 & H3 & H4).
    rewrite H1, H2, H3, H4. simpl. rewrite <- app_assoc. auto.
Qed.

Lemma Canvas_showPage_fields (c : canvas) :
  dict (Canvas_showPage c)
  = {| _pageNumber := _pageNumber (dict c) + 1; _code := [] |}
  /\ _saved_page_states (Canvas_showPage c) = _saved_page_states c
  /\ _doc (Canvas_showPage c) = _doc c ++ [_code (dict c)]
  /\ _file (Canvas_showPage c) = _file c.
Proof. repeat split. Qed.

Lemma puts_set_dict (ops : list drawop) (c : canvas) (state : attrs) :
  dict (puts ops (set_dict c state))
  = {| _pageNumber := _pageNumber state; _code := _code state ++ ops |}
  /\ _saved_page_states (puts ops (set_dict c state)) = _saved_page_states c
  /\ _doc (puts ops (set_dict c state)) = _doc c
  /\ _file (puts ops (set_dict c state)) = _file c.
Proof. exact (puts_fields ops (set_dict c state)). Qed.

Lemma nth_error_snapshots (pages : list page) :
  forall j i p,
    nth_error pages i = Some p ->
    nth_error (snapshots j pages) i
    = Some {| _pageNumber := j + Z.of_nat i; _code := p |}.
Proof.
  induction pages as [|q pages IH]; intros j [|i] p H; simpl in *; try discriminate.
  - injection H as ->. now rewrite Z.add_0_r.
  - rewrite (IH (j + 1)%Z i p H). do 2 f_equal. lia.
Qed.

Lemma length_snapshots (pages : list page) :
  forall j, List.length (snapshots j pages) = List.length pages.
Proof. induction pages as [|q pages IH]; intros j; simpl; [|rewrite IH]; reflexivity. Qed.

(** Drawing the pages of a document on a fresh page and calling [showPage]
    after each saves one copy per page and adds nothing to the document.
    The three scripts define [showPage] alike. *)
Lemma showPage_pages (pages : list page) :
  forall c,
    _code (dict c) = [] ->
    let c' := fold_left (fun c p => ProfessionalPdf.showPage (puts p c)) pages c in
    _saved_page_states c'
    = _saved_page_states c ++ snapshots (_pageNumber (dict c)) pages
    /\ _doc c' = _doc c
    /\ _file c' = _file c
    /\ _code (dict c') = [].
Proof.
  induction pages as [|p pages IH]; intros c Hc.
  - simpl. rewrite app_nil_r. auto.
  - simpl fold_left.
    destruct (puts_fields p c) as (H1 & H2 & H3 & H4).
    specialize (IH (ProfessionalPdf.showPage (puts p c)) eq_refl).
    cbv zeta in IH. destruct IH as (I1 & I2 & I3 & I4).
    cbv zeta. rewrite I1, I2, I3, I4.
    unfold ProfessionalPdf.showPage, Canvas_startPage, set_dict.
    cbn [dict _saved_page_states _doc _file _pageNumber _code snapshots].
    rewrite H1, H2, H3, H4, Hc.
    cbn [_pageNumber _code app].
    rewrite <- app_assoc. auto.
Qed.

Section Professional.

Import ProfessionalPdf.

Variable clock : nat -> str.

Lemma showPage_saves (c : canvas) :
  _doc (showPage c) = _doc c
  /\ _saved_page_states (showPage c) = _saved_page_states c ++ [dict c].
Proof. split; reflexivity. Qed.

(** [for state in self._saved_page_states]: each turn adds to the
    document the saved page with its stamp. *)
Lemma save_state_pages (num_pages : Z) (states : list attrs) :
  forall c k,
    let r := fold_left (save_state clock num_pages) states (c, k) in
    exists pages,
      _doc (fst r) = _doc c ++ pages
      /\ Forall2 (fun state page =>
                    exists now,
                      page = _code state
                             ++ stamp_ops now (_pageNumber state) num_pages)
                 states pages
      /\ (forall i state,
             nth_error states i = Some state ->
             nth_error pages i
             = Some (_code state
                     ++ stamp_ops (clock (k + i)) (_pageNumber state) num_pages))
      /\ _saved_page_states (fst r) = _saved_page_states c.
Proof.
  induction states as [|st states IH]; intros c k.
  - exists []. simpl. rewrite app_nil_r. repeat split; auto.
    intros [|i] state H; discriminate.
  - simpl fold_left.
    set (c1 := Canvas_showPage
                 (draw_page_number (clock k) num_pages (set_dict c st))).
    destruct (IH c1 (S k)) as (pages & E & F & G & S1).
    exists ((_code st ++ stamp_ops (clock k) (_pageNumber st) num_pages) :: pages).
    assert (D : _doc c1 = _doc c ++ [_code st ++ stamp_ops (clock k) (_pageNumber st) num_pages]
                /\ _saved_page_states c1 = _saved_page_states c).
    { unfold c1, draw_page_number.
      change (_pageNumber (dict (set_dict c st))) with (_pageNumber st).
      destruct (Canvas_showPage_fields
                  (puts (stamp_ops (clock k) (_pageNumber st) num_pages)
                        (set_dict c st))) as (_ & C2 & C3 & _).
      destruct (puts_set_dict (stamp_ops (clock k) (_pageNumber st) num_pages) c st)
        as (H1 & H2 & H3 & _).
      rewrite C2, C3, H1, H2, H3. auto. }
    destruct D as [D1 D2].
    cbv zeta in *. repeat split.
    + rewrite E, D1, <- app_assoc. reflexivity.
    + constructor; [|assumption]. now exists (clock k).
    + intros [|i] state H; cbn [nth_error] in H |- *.
      * injection H as <-. now rewrite Nat.add_0_r.
      * rewrite (G i state H).
        replace (S k + i)%nat with (k + S i)%nat by lia. reflexivity.
    + now rewrite S1.
Qed.

Lemma save_pages (c : canvas) :
  exists pages,
    _doc (save clock c) = _doc c ++ pages
    /\ _file (save clock c) = Some (_doc c ++ pages)
    /\ Forall2 (fun state page =>
                  exists now,
                    page = _code state
                           ++ stamp_ops now (_pageNumber state)
                                (Z.of_nat (List.length (_saved_page_states c))))
               (_saved_page_states c) pages
    /\ (forall i state,
           nth_error (_saved_page_states c) i = Some state ->
           nth_error pages i
           = Some (_code state
                   ++ stamp_ops (clock i) (_pageNumber state)
                        (Z.of_nat (List.length (_saved_page_states c))))).
Proof.
  unfold save.
  destruct (save_state_pages (Z.of_nat (List.length (_saved_page_states c)))
              (_saved_page_states c) c O) as (pages & E & F & G & _).
  cbv zeta in *. exists pages.
  set (c1 := fst (fold_left _ (_saved_page_states c) (c, O))) in *.
  assert (D : _doc (Canvas_save showPage c1) = _doc c1
              /\ _file (Canvas_save showPage c1) = Some (_doc c1)).
  { unfold Canvas_save. destruct (_code (dict c1)); simpl; auto. }
  destruct D as [D1 D2]. rewrite D1, D2, E. repeat split; auto.
Qed.

End Professional.

Lemma puts_app (a b : list drawop) (c : canvas) :
  puts (a ++ b) c = puts b (puts a c).
Proof. unfold puts. apply fold_left_app. Qed.

Section Simple.

Import SimplePdf.

Lemma draw_page_number_stamp (page_count : Z) (c : canvas) :
  draw_page_number page_count c
  = puts (simple_stamp (_pageNumber (dict c)) page_count) c.
Proof.
  unfold draw_page_number, simple_stamp.
  rewrite !puts_app.
  destruct (1 <? _pageNumber (dict c))%Z; reflexivity.
Qed.

Lemma simple_save_state_pages (num_pages : Z) (states : list attrs) :
  forall c,
    let c' := fold_left (save_state num_pages) states c in
    _doc c'
    = _doc c ++ map (fun state => _code state
                                  ++ simple_stamp (_pageNumber state) num_pages)
                    states
    /\ _saved_page_states c' = _saved_page_states c.
Proof.
  induction states as [|st states IH]; intros c.
  - simpl. rewrite app_nil_r. auto.
  - simpl fold_left. cbv zeta.
    destruct (IH (save_state num_pages c st)) as [E S1].
    cbv zeta in E, S1. rewrite E, S1. clear E S1 IH.
    unfold save_state. rewrite draw_page_number_stamp.
    change (_pageNumber (dict (set_dict c st))) with (_pageNumber st).
    destruct (Canvas_showPage_fields
                (puts (simple_stamp (_pageNumber st) num_pages) (set_dict c st)))
      as (_ & C2 & C3 & _).
    destruct (puts_set_dict (simple_stamp (_pageNumber st) num_pages) c st)
      as (H1 & H2 & H3 & _).
    rewrite C2, C3, H1, H2, H3.
    cbn [_code map]. rewrite <- app_assoc. auto.
Qed.

Lemma simple_build_pages (pages : list page) :
  _doc (build NumberedCanvas_init showPage save pages)
  = map (fun state => _code state
                      ++ simple_stamp (_pageNumber state)
                           (Z.of_nat (List.length pages)))
        (snapshots 1 pages).
Proof.
  unfold build, save.
  destruct (showPage_pages pages NumberedCanvas_init eq_refl) as (S1 & D1 & _ & _).
  cbv zeta in S1, D1.
  change (fun c p => ProfessionalPdf.showPage (puts p c))
    with (fun c p => showPage (puts p c)) in S1, D1.
  set (c1 := fold_left (fun c p => showPage (puts p c)) pages NumberedCanvas_init) in *.
  cbn [_saved_page_states NumberedCanvas_init app dict _pageNumber Canvas_init] in S1.
  cbn [_doc NumberedCanvas_init Canvas_init] in D1.
  rewrite S1, length_snapshots.
  destruct (simple_save_state_pages (Z.of_nat (List.length pages))
              (snapshots 1 pages) c1) as [E _].
  cbv zeta in E.
  set (c2 := fold_left _ (snapshots 1 pages) c1) in *.
  assert (D : _doc (Canvas_save showPage c2) = _doc c2).
  { unfold Canvas_save. destruct (_code (dict c2)); reflexivity. }
  rewrite D, E, D1. reflexivity.
Qed.

End Simple.

Section RealCap.

Import RealCapPdf.

Lemma real_cap_draw_page_number_stamp (c : canvas) :
  draw_page_number c = puts (real_cap_stamp (_pageNumber (dict c))) c.
Proof.
  unfold draw_page_number, real_cap_stamp.
  destruct (1 <? _pageNumber (dict c))%Z; reflexivity.
Qed.

Lemma real_cap_save_state_pages (states : list attrs) :
  forall c,
    let c' := fold_left save_state states c in
    _doc c'
    = _doc c ++ map (fun state => _code state
                                  ++ real_cap_stamp (_pageNumber state + 1))
                    states
    /\ _saved_page_states c' = _saved_page_states c.
Proof.
  induction states as [|st states IH]; intros c.
  - simpl. rewrite app_nil_r. auto.
  - simpl fold_left. cbv zeta.
    destruct (IH (save_state c st)) as [E S1].
    cbv zeta in E, S1. rewrite E, S1. clear E S1 IH.
    unfold save_state. rewrite real_cap_draw_page_number_stamp.
    change (bump (set_dict c st))
      with (set_dict c {| _pageNumber := _pageNumber st + 1; _code := _code st |}).
    change (_pageNumber (dict (set_dict c {| _pageNumber := _pageNumber st + 1;
                                              _code := _code st |})))
      with (_pageNumber st + 1)%Z.
    destruct (Canvas_showPage_fields
                (puts (real_cap_stamp (_pageNumber st + 1))
                      (set_dict c {| _pageNumber := _pageNumber st + 1;
                                     _code := _code st |})))
      as (_ & C2 & C3 & _).
    destruct (puts_set_dict (real_cap_stamp (_pageNumber st + 1)) c
                {| _pageNumber := _pageNumber st + 1; _code := _code st |})
      as (H1 & H2 & H3 & _).
    rewrite C2, C3, H1, H2, H3.
    cbn [_code map]. rewrite <- app_assoc. auto.
Qed.

Lemma real_cap_build_pages (pages : list page) :
  _doc (build NumberedCanvas_init showPage save pages)
  = map (fun state => _code state ++ real_cap_stamp (_pageNumber state + 1))
        (snapshots 0 pages).
Proof.
  unfold build, save.
  destruct (showPage_pages pages NumberedCanvas_init eq_refl) as (S1 & D1 & _ & _).
  cbv zeta in S1, D1.
  change (fun c p => ProfessionalPdf.showPage (puts p c))
    with (fun c p => showPage (puts p c)) in S1, D1.
  set (c1 := fold_left (fun c p => showPage (puts p c)) pages NumberedCanvas_init) in *.
  cbn [_saved_page_states NumberedCanvas_init app dict _pageNumber Canvas_init] in S1.
  cbn [_doc NumberedCanvas_init Canvas_init] in D1.
  rewrite S1.
  destruct (real_cap_save_state_pages (snapshots 0 pages) c1) as [E _].
  cbv zeta in E.
  set (c2 := fold_left _ (snapshots 0 pages) c1) in *.
  assert (D : _doc (Canvas_save showPage c2) = _doc c2).
  { unfold Canvas_save. destruct (_code (dict c2)); reflexivity. }
  rewrite D, E, D1. reflexivity.
Qed.

End RealCap.

(** ** The page-numbering canvases: claims *)


(** For a document drawn on a fresh canvas of create_professional_pdf.py,
    the page states are numbered from 1: page [k + 1] of [N] is stamped
    [Page k+1 of N]. *)
Lemma professional_build_pages (clock : nat -> str) (pages : list page) :
  forall k p,
    nth_error pages k = Some p ->
    nth_error (_doc (build ProfessionalPdf.NumberedCanvas_init
                       ProfessionalPdf.showPage (ProfessionalPdf.save clock) pages)) k
    = Some (p ++ ProfessionalPdf.stamp_ops (clock k) (Z.of_nat k + 1)
                   (Z.of_nat (List.length pages))).
Proof.
  intros k p H. unfold build.
  destruct (showPage_pages pages ProfessionalPdf.NumberedCanvas_init eq_refl)
    as (S1 & D1 & _ & _).
  cbv zeta in S1, D1.
  set (c1 := fold_left (fun c p => ProfessionalPdf.showPage (puts p c)) pages
               ProfessionalPdf.NumberedCanvas_init) in *.
  cbn [_saved_page_states ProfessionalPdf.NumberedCanvas_init app dict
       _pageNumber Canvas_init] in S1.
  cbn [_doc ProfessionalPdf.NumberedCanvas_init Canvas_init] in D1.
  destruct (save_pages clock c1) as (out & E & _ & _ & G).
  rewrite E, D1. cbn [app].
  rewrite S1, length_snapshots in G.
  rewrite (G k _ (nth_error_snapshots pages 1 k H)).
  cbn [_code _pageNumber]. do 2 f_equal. f_equal; lia.
Qed.

(** C10. In [NumberedCanvas] of create_pdf_simple.py and of
    create_real_cap_pdf.py, the first page of a document gets no header and
    no page number, and every page whose number is greater than 1 is
    stamped with its number; pages are numbered 1, 2, 3, ... in the order
    in which they are added to the document. *)
Theorem first_page_unstamped_later_pages_numbered (pages : list page) :
  let N := Z.of_nat (List.length pages) in
  let simple :=
    _doc (build SimplePdf.NumberedCanvas_init SimplePdf.showPage SimplePdf.save pages) in
  let real_cap :=
    _doc (build RealCapPdf.NumberedCanvas_init RealCapPdf.showPage RealCapPdf.save pages) in
  List.length simple = List.length pages
  /\ List.length real_cap = List.length pages
  /\ (forall k p,
         nth_error pages k = Some p ->
         nth_error simple k = Some (p ++ simple_stamp (Z.of_nat k + 1) N)
         /\ nth_error real_cap k = Some (p ++ real_cap_stamp (Z.of_nat k + 1)))
  /\ texts (simple_stamp 1 N) = []
  /\ texts (real_cap_stamp 1) = []
  /\ (forall i : Z,
         (1 < i)%Z ->
         texts (simple_stamp i N)
         = [ lit "Community Adaptation Program Evaluation Report";
             lit "September 2025";
             lit "Page " ++ str_of_int i ++ lit " of " ++ str_of_int N ]
         /\ texts (real_cap_stamp i) = [str_of_int i]).
Proof.
  cbv zeta. rewrite simple_build_pages, real_cap_build_pages.
  split; [now rewrite length_map, length_snapshots|].
  split; [now rewrite length_map, length_snapshots|].
  split; [|split; [reflexivity|split; [reflexivity|]]].
  - intros k p H. split.
    + rewrite (map_nth_error _ _ _ (nth_error_snapshots pages 1 k H)).
      cbn [_code _pageNumber]. do 2 f_equal. f_equal; lia.
    + rewrite (map_nth_error _ _ _ (nth_error_snapshots pages 0 k H)).
      cbn [_code _pageNumber]. rewrite Z.add_0_l. reflexivity.
  - intros i H. apply Z.ltb_lt in H. split.
    + unfold simple_stamp. rewrite H. reflexivity.
    + unfold real_cap_stamp. rewrite H. reflexivity.
Qed.

Lemma first_page_unstamped_later_pages_numbered_witness :
  nth_error three_pages 1 = Some [DrawString 72 700 (lit "Key Findings")]
  /\ nth_error
       (_doc (build SimplePdf.NumberedCanvas_init SimplePdf.showPage
                SimplePdf.save three_pages)) 1
     = Some ([DrawString 72 700 (lit "Key Findings")] ++ simple_stamp 2 3)
  /\ nth_error
       (_doc (build RealCapPdf.NumberedCanvas_init RealCapPdf.showPage
                RealCapPdf.save three_pages)) 1
     = Some ([DrawString 72 700 (lit "Key Findings")] ++ real_cap_stamp 2)
  /\ (1 < 2)%Z
  /\ texts (real_cap_stamp 2) = [lit "2"].
Proof.
  assert (H : nth_error three_pages 1 = Some [DrawString 72 700 (lit "Key Findings")])
    by reflexivity.
  assert (L : (1 < 2)%Z) by lia.
  pose proof (first_page_unstamped_later_pages_numbered three_pages) as T.
  cbv zeta in T. destruct T as (_ & _ & T3 & _ & _ & T6).
  split; [exact H|].
  split; [exact (proj1 (T3 1%nat _ H))|].
  split; [exact (proj2 (T3 1%nat _ H))|].
  split; [exact L|].
  exact (proj2 (T6 2%Z L)).
Defined.

(** ** The chart functions: what their figures depend on *)

Section Uses.

Lemma agree_weaken (w : world) (n m : nat) (s1 s2 : state) :
  (n <= m)%nat -> agree w m s1 s2 -> agree w n s1 s2.
Proof. intros L H i Hi. apply H. lia. Qed.

Lemma uses_more {A} (k k' : nat) (m : M A) :
  (k <= k')%nat -> uses k m -> uses k' m.
Proof.
  intros L H w s1 s2 n Hn.
  replace (k' + n)%nat with (k + (k' - k + n))%nat in Hn by lia.
  destruct (H w s1 s2 _ Hn) as [E R]. split; [assumption|].
  apply (agree_weaken (m := (k' - k + n)%nat)); [lia | assumption].
Qed.

Lemma uses_ret {A} (a : A) : uses 0 (ret a).
Proof. intros w s1 s2 n H. split; [reflexivity | exact H]. Qed.

Lemma uses_call (o : op) : uses 0 (call o).
Proof.
  intros w s1 s2 n H. unfold call.
  destruct (outcome w o); split; try reflexivity; exact H.
Qed.

Lemma uses_fmt_1f (x : Q) : uses 0 (fmt_1f x).
Proof. intros w s1 s2 n H. split; [reflexivity | exact H]. Qed.

Lemma uses_bind {A B} (k1 k2 : nat) (m : M A) (f : A -> M B) :
  uses k1 m -> (forall a, uses k2 (f a)) -> uses (k1 + k2) (bind m f).
Proof.
  intros Hm Hf w s1 s2 n H. unfold bind.
  rewrite <- Nat.add_assoc in H.
  destruct (Hm w s1 s2 _ H) as [E R].
  destruct (m w s1) as [[a|e] s1'], (m w s2) as [[a'|e'] s2'];
    simpl in E, R; try discriminate.
  - injection E as <-. now apply Hf.
  - injection E as <-. split; [reflexivity|].
    apply (agree_weaken (m := (k2 + n)%nat)); [lia | assumption].
Qed.

Lemma uses_try_except {A} (k1 k2 : nat) (body : M A) (handles : exn -> bool)
      (handler : exn -> M A) :
  uses k1 body -> (forall e, uses k2 (handler e)) ->
  uses (k1 + k2) (try_except body handles handler).
Proof.
  intros Hb Hh w s1 s2 n H. unfold try_except.
  rewrite <- Nat.add_assoc in H.
  destruct (Hb w s1 s2 _ H) as [E R].
  destruct (body w s1) as [[a|e] s1'], (body w s2) as [[a'|e'] s2'];
    simpl in E, R; try discriminate.
  - split; [assumption|].
    apply (agree_weaken (m := (k2 + n)%nat)); [lia | assumption].
  - injection E as <-. destruct (handles e).
    + now apply Hh.
    + split; [reflexivity|].
      apply (agree_weaken (m := (k2 + n)%nat)); [lia | assumption].
Qed.

(** [np.random.normal] uses one sample. *)
Lemma uses_normal (loc scale : Q) : uses 1 (normal loc scale).
Proof.
  intros w s1 s2 n H. unfold normal. simpl. split.
  - specialize (H O ltac:(lia)). rewrite !Nat.add_0_r in H. now rewrite H.
  - intros i Hi. specialize (H (S i) ltac:(lia)).
    simpl. now rewrite <- !Nat.add_succ_r.
Qed.

Lemma uses_list_comp {A B} (k : nat) (xs : list A) (f : A -> M B) :
  (forall x, uses k (f x)) -> uses (List.length xs * k) (list_comp xs f).
Proof.
  intros Hf. induction xs as [|x xs IH].
  - apply uses_ret.
  - simpl. apply uses_bind; [apply Hf|]. intros y.
    replace (List.length xs * k)%nat with (List.length xs * k + 0)%nat by lia.
    apply uses_bind; [apply IH|]. intros ys. apply uses_ret.
Qed.

Lemma uses_same_figure (f : M figure) : uses 0 f -> same_figure_at_every_call f.
Proof.
  intros H w s1 s2. unfold returned.
  destruct (H w s1 s2 O) as [E _]; [intros i Hi; lia|].
  now rewrite E.
Qed.

End Uses.

Lemma uses_save_figure_20 (fig : figure) (name : string) :
  uses 0 (Viz20.save_figure fig name).
Proof.
  unfold Viz20.save_figure.
  apply (uses_bind (k1 := 0) (k2 := 0)); [apply uses_call|]. intros _.
  apply (uses_bind (k1 := 0) (k2 := 0)); [apply uses_call|]. intros _.
  apply uses_ret.
Qed.

Lemma uses_save_figure_fixed (fig : figure) (name : string) :
  uses 0 (CoolVizFixed.save_figure fig name).
Proof.
  unfold CoolVizFixed.save_figure.
  apply (uses_bind (k1 := 0) (k2 := 0)); [apply uses_call|]. intros _.
  apply (uses_bind (k1 := 0) (k2 := 0)).
  { apply (uses_try_except (k1 := 0) (k2 := 0)); [apply uses_call|].
    intros e. apply uses_ret. }
  intros _.
  apply (uses_bind (k1 := 0) (k2 := 0)); [apply uses_call|]. intros _.
  apply uses_ret.
Qed.

Lemma uses_create_roi_by_disaster : uses 0 Viz20.create_roi_by_disaster.
Proof.
  unfold Viz20.create_roi_by_disaster.
  apply (uses_bind (k1 := 0) (k2 := 0)); [apply uses_call|]. intros _.
  apply (uses_bind (k1 := 0) (k2 := 0)).
  { apply (uses_list_comp (k := 0) Viz20.data_ROI). apply uses_fmt_1f. }
  intros labels. apply uses_save_figure_20.
Qed.

Lemma uses_create_speed_comparison : uses 0 CapGraphics.create_speed_comparison.
Proof.
  unfold CapGraphics.create_speed_comparison.
  apply (uses_bind (k1 := 0) (k2 := 0)); [apply uses_call|]. intros _.
  apply uses_ret.
Qed.

Lemma uses_noise {A} (inj : A -> Q) (scale : Q) (x : A) :
  uses 1 (n <- normal 0 scale ;; ret (inj x + n)%Q).
Proof.
  apply (uses_bind (k1 := 1) (k2 := 0)); [apply uses_normal|].
  intros n. apply uses_ret.
Qed.

(** [create_3d_scatter] uses ninety samples: thirty for each coordinate. *)
Lemma uses_create_3d_scatter : uses 90 CoolVizFixed.create_3d_scatter.
Proof.
  unfold CoolVizFixed.create_3d_scatter.
  apply (uses_bind (k1 := 30) (k2 := 60)).
  { apply (uses_list_comp (k := 1) (repeat_list CoolVizFixed.roi_data 3)).
    intros r. apply (uses_noise (fun r => r)). }
  intros roi.
  apply (uses_bind (k1 := 30) (k2 := 30)).
  { apply (uses_list_comp (k := 1) (repeat_list CoolVizFixed.speed_data 3)).
    intros s. apply (uses_noise inject_Z). }
  intros speed.
  apply (uses_bind (k1 := 30) (k2 := 0)).
  { apply (uses_list_comp (k := 1) (repeat_list CoolVizFixed.quality_data 3)).
    intros q. apply (uses_noise inject_Z). }
  intros quality.
  apply (uses_bind (k1 := 0) (k2 := 0)); [apply uses_call|]. intros _.
  apply uses_save_figure_fixed.
Qed.

(** ** The chart functions: claims *)




Lemma flat_map_nil {A B} (f : A -> list B) (l : list A) :
  (forall x, In x l -> f x = []) -> flat_map f l = [].
Proof.
  induction l as [|x l IH]; intros H; simpl.
  - reflexivity.
  - rewrite (H x (or_introl eq_refl)), IH; [reflexivity|].
    intros y Hy. apply H. now right.
Qed.

Lemma no_colors_in_leaves {A} (leaf : A -> pyval) (l : list A) :
  (forall a, colors_in (leaf a) = []) -> flat_map colors_in (map leaf l) = [].
Proof.
  intros H. apply flat_map_nil. intros x Hx.
  apply in_map_iff in Hx. destruct Hx as [a [<- _]]. apply H.
Qed.

Lemma no_strings_in_numbers (l : list Q) : flat_map strings_in (map Num l) = [].
Proof.
  apply flat_map_nil. intros x Hx.
  apply in_map_iff in Hx. now destruct Hx as [a [<- _]].
Qed.

Lemma colors_of_roi_by_disaster (labels : list string) :
  colors_of (Viz20.roi_by_disaster_figure labels)
  = [ Viz20.ARC_RED; Viz20.ARC_RED; Viz20.ARC_GRAY; Viz20.ARC_BLACK;
      Viz20.ARC_RED; Viz20.ARC_WHITE; Viz20.ARC_WHITE; Viz20.ARC_LIGHT_GRAY ].
Proof.
  unfold colors_of, Viz20.roi_by_disaster_figure, go. cbn.
  rewrite (no_colors_in_leaves (fun s => Str (s ++ "%")) labels) by reflexivity.
  reflexivity.
Qed.

Lemma colors_of_scatter_3d (roi speed quality : list Q) :
  colors_of (CoolVizFixed.scatter_3d_figure roi speed quality)
  = [ CoolVizFixed.ARC_GRAY; "#FC8181"; CoolVizFixed.ARC_RED; "white";
      CoolVizFixed.ARC_RED; "lightgray"; "lightgray"; "lightgray"; "white" ]%string.
Proof.
  unfold colors_of, CoolVizFixed.scatter_3d_figure, go. cbn.
  rewrite !(no_colors_in_leaves Num) by reflexivity.
  rewrite (no_colors_in_leaves (fun r => Num (r / 3)) roi) by reflexivity.
  rewrite no_strings_in_numbers.
  reflexivity.
Qed.

(** C2, as stated, fails: the colour table of create_cap_graphics.py holds
    another red than the tables of the other scripts, so no one set of
    colours is the table of every script. *)
Lemma no_palette_for_all_charts : ~ one_palette_for_all_charts.
Proof.
  intros (palette & Htables & _).
  assert (Hcap : In "#ED1B2E"%string palette).
  { apply (Htables "create_cap_graphics.py"%string (map snd CapGraphics.cap_colors)).
    - left. reflexivity.
    - left. reflexivity. }
  apply (Htables "convert_to_images.py"%string
           [ ConvertToImages.ARC_RED; ConvertToImages.ARC_GRAY;
             ConvertToImages.ARC_DARK_GRAY; ConvertToImages.ARC_LIGHT_GRAY ]) in Hcap.
  - simpl in Hcap. intuition discriminate.
  - right. left. reflexivity.
Qed.

(** C2, amended. Every chart script defines a table of hex colour constants
    of its own. Red [#CC0000] and gray [#6B7C93] are in the tables of all
    chart scripts but create_cap_graphics.py, whose red is [#ED1B2E] and
    whose gray is [#6B7280]; the tables also hold other colours (blue,
    green, orange, light and dark gray). [create_roi_by_disaster] takes
    every colour of its chart from the constants of its script (red, gray,
    light gray, white, black); [create_speed_comparison],
    [create_3d_scatter] and the executive dashboard take colours from
    their script's table and add literal ones. *)
Theorem chart_colors_by_script :
  (forall script table,
      In (script, table) color_tables ->
      script <> "create_cap_graphics.py"%string ->
      In "#CC0000"%string table /\ In "#6B7C93"%string table)
  /\ map snd CapGraphics.cap_colors
     = [ "#ED1B2E"; "#6B7280"; "#1E40AF"; "#059669"; "#D97706" ]%string
  /\ (forall labels,
         incl (colors_of (Viz20.roi_by_disaster_figure labels))
              [ Viz20.ARC_RED; Viz20.ARC_GRAY; Viz20.ARC_LIGHT_GRAY;
                Viz20.ARC_WHITE; Viz20.ARC_BLACK ])
  /\ colors_of CapGraphics.speed_comparison_figure
     = [ CapGraphics.cap_color "secondary"; CapGraphics.cap_color "primary";
         CapGraphics.cap_color "primary"; "white"; "rgba(0,0,0,0.02)";
         CapGraphics.cap_color "primary"; "white" ]%string
  /\ (forall roi speed quality,
         colors_of (CoolVizFixed.scatter_3d_figure roi speed quality)
         = [ CoolVizFixed.ARC_GRAY; "#FC8181"; CoolVizFixed.ARC_RED; "white";
             CoolVizFixed.ARC_RED; "lightgray"; "lightgray"; "lightgray";
             "white" ]%string)
  /\ colors_of Fortune500Graphics.executive_dashboard_figure
     = [ Fortune500Graphics.ARC_COLOR "text";
         Fortune500Graphics.ARC_COLOR "background" ]%string.
Proof.
  split; [|split; [|split; [|split; [|split]]]].
  - intros script table H Hne. simpl in H.
    repeat (destruct H as [H|H];
            [injection H as <- <-;
             first [ now contradiction Hne
                   | split; simpl; tauto ] |]).
    contradiction.
  - reflexivity.
  - intros labels. rewrite colors_of_roi_by_disaster.
    intros c Hc. simpl in Hc |- *. tauto.
  - reflexivity.
  - exact colors_of_scatter_3d.
  - reflexivity.
Qed.

Lemma chart_colors_by_script_witness :
  In ("fortune500_graphics.py"%string, map snd Fortune500Graphics.ARC_COLORS)
     color_tables
  /\ "fortune500_graphics.py"%string <> "create_cap_graphics.py"%string
  /\ In "#CC0000"%string (map snd Fortune500Graphics.ARC_COLORS)
  /\ In "#6B7C93"%string (map snd Fortune500Graphics.ARC_COLORS).
Proof.
  assert (H : In ("fortune500_graphics.py"%string,
                  map snd Fortune500Graphics.ARC_COLORS) color_tables).
  { right. right. left. reflexivity. }
  assert (N : "fortune500_graphics.py"%string <> "create_cap_graphics.py"%string)
    by discriminate.
  split; [exact H|]. split; [exact N|].
  exact (proj1 chart_colors_by_script _ _ H N).
Defined.

(** ** The scripts: exception handling and output *)

Lemma scripts_cases (P : string -> M unit -> Prop) :
  P "create_cap_graphics.py"%string CapGraphics.main ->
  P "Python/create_20_visualizations.py"%string Viz20.main ->
  P "Python/create_cool_visualizations.py"%string CoolViz.main ->
  P "create_cool_visualizations_fixed.py"%string CoolVizFixed.main ->
  P "fortune500_graphics.py"%string Fortune500Graphics.main ->
  P "convert_to_images.py"%string ConvertToImages.main ->
  P "create_pdf_simple.py"%string SimplePdf.main ->
  P "create_professional_pdf.py"%string ProfessionalPdf.main ->
  P "create_real_cap_pdf.py"%string RealCapPdf.main ->
  P "create_fortune500_pdf.py"%string Fortune500Pdf.main ->
  forall script main, In (script, main) scripts -> P script main.
Proof.
  intros H1 H2 H3 H4 H5 H6 H7 H8 H9 H10 script main H.
  unfold scripts in H. simpl in H.
  repeat (destruct H as [H|H]; [injection H as <- <-; assumption|]).
  contradiction.
Qed.

(** Checks, for every call that the script makes, how the script ends when
    that call fails. *)
Ltac check_each_call :=
  let ops := fresh "ops" in
  let E := fresh "E" in
  intros o message Ho;
  revert message; revert o Ho;
  refine (proj1 (Forall_forall _ _) _);
  match goal with
  | |- Forall _ (attempted ?m) =>
      remember (attempted m) as ops eqn:E;
      vm_compute in E; subst ops
  end;
  repeat (constructor; [intros message; vm_compute; reflexivity|]);
  constructor.

(** How every script ends when one of its calls fails with an [Exception]. *)
Lemma failure_of_a_call :
  forall script main,
    In (script, main) scripts ->
    forall o message,
      In o (attempted main) ->
      escapes main (fails_only o (Exception message)) = ends_with script o message.
Proof.
  apply (scripts_cases
           (fun script main =>
              forall o message,
                In o (attempted main) ->
                escapes main (fails_only o (Exception message))
                = ends_with script o message));
    check_each_call.
Qed.

(** C1, as stated, fails: [__main__] of create_pdf_simple.py wraps reading
    the report text and building the PDF in [try]/[except Exception]; when
    the file cannot be read the script prints the error and ends
    normally. *)
Lemma handlers_not_only_around_image_export : ~ handlers_only_around_image_export.
Proof.
  intros H.
  specialize (H "create_pdf_simple.py"%string SimplePdf.main).
  specialize (H ltac:(unfold scripts; simpl; tauto)).
  specialize (H (read_text "/Users/jefffranzen/cap-data/Updated_CAP_Report_September_30_2025_COMPLETE.txt")
                "No such file or directory"%string).
  specialize (H ltac:(vm_compute; tauto) eq_refl).
  vm_compute in H. discriminate H.
Qed.

(** C1, amended. Exception handling is [try]/[except] without recovery
    beyond a message or a placeholder, and it is not limited to static
    image export. When a single call fails with an [Exception]:
    create_cap_graphics.py and the two cool-visualization scripts end
    normally if the call is a static image export and with the exception
    otherwise; fortune500_graphics.py and create_pdf_simple.py handle every
    failure but that of [print], also of making directories, building
    charts, writing HTML, reading the report and building the PDF;
    convert_to_images.py handles a failure in building or exporting a
    figure; create_fortune500_pdf.py handles a failed image embedding and
    turns any other failure into exit status 1, and it handles the
    [CalledProcessError] of the subprocess that opens the PDF;
    create_20_visualizations.py, create_professional_pdf.py and
    create_real_cap_pdf.py handle nothing. *)
Theorem exception_handling_by_script :
  (forall script main,
      In (script, main) scripts ->
      forall o message,
        In o (attempted main) ->
        escapes main (fails_only o (Exception message)) = ends_with script o message)
  /\ escapes Fortune500Pdf.main
       (fails_only (subprocess_run ["open"%string; Fortune500Pdf.output_path])
                   CalledProcessError)
     = None.
Proof.
  split.
  - exact failure_of_a_call.
  - vm_compute. reflexivity.
Qed.

Lemma exception_handling_by_script_witness :
  In ("create_fortune500_pdf.py"%string, Fortune500Pdf.main) scripts
  /\ In (build_pdf Fortune500Pdf.output_path) (attempted Fortune500Pdf.main)
  /\ escapes Fortune500Pdf.main
       (fails_only (build_pdf Fortune500Pdf.output_path)
                   (Exception "Permission denied"))
     = Some (SystemExit 1).
Proof.
  assert (H : In ("create_fortune500_pdf.py"%string, Fortune500Pdf.main) scripts).
  { unfold scripts. simpl. tauto. }
  assert (A : In (build_pdf Fortune500Pdf.output_path) (attempted Fortune500Pdf.main)).
  { vm_compute. tauto. }
  split; [exact H|]. split; [exact A|].
  exact (proj1 exception_handling_by_script _ _ H _ "Permission denied"%string A).
Defined.

(** C7, as stated, fails: create_pdf_simple.py calls no chart-construction
    function. *)
Lemma not_every_script_charts : ~ every_script_charts_and_writes.
Proof.
  intros H.
  destruct (H "create_pdf_simple.py"%string SimplePdf.main
              ltac:(unfold scripts; simpl; tauto)) as [C _].
  vm_compute in C. discriminate C.
Qed.

(** C7, amended. Every script, when none of its calls fails, writes at
    least one output file (HTML, PNG or JPG image, or PDF). The chart
    scripts and create_professional_pdf.py call chart-construction
    functions; create_pdf_simple.py, create_real_cap_pdf.py and
    create_fortune500_pdf.py call none. *)
Theorem scripts_write_output_and_chart_scripts_build_charts :
  forall script main,
    In (script, main) scripts ->
    existsb is_output_file (attempted main) = true
    /\ existsb is_chart_call (attempted main)
       = negb (existsb (String.eqb script) layout_only).
Proof.
  apply (scripts_cases
           (fun script main =>
              existsb is_output_file (attempted main) = true
              /\ existsb is_chart_call (attempted main)
                 = negb (existsb (String.eqb script) layout_only)));
    split; vm_compute; reflexivity.
Qed.

Lemma scripts_write_output_and_chart_scripts_build_charts_witness :
  In ("create_real_cap_pdf.py"%string, RealCapPdf.main) scripts
  /\ existsb is_output_file (attempted RealCapPdf.main) = true
  /\ existsb is_chart_call (attempted RealCapPdf.main) = false.
Proof.
  assert (H : In ("create_real_cap_pdf.py"%string, RealCapPdf.main) scripts).
  { unfold scripts. simpl. tauto. }
  split; [exact H|].
  exact (@scripts_write_output_and_chart_scripts_build_charts _ _ H).
Defined.

(** ** create_fortune500_pdf.py and fortune500_graphics.py: recovery *)

Section AddVisualization.

Import Fortune500Pdf.

#[local] Open Scope string_scope.
#[local] Open Scope list_scope.

(** What [add_visualization] appends after the image or its
    placeholder. *)
Lemma add_visualization_image_fails
      (story : flowables) (viz_path title description : string)
      (width height : Q) (w : world) (s : state) (message : string) :
  path_exists w viz_path = true ->
  outcome w (load_image viz_path) = Some (Exception message) ->
  add_visualization story viz_path title description width height w s
  = (inl (story
          ++ [Paragraph title "SubsectionHeader"]
          ++ [Paragraph ("[Visualization: " ++ title ++ "]")%string "BodyText"]
          ++ (if (0 <? String.length description)%nat
              then [Spacer 1 6; Paragraph description "BodyText"]
              else [])
          ++ [Spacer 1 12]),
     s).
Proof.
  intros Hex Hfail.
  unfold add_visualization, bind, exists_, try_except, call, ret.
  rewrite Hex, Hfail. cbn [is_Exception].
  destruct (0 <? String.length description)%nat;
    now rewrite <- !app_assoc.
Qed.

Lemma add_visualization_file_missing
      (story : flowables) (viz_path title description : string)
      (width height : Q) (w : world) (s : state) :
  path_exists w viz_path = false ->
  add_visualization story viz_path title description width height w s
  = (inl (story
          ++ [Paragraph title "SubsectionHeader"]
          ++ [Paragraph ("[Visualization: " ++ title ++ " - File not found: "
                           ++ viz_path ++ "]")%string "BodyText"]
          ++ (if (0 <? String.length description)%nat
              then [Spacer 1 6; Paragraph description "BodyText"]
              else [])
          ++ [Spacer 1 12]),
     s).
Proof.
  intros Hex.
  unfold add_visualization, bind, exists_, try_except, call, ret.
  rewrite Hex.
  destruct (0 <? String.length description)%nat;
    now rewrite <- !app_assoc.
Qed.

Lemma add_visualization_image_loads
      (story : flowables) (viz_path title description : string)
      (width height : Q) (w : world) (s : state) :
  path_exists w viz_path = true ->
  outcome w (load_image viz_path) = None ->
  add_visualization story viz_path title description width height w s
  = (inl (story
          ++ [Paragraph title "SubsectionHeader"]
          ++ [Image viz_path width height "CENTER"]
          ++ (if (0 <? String.length description)%nat
              then [Spacer 1 6; Paragraph description "BodyText"]
              else [])
          ++ [Spacer 1 12]),
     {| trace := trace s ++ [load_image viz_path]; drawn := drawn s |}).
Proof.
  intros Hex Hok.
  unfold add_visualization, bind, exists_, try_except, call, ret.
  rewrite Hex, Hok.
  destruct (0 <? String.length description)%nat;
    now rewrite <- !app_assoc.
Qed.

End AddVisualization.




(** * Further properties *)

(** ** create_fortune500_pdf.py: the title page carries no number *)

Section Fortune500.

Import Fortune500Canvas.

Lemma fortune500_draw_page_number_stamp (page_num total_pages : Z) (c : canvas) :
  draw_page_number page_num total_pages c
  = puts (fortune500_stamp page_num total_pages) c.
Proof.
  unfold draw_page_number, fortune500_stamp.
  destruct (page_num =? 1)%Z; reflexivity.
Qed.

Lemma fortune500_save_state_pages (num_pages : Z) (states : list attrs) :
  forall c j,
    let r := fold_left (save_state num_pages) states (c, j) in
    _doc (fst r) = _doc c ++ fortune500_pages num_pages j states
    /\ _saved_page_states (fst r) = _saved_page_states c.
Proof.
  induction states as [|st states IH]; intros c j.
  - simpl. rewrite app_nil_r. auto.
  - simpl fold_left. cbv zeta.
    destruct (IH (Canvas_showPage
                    (draw_page_number (j + 1) num_pages (set_dict c st)))
                 (j + 1)%Z) as [E S1].
    cbv zeta in E, S1. rewrite E, S1. clear E S1 IH.
    rewrite fortune500_draw_page_number_stamp.
    destruct (Canvas_showPage_fields
                (puts (fortune500_stamp (j + 1) num_pages) (set_dict c st)))
      as (_ & C2 & C3 & _).
    destruct (puts_set_dict (fortune500_stamp (j + 1) num_pages) c st)
      as (H1 & H2 & H3 & _).
    rewrite C2, C3, H1, H2, H3.
    cbn [_code fortune500_pages]. rewrite <- app_assoc. auto.
Qed.

Lemma nth_error_fortune500_pages (num_pages : Z) (pages : list page) :
  forall i j k p,
    nth_error pages k = Some p ->
    nth_error (fortune500_pages num_pages j (snapshots i pages)) k
    = Some (p ++ fortune500_stamp (j + Z.of_nat k + 1) num_pages).
Proof.
  induction pages as [|q pages IH]; intros i j [|k] p H;
    cbn [nth_error snapshots fortune500_pages] in *; try discriminate.
  - injection H as ->. cbn [_code]. now rewrite Z.add_0_r.
  - rewrite (IH (i + 1)%Z (j + 1)%Z k p H).
    do 3 f_equal. lia.
Qed.

Lemma length_fortune500_pages (num_pages : Z) (states : list attrs) :
  forall j, List.length (fortune500_pages num_pages j states) = List.length states.
Proof.
  induction states as [|st states IH]; intros j; simpl; [|rewrite IH]; reflexivity.
Qed.

Lemma fortune500_build_pages (pages : list page) :
  let c := build NumberedCanvas_init showPage save pages in
  _doc c = fortune500_pages (Z.of_nat (List.length pages)) 0 (snapshots 1 pages)
  /\ _file c = Some (_doc c).
Proof.
  unfold build, save.
  destruct (showPage_pages pages NumberedCanvas_init eq_refl) as (S1 & D1 & _ & _).
  cbv zeta in S1, D1.
  change (fun c p => ProfessionalPdf.showPage (puts p c))
    with (fun c p => showPage (puts p c)) in S1, D1.
  set (c1 := fold_left (fun c p => showPage (puts p c)) pages NumberedCanvas_init) in *.
  cbn [_saved_page_states NumberedCanvas_init app dict _pageNumber Canvas_init] in S1.
  cbn [_doc NumberedCanvas_init Canvas_init] in D1.
  rewrite S1, length_snapshots.
  destruct (fortune500_save_state_pages (Z.of_nat (List.length pages))
              (snapshots 1 pages) c1 0%Z) as [E _].
  cbv zeta in E.
  set (c2 := fst (fold_left _ (snapshots 1 pages) (c1, 0%Z))) in *.
  assert (D : _doc (Canvas_save showPage c2) = _doc c2
              /\ _file (Canvas_save showPage c2) = Some (_doc c2)).
  { unfold Canvas_save. destruct (_code (dict c2)); split; reflexivity. }
  cbv zeta. destruct D as [D1' D2']. rewrite D1', D2', E, D1. auto.
Qed.

End Fortune500.

(** X1. [NumberedCanvas] of create_fortune500_pdf.py counts the title page
    out: of a document of [N] pages it writes all [N], the first without
    stamp, and the page in position [k > 1] with the header and
    [Page k-1 of N-1]. *)
Theorem fortune500_title_page_not_counted (pages : list page) :
  let N := Z.of_nat (List.length pages) in
  let c := build Fortune500Canvas.NumberedCanvas_init Fortune500Canvas.showPage
                 Fortune500Canvas.save pages in
  _file c = Some (_doc c)
  /\ List.length (_doc c) = List.length pages
  /\ (forall k p,
         nth_error pages k = Some p ->
         nth_error (_doc c) k = Some (p ++ fortune500_stamp (Z.of_nat k + 1) N))
  /\ texts (fortune500_stamp 1 N) = []
  /\ (forall i : Z,
         (1 < i)%Z ->
         texts (fortune500_stamp i N)
         = [ lit "Page " ++ str_of_int (i - 1) ++ lit " of " ++ str_of_int (N - 1);
             lit "CAP EVALUATION REPORT" ]).
Proof.
  cbv zeta. destruct (fortune500_build_pages pages) as [D F]. cbv zeta in D, F.
  split; [exact F|]. rewrite D.
  split; [now rewrite length_fortune500_pages, length_snapshots|].
  split; [|split; [reflexivity|]].
  - intros k p H. rewrite (nth_error_fortune500_pages _ pages 1 0 k H).
    rewrite Z.add_0_l. reflexivity.
  - intros i H. unfold fortune500_stamp.
    replace (i =? 1)%Z with false by (symmetry; apply Z.eqb_neq; lia).
    reflexivity.
Qed.

Lemma fortune500_title_page_not_counted_witness :
  nth_error three_pages 2 = Some [DrawString 72 700 (lit "Strategic Recommendations")]
  /\ (1 < 3)%Z
  /\ map texts (_doc (build Fortune500Canvas.NumberedCanvas_init
                        Fortune500Canvas.showPage Fortune500Canvas.save three_pages))
     = [ [ lit "Community Adaptation Program" ];
         [ lit "Key Findings"; lit "Page 1 of 2"; lit "CAP EVALUATION REPORT" ];
         [ lit "Strategic Recommendations"; lit "Page 2 of 2";
           lit "CAP EVALUATION REPORT" ] ]
  /\ texts (fortune500_stamp 3 3) = [ lit "Page 2 of 2"; lit "CAP EVALUATION REPORT" ].
Proof.
  assert (H : nth_error three_pages 2
              = Some [DrawString 72 700 (lit "Strategic Recommendations")])
    by reflexivity.
  assert (L : (1 < 3)%Z) by lia.
  pose proof (fortune500_title_page_not_counted three_pages) as T.
  cbv zeta in T. destruct T as (_ & _ & T3 & _ & T5).
  split; [exact H|]. split; [exact L|].
  split; [vm_compute; reflexivity|].
  pose proof (T3 2%nat _ H) as _.
  exact (T5 3%Z L).
Defined.

(** X2. In create_professional_pdf.py every page is stamped, the first
    too: of a document of [N] pages drawn on a fresh canvas, the page in
    position [k] carries [Page k of N]. *)
Theorem professional_pages_numbered_from_one
        (clock : nat -> str) (pages : list page) (k : nat) (p : page) :
  nth_error pages k = Some p ->
  exists stamped,
    nth_error (_doc (build ProfessionalPdf.NumberedCanvas_init
                       ProfessionalPdf.showPage (ProfessionalPdf.save clock) pages)) k
    = Some stamped
    /\ texts stamped
       = texts p
         ++ [ lit "Community Adaptation Program Evaluation Report";
              clock k;
              lit "Page " ++ str_of_int (Z.of_nat k + 1) ++ lit " of "
              ++ str_of_int (Z.of_nat (List.length pages)) ].
Proof.
  intros H. eexists. split.
  - exact (professional_build_pages clock pages k H).
  - rewrite texts_app. reflexivity.
Qed.

Lemma professional_pages_numbered_from_one_witness :
  nth_error three_pages 0 = Some [DrawString 72 700 (lit "Community Adaptation Program")]
  /\ exists stamped,
       nth_error (_doc (build ProfessionalPdf.NumberedCanvas_init
                          ProfessionalPdf.showPage
                          (ProfessionalPdf.save (fun _ => lit "September 2025"))
                          three_pages)) 0
       = Some stamped
       /\ texts stamped
          = texts [DrawString 72 700 (lit "Community Adaptation Program")]
            ++ [ lit "Community Adaptation Program Evaluation Report";
                 lit "September 2025";
                 lit "Page " ++ str_of_int (Z.of_nat 0 + 1) ++ lit " of "
                 ++ str_of_int (Z.of_nat (List.length three_pages)) ].
Proof.
  assert (H : nth_error three_pages 0
              = Some [DrawString 72 700 (lit "Community Adaptation Program")])
    by reflexivity.
  split; [exact H|].
  exact (professional_pages_numbered_from_one (fun _ => lit "September 2025")
           three_pages 0 H).
Defined.

(** ** The call-out boxes: where and how the content is drawn *)

Lemma Qltb_lt (x y : Q) : Qltb x y = true -> x < y.
Proof.
  unfold Qltb. intros H. apply Bool.negb_true_iff in H.
  apply Qnot_le_lt. intros C. apply Qle_bool_iff in C. congruence.
Qed.

Lemma Qltb_ge (x y : Q) : Qltb x y = false -> y <= x.
Proof.
  unfold Qltb. intros H. apply Bool.negb_false_iff in H.
  now apply Qle_bool_iff.
Qed.

Lemma Forall_firstn_of {A} (P : A -> Prop) (l : list A) :
  Forall P l -> forall n, Forall P (firstn n l).
Proof.
  induction 1 as [|x l Hx Hl IH]; intros [|n]; simpl; constructor; auto.
Qed.

Lemma join_words_snoc (ws : list str) (w : str) :
  ws <> [] -> join_words (ws ++ [w]) = join_words ws ++ space :: w.
Proof.
  induction ws as [|v ws IH]; intros H; [congruence|].
  destruct ws as [|u ws].
  - reflexivity.
  - change (join_words ((v :: u :: ws) ++ [w]))
      with (v ++ space :: join_words ((u :: ws) ++ [w])).
    rewrite IH by discriminate.
    change (join_words (v :: u :: ws)) with (v ++ space :: join_words (u :: ws)).
    now rewrite <- app_assoc.
Qed.

Lemma well_spaced_word (w : str) : word w -> well_spaced w.
Proof.
  intros Hw. pose proof Hw as [Hne Hns]. unfold well_spaced.
  rewrite (split_word Hw). split; [reflexivity|]. split.
  - destruct w as [|c w]; [congruence|]. exists c, w. split; [reflexivity|].
    now inversion Hns.
  - destruct (exists_last Hne) as (rest & c & ->). exists rest, c.
    split; [reflexivity|].
    apply Forall_app in Hns. destruct Hns as [_ Hc]. now inversion Hc.
Qed.

Lemma well_spaced_snoc_word (line w : str) :
  well_spaced line -> word w -> well_spaced (line ++ space :: w).
Proof.
  intros (Hj & (c & rest & Hh & Hc) & _) Hw.
  pose proof (well_spaced_word Hw) as (_ & _ & (wrest & d & Hl & Hd)).
  unfold well_spaced. rewrite (split_snoc_word line Hw). split; [|split].
  - rewrite join_words_snoc.
    + now rewrite <- Hj.
    + intros E. rewrite E in Hj. simpl in Hj. subst line. discriminate.
  - exists c, (rest ++ space :: w). split; [|assumption]. now rewrite Hh.
  - exists (line ++ space :: wrest), d. split; [|assumption].
    rewrite Hl, <- app_assoc. reflexivity.
Qed.

Lemma strip_well_spaced (line : str) : well_spaced line -> strip line = line.
Proof.
  intros (_ & (c & rest & Hh & Hc) & (rest' & d & Hl & Hd)).
  unfold strip, rstrip.
  assert (L : lstrip line = line) by (rewrite Hh; simpl; now rewrite Hc).
  rewrite L. rewrite Hl at 1. rewrite rev_app_distr. simpl. rewrite Hd.
  change (d :: rev rest') with (rev [d] ++ rev rest').
  now rewrite <- rev_app_distr, rev_involutive.
Qed.

Lemma well_spaced_has_word (line : str) : well_spaced line -> split line <> [].
Proof.
  intros (Hj & (c & rest & Hh & _) & _) E.
  rewrite E in Hj. simpl in Hj. rewrite Hj in Hh. discriminate.
Qed.

Section SimpleLines.

Import SimplePdf.

Lemma wrap_word_well_spaced (words : list str) :
  Forall word words ->
  forall lines current_line,
    Forall well_spaced lines ->
    current_line = [] \/ well_spaced current_line ->
    let '(lines', current_line') :=
      fold_left wrap_word words (lines, current_line) in
    Forall well_spaced lines'
    /\ (current_line' = [] \/ well_spaced current_line').
Proof.
  induction 1 as [|w words Hw Hws IH]; intros lines cur Hl Hc.
  - simpl. auto.
  - simpl fold_left. change 32%N with space.
    destruct (len (cur ++ space :: w) <=? max_chars_per_line)%nat.
    + destruct (truthy cur) eqn:Hne; cbv iota.
      * apply truthy_true in Hne. apply IH; [assumption|]. right.
        apply well_spaced_snoc_word; [|assumption].
        destruct Hc; [contradiction|assumption].
      * apply IH; [assumption|]. right. now apply well_spaced_word.
    + destruct (truthy cur) eqn:Hne; cbv iota.
      * apply truthy_true in Hne. apply IH.
        -- apply Forall_app. split; [assumption|].
           constructor; [|constructor]. destruct Hc; [contradiction|assumption].
        -- right. now apply well_spaced_word.
      * apply IH; [assumption|]. right. now apply well_spaced_word.
Qed.

Lemma wrap_well_spaced (content : str) : Forall well_spaced (wrap content).
Proof.
  unfold wrap.
  generalize (wrap_word_well_spaced (split_words content) (lines := [])
                (current_line := []) (Forall_nil _) (or_introl eq_refl)).
  destruct (fold_left wrap_word (split content) _) as [lines cur].
  cbv beta iota. intros (H1 & H2).
  destruct (truthy cur) eqn:Hne; [|assumption].
  apply truthy_true in Hne. apply Forall_app. split; [assumption|].
  constructor; [|constructor]. destruct H2; [contradiction|assumption].
Qed.

(** The lines drawn stay between the bottom margin and the title bar. *)
Lemma draw_line_inside (h : Q) (lines : list str) :
  forall ops y,
    y <= h - 0.55 * inch ->
    Forall (fun op => exists y' t,
                op = DrawCentredString (width / 2) y' t
                /\ 0.2 * inch < y' /\ y' <= h - 0.55 * inch) ops ->
    Forall (fun op => exists y' t,
                op = DrawCentredString (width / 2) y' t
                /\ 0.2 * inch < y' /\ y' <= h - 0.55 * inch)
           (fst (fold_left draw_line lines (ops, y))).
Proof.
  induction lines as [|l lines IH]; intros ops y Hy Hops.
  - exact Hops.
  - simpl fold_left.
    destruct (Qltb (0.2 * inch) y) eqn:E.
    + apply IH.
      * unfold inch in *. lra.
      * apply Forall_app. split; [assumption|].
        constructor; [|constructor]. exists y, (strip l).
        split; [reflexivity|]. split; [now apply Qltb_lt | assumption].
    + now apply IH.
Qed.

End SimpleLines.

(** X3. The content lines of the simple call-out box are drawn inside the
    box: centred, at heights above 0.2 inch and not above the height of the
    box less 0.55 inch, and never more than seven of them. *)
Theorem simple_box_text_stays_inside (box : SimplePdf.CalloutBox) :
  Forall (fun op => exists y t,
              op = DrawCentredString (SimplePdf.width / 2) y t
              /\ 0.2 * inch < y
              /\ y <= SimplePdf.height box - 0.55 * inch)
         (SimplePdf.draw_lines (SimplePdf.height box)
                               (SimplePdf.wrap (SimplePdf.content box)))
  /\ (List.length (SimplePdf.drawn_content box) <= 7)%nat.
Proof.
  split.
  - unfold SimplePdf.draw_lines. apply draw_line_inside.
    + apply Qle_refl.
    + constructor.
  - rewrite drawn_content_prefix, length_map, length_firstn.
    unfold capacity.
    destruct (len (SimplePdf.content box) <? 50)%nat; [lia|].
    destruct (len (SimplePdf.content box) <? 100)%nat; [lia|].
    destruct (len (SimplePdf.content box) <? 150)%nat; lia.
Qed.

(** X4. Every line that the simple call-out box draws is made of its words
    with single spaces between them and has no whitespace at its ends, so
    that [line.strip()] changes nothing: the box draws the first wrapped
    lines as they are. *)
Theorem simple_box_lines_single_spaced (box : SimplePdf.CalloutBox) :
  Forall (fun line => line = join_words (split line) /\ line <> [] /\ strip line = line)
         (SimplePdf.wrap (SimplePdf.content box))
  /\ SimplePdf.drawn_content box
     = firstn (capacity (len (SimplePdf.content box)))
              (SimplePdf.wrap (SimplePdf.content box)).
Proof.
  pose proof (wrap_well_spaced (SimplePdf.content box)) as W.
  split.
  - apply Forall_forall. intros line Hin.
    pose proof (proj1 (Forall_forall _ _) W line Hin) as Hl.
    split; [exact (proj1 Hl)|]. split; [|now apply strip_well_spaced].
    destruct Hl as (_ & (c & rest & -> & _) & _). discriminate.
  - rewrite drawn_content_prefix.
    assert (F : Forall well_spaced
                  (firstn (capacity (len (SimplePdf.content box)))
                          (SimplePdf.wrap (SimplePdf.content box)))).
    { now apply Forall_firstn_of. }
    induction F as [|l ls Hl _ IH]; simpl.
    + reflexivity.
    + now rewrite IH, strip_well_spaced.
Qed.

(** X5. A content of [n] characters wraps to [L] lines with
    [65 * (L / 2) + L <= n + 1], and to no more lines than it has words. *)
Theorem wrapped_line_count (content : str) :
  let L := List.length (SimplePdf.wrap content) in
  (65 * (L / 2) + L <= len content + 1)%nat
  /\ (L <= List.length (split content))%nat.
Proof.
  cbv zeta. split.
  - apply wrap_line_count.
  - rewrite <- (wrap_words content).
    pose proof (wrap_well_spaced content) as W.
    induction W as [|l ls Hl _ IH]; simpl.
    + apply Nat.le_refl.
    + rewrite length_app.
      pose proof (well_spaced_has_word Hl) as Hw.
      destruct (split l); [congruence|]. simpl. lia.
Qed.

Section ProfessionalLines.

Import ProfessionalPdf.

Variable stringWidth : str -> string -> Q -> Q.

Lemma draw_word_fits (words : list str) :
  Forall word words ->
  forall ops y line,
    Forall (fits_width stringWidth) (texts ops) ->
    line = [] \/ fits_width stringWidth line ->
    let '(ops', _, line') :=
      fold_left (draw_word stringWidth) words (ops, y, line) in
    Forall (fits_width stringWidth) (texts ops') /\ (line' = [] \/ fits_width stringWidth line').
Proof.
  induction 1 as [|w words Hw Hws IH]; intros ops y line Hops Hline.
  - simpl. auto.
  - simpl fold_left. change 32%N with space.
    destruct (truthy line) eqn:Hne; cbv iota.
    + apply truthy_true in Hne.
      destruct (Qltb (stringWidth (line ++ space :: w) "Helvetica"%string 10) max_width)
        eqn:E.
      * apply IH; [assumption|]. right. right. now apply Qltb_lt.
      * apply IH.
        -- rewrite texts_app. apply Forall_app. split; [assumption|].
           simpl. constructor; [|constructor].
           destruct Hline; [contradiction|assumption].
        -- right. left. now apply split_word.
    + destruct (Qltb (stringWidth w "Helvetica"%string 10) max_width);
        (apply IH; [assumption|]; right; left; now apply split_word).
Qed.

Lemma professional_lines_fit (box : CalloutBox) :
  Forall (fits_width stringWidth) (drawn_content stringWidth box).
Proof.
  unfold drawn_content, draw_words.
  generalize (@draw_word_fits (split (content box)) (split_words (content box)) []
                (height box - 0.6 * inch)%Q [] (Forall_nil _) (or_introl eq_refl)).
  destruct (fold_left (draw_word stringWidth) (split (content box)) _)
    as [[ops y] line].
  simpl. intros [H1 H2].
  destruct (truthy line) eqn:Hne; [|assumption].
  apply truthy_true in Hne. rewrite texts_app. apply Forall_app.
  split; [assumption|]. simpl. constructor; [|constructor].
  destruct H2; [contradiction|assumption].
Qed.

End ProfessionalLines.

(** X6. Every content line that the professional call-out box draws is
    narrower, in Helvetica 10, than the box less 0.4 inch, unless it is a
    single word. *)
Theorem professional_box_lines_fit_width
        (stringWidth : str -> string -> Q -> Q) (box : ProfessionalPdf.CalloutBox) :
  Forall (fun line =>
            split line = [line]
            \/ stringWidth line "Helvetica"%string 10
               < ProfessionalPdf.width - 0.4 * inch)
         (ProfessionalPdf.drawn_content stringWidth box).
Proof. exact (professional_lines_fit stringWidth box). Qed.

Lemma split_blank (s : str) :
  Forall (fun c => isspace c = true) s -> split s = [].
Proof. intros H. unfold split. now rewrite (split_from_spaces H). Qed.

(** X7. A call-out box whose content is empty or all whitespace shows its
    frame and title only: no content line is drawn, in either script. *)
Theorem blank_content_draws_frame_only
        (stringWidth : str -> string -> Q -> Q)
        (simple : SimplePdf.CalloutBox) (professional : ProfessionalPdf.CalloutBox) :
  Forall (fun c => isspace c = true) (SimplePdf.content simple) ->
  Forall (fun c => isspace c = true) (ProfessionalPdf.content professional) ->
  SimplePdf.draw simple = SimplePdf.draw_frame simple
  /\ texts (SimplePdf.draw simple) = [SimplePdf.title simple]
  /\ ProfessionalPdf.draw stringWidth professional
     = ProfessionalPdf.draw_frame professional
  /\ texts (ProfessionalPdf.draw stringWidth professional)
     = [ProfessionalPdf.title professional].
Proof.
  intros Hs Hp.
  assert (Ds : SimplePdf.draw simple = SimplePdf.draw_frame simple).
  { unfold SimplePdf.draw.
    assert (W : SimplePdf.wrap (SimplePdf.content simple) = [])
      by (unfold SimplePdf.wrap; now rewrite (split_blank Hs)).
    rewrite W. unfold SimplePdf.draw_lines. cbn [fold_left fst].
    apply app_nil_r. }
  assert (Dp : ProfessionalPdf.draw stringWidth professional
               = ProfessionalPdf.draw_frame professional).
  { unfold ProfessionalPdf.draw.
    assert (W : ProfessionalPdf.draw_words stringWidth
                  (ProfessionalPdf.height professional)
                  (ProfessionalPdf.content professional) = [])
      by (unfold ProfessionalPdf.draw_words; now rewrite (split_blank Hp)).
    rewrite W. apply app_nil_r. }
  rewrite Ds, Dp. repeat split; reflexivity.
Qed.

Lemma blank_content_draws_frame_only_witness :
  let simple := {| SimplePdf.title := lit "NOTE";
                   SimplePdf.content := lit "   ";
                   SimplePdf.box_type := "quote"%string |} in
  let professional := {| ProfessionalPdf.title := lit "NOTE";
                         ProfessionalPdf.content := [];
                         ProfessionalPdf.box_type := "quote"%string |} in
  Forall (fun c => isspace c = true) (SimplePdf.content simple)
  /\ Forall (fun c => isspace c = true) (ProfessionalPdf.content professional)
  /\ texts (SimplePdf.draw simple) = [lit "NOTE"].
Proof.
  cbv zeta.
  assert (Hs : Forall (fun c => isspace c = true) (lit "   "))
    by (repeat constructor).
  assert (Hp : Forall (fun c => isspace c = true) (@nil char)) by constructor.
  split; [exact Hs|]. split; [exact Hp|].
  exact (proj1 (proj2 (blank_content_draws_frame_only
                         (fun _ _ _ => 0)
                         {| SimplePdf.title := lit "NOTE";
                            SimplePdf.content := lit "   ";
                            SimplePdf.box_type := "quote"%string |}
                         {| ProfessionalPdf.title := lit "NOTE";
                            ProfessionalPdf.content := [];
                            ProfessionalPdf.box_type := "quote"%string |}
                         Hs Hp))).
Defined.

Lemma dict_get_missing {V} (d : list (string * V)) (key : string) (default : V) :
  ~ In key (map fst d) -> dict_get d key default = default.
Proof.
  induction d as [|[k v] d IH]; intros H; simpl.
  - reflexivity.
  - destruct (String.eqb k key) eqn:E.
    + apply String.eqb_eq in E. exfalso. apply H. now left.
    + apply IH. intros C. apply H. now right.
Qed.

(** X8. A box type that is not in the colour table of the script is drawn
    in black: frame and title bar. The type ['speed'] is in the table of
    create_pdf_simple.py only, so that create_professional_pdf.py draws a
    ['speed'] box in black. *)
Theorem unknown_box_type_is_black
        (simple : SimplePdf.CalloutBox) (professional : ProfessionalPdf.CalloutBox) :
  ~ In (SimplePdf.box_type simple) (map fst SimplePdf.colors) ->
  ~ In (ProfessionalPdf.box_type professional) (map fst ProfessionalPdf.colors) ->
  (nth_error (SimplePdf.draw_frame simple) 0 = Some (SetStrokeColor black)
   /\ nth_error (SimplePdf.draw_frame simple) 3 = Some (SetFillColor black))
  /\ (nth_error (ProfessionalPdf.draw_frame professional) 0 = Some (SetStrokeColor black)
      /\ nth_error (ProfessionalPdf.draw_frame professional) 3 = Some (SetFillColor black))
  /\ In "speed"%string (map fst SimplePdf.colors)
  /\ ~ In "speed"%string (map fst ProfessionalPdf.colors).
Proof.
  intros Hs Hp. unfold SimplePdf.draw_frame, ProfessionalPdf.draw_frame.
  cbv zeta.
  rewrite (@dict_get_missing _ _ _ black Hs), !(@dict_get_missing _ _ _ black Hp).
  repeat split; try reflexivity.
  - simpl. tauto.
  - simpl. intuition discriminate.
Qed.

Lemma unknown_box_type_is_black_witness :
  let simple := {| SimplePdf.title := lit "NOTE";
                   SimplePdf.content := lit "text";
                   SimplePdf.box_type := "warning"%string |} in
  let professional := {| ProfessionalPdf.title := lit "NOTE";
                         ProfessionalPdf.content := lit "text";
                         ProfessionalPdf.box_type := "speed"%string |} in
  ~ In (SimplePdf.box_type simple) (map fst SimplePdf.colors)
  /\ ~ In (ProfessionalPdf.box_type professional) (map fst ProfessionalPdf.colors)
  /\ nth_error (ProfessionalPdf.draw_frame professional) 0 = Some (SetStrokeColor black).
Proof.
  cbv zeta.
  assert (Hs : ~ In "warning"%string (map fst SimplePdf.colors))
    by (simpl; intuition discriminate).
  assert (Hp : ~ In "speed"%string (map fst ProfessionalPdf.colors))
    by (simpl; intuition discriminate).
  split; [exact Hs|]. split; [exact Hp|].
  exact (proj1 (proj1 (proj2 (unknown_box_type_is_black
           {| SimplePdf.title := lit "NOTE";
              SimplePdf.content := lit "text";
              SimplePdf.box_type := "warning"%string |}
           {| ProfessionalPdf.title := lit "NOTE";
              ProfessionalPdf.content := lit "text";
              ProfessionalPdf.box_type := "speed"%string |}
           Hs Hp)))).
Defined.

(** *** The position of the lines *)

Lemma text_ys_app (a b : list drawop) : text_ys (a ++ b) = text_ys a ++ text_ys b.
Proof.
  induction a as [|op a IH]; simpl; [reflexivity|].
  destruct (text_y op); simpl; now rewrite IH.
Qed.

Lemma length_text_ys (ops : list drawop) :
  List.length (text_ys ops) = List.length (texts ops).
Proof.
  induction ops as [|op ops IH]; simpl; [reflexivity|].
  destruct op; simpl; auto.
Qed.

Lemma line_y_next (top step : Q) (k : nat) :
  line_y top step k - step == line_y top step (S k).
Proof.
  unfold line_y. rewrite Nat2Z.inj_succ, <- Z.add_1_r, inject_Z_plus. ring.
Qed.

Lemma evenly_spaced_snoc (top step : Q) (ys : list Q) (y : Q) :
  Forall2 Qeq ys (map (line_y top step) (seq 0 (List.length ys))) ->
  y == line_y top step (List.length ys) ->
  Forall2 Qeq (ys ++ [y]) (map (line_y top step) (seq 0 (List.length (ys ++ [y])))).
Proof.
  intros H Hy. rewrite length_app. cbn [List.length].
  rewrite Nat.add_1_r, seq_S, map_app. cbn [map Nat.add].
  apply Forall2_app; [assumption|]. now constructor.
Qed.

Section Positions.

Variable stringWidth : str -> string -> Q -> Q.

Lemma professional_positions (top : Q) (words : list str) :
  forall ops y line,
    Forall2 Qeq (text_ys ops)
            (map (line_y top (0.2 * inch)) (seq 0 (List.length (text_ys ops)))) ->
    y == line_y top (0.2 * inch) (List.length (text_ys ops)) ->
    let '(ops', y', _) :=
      fold_left (ProfessionalPdf.draw_word stringWidth) words (ops, y, line) in
    Forall2 Qeq (text_ys ops')
            (map (line_y top (0.2 * inch)) (seq 0 (List.length (text_ys ops'))))
    /\ y' == line_y top (0.2 * inch) (List.length (text_ys ops')).
Proof.
  induction words as [|word words IH]; intros ops y line H Hy.
  - simpl. auto.
  - cbn [fold_left]. unfold ProfessionalPdf.draw_word at 2.
    cbv zeta.
    destruct (Qltb _ ProfessionalPdf.max_width); [now apply IH|].
    destruct (truthy line); [|now apply IH].
    apply IH.
    + rewrite text_ys_app. cbn [text_ys text_y]. now apply evenly_spaced_snoc.
    + rewrite text_ys_app, length_app. cbn [text_ys text_y List.length].
      rewrite Nat.add_1_r, <- line_y_next, Hy. reflexivity.
Qed.

Lemma simple_positions (top : Q) (lines : list str) :
  forall ops y,
    Forall2 Qeq (text_ys ops)
            (map (line_y top (0.18 * inch)) (seq 0 (List.length (text_ys ops)))) ->
    y == line_y top (0.18 * inch) (List.length (text_ys ops)) ->
    let '(ops', y') := fold_left SimplePdf.draw_line lines (ops, y) in
    Forall2 Qeq (text_ys ops')
            (map (line_y top (0.18 * inch)) (seq 0 (List.length (text_ys ops'))))
    /\ y' == line_y top (0.18 * inch) (List.length (text_ys ops')).
Proof.
  induction lines as [|line lines IH]; intros ops y H Hy.
  - simpl. auto.
  - cbn [fold_left]. unfold SimplePdf.draw_line at 2.
    destruct (Qltb (0.2 * inch) y); [|now apply IH].
    apply IH.
    + rewrite text_ys_app. cbn [text_ys text_y]. now apply evenly_spaced_snoc.
    + rewrite text_ys_app, length_app. cbn [text_ys text_y List.length].
      rewrite Nat.add_1_r, <- line_y_next, Hy. reflexivity.
Qed.

End Positions.

Lemma line_y_first (top step : Q) : top == line_y top step 0.
Proof. unfold line_y. cbn. ring. Qed.


(** ** The scripts in any world *)

(** *** Computations that pass on what their calls raise *)

Lemma tame_ret P {A} (a : A) : tame P (ret a).
Proof.
  intros w s. exists []. cbn. rewrite app_nil_r. split; [reflexivity|]; split; [constructor|discriminate].
Qed.

Lemma tame_call (P : op -> Prop) (o : op) : P o -> tame P (call o).
Proof.
  intros Ho w s. unfold call. destruct (outcome w o) as [e|] eqn:E.
  - exists []. cbn. rewrite app_nil_r. split; [reflexivity|]. split; [constructor|].
    intros e' [= <-]. eauto.
  - exists [o]. cbn. split; [reflexivity|]. split; [repeat constructor; assumption|discriminate].
Qed.

Lemma tame_bind P {A B} (m : M A) (k : A -> M B) :
  tame P m -> (forall a, tame P (k a)) -> tame P (bind m k).
Proof.
  intros Hm Hk w s. unfold bind.
  destruct (Hm w s) as (t1 & T1 & P1 & E1).
  destruct (m w s) as [[a|e] s1]; cbn in *.
  - destruct (Hk a w s1) as (t2 & T2 & P2 & E2).
    exists (t1 ++ t2). rewrite T2, T1, app_assoc. split; [reflexivity|]. split.
    + apply Forall_app; auto.
    + assumption.
  - exists t1. split; [assumption|]. split; [assumption|].
    intros e0 [= <-]. exact (E1 e eq_refl).
Qed.

Lemma tame_try_except P {A} (body : M A) handles (handler : exn -> M A) :
  tame P body -> (forall e, tame P (handler e)) -> tame P (try_except body handles handler).
Proof.
  intros Hm Hk w s. unfold try_except.
  destruct (Hm w s) as (t1 & T1 & P1 & E1).
  destruct (body w s) as [[a|e] s1]; cbn in *.
  - exists t1. auto.
  - destruct (handles e).
    + destruct (Hk e w s1) as (t2 & T2 & P2 & E2).
      exists (t1 ++ t2). rewrite T2, T1, app_assoc. split; [reflexivity|]. split.
      * apply Forall_app; auto.
      * assumption.
    + exists t1. auto.
Qed.

Lemma tame_for_each P {A} (xs : list A) (body : A -> M unit) :
  (forall x, tame P (body x)) -> tame P (for_each xs body).
Proof.
  intros H. induction xs as [|x xs IH]; simpl.
  - apply tame_ret.
  - apply tame_bind; auto.
Qed.

Lemma tame_list_comp P {A B} (xs : list A) (f : A -> M B) :
  (forall x, tame P (f x)) -> tame P (list_comp xs f).
Proof.
  intros H. induction xs as [|x xs IH]; simpl.
  - apply tame_ret.
  - apply tame_bind; auto. intros y. apply tame_bind; auto. intros ys. apply tame_ret.
Qed.

Lemma tame_fmt_1f P (x : Q) : tame P (fmt_1f x).
Proof.
  intros w s. exists []. cbn. rewrite app_nil_r. split; [reflexivity|]; split; [constructor|discriminate].
Qed.

Lemma tame_exists P (p : string) : tame P (exists_ p).
Proof.
  intros w s. exists []. cbn. rewrite app_nil_r. split; [reflexivity|]; split; [constructor|discriminate].
Qed.

Lemma tame_normal P (a b : Q) : tame P (normal a b).
Proof.
  intros w s. exists []. cbn. rewrite app_nil_r. split; [reflexivity|]; split; [constructor|discriminate].
Qed.

Lemma tame_prints P (n : nat) : P print -> tame P (prints n).
Proof. intros H. apply tame_for_each. intros _. now apply tame_call. Qed.

Ltac tame_step :=
  first [ apply tame_ret | apply tame_fmt_1f | apply tame_exists | apply tame_normal
        | apply tame_prints; try reflexivity
        | apply tame_call; try reflexivity
        | apply tame_bind; [|intros ?]
        | apply tame_try_except; [|intros ?]
        | apply tame_for_each; intros ?
        | apply tame_list_comp; intros ? ].

Lemma tame_viz20_chart (fn : string) : tame no_image (Viz20.chart fn).
Proof.
  unfold Viz20.chart, Viz20.create_roi_by_disaster, Viz20.save_figure.
  destruct (String.eqb fn _); repeat tame_step.
Qed.

(** *** What a computation does *)

Lemma does_ret {A} (w : world) (a : A) : does w (ret a) [] None.
Proof. intros s. cbn. now rewrite app_nil_r. Qed.

Lemma does_call_ok (w : world) (o : op) :
  outcome w o = None -> does w (call o) [o] None.
Proof. intros H s. unfold call. rewrite H. cbn. auto. Qed.

Lemma does_call_raises (w : world) (o : op) (e : exn) :
  outcome w o = Some e -> does w (call o) [] (Some e).
Proof. intros H s. unfold call. rewrite H. cbn. now rewrite app_nil_r. Qed.

Lemma does_bind {A B} (w : world) (m : M A) (k : A -> M B) t1 t2 r :
  does w m t1 None -> (forall a, does w (k a) t2 r) ->
  does w (bind m k) (t1 ++ t2) r.
Proof.
  intros Hm Hk s. unfold bind. destruct (Hm s) as [T1 R1].
  destruct (m w s) as [[a|e] s1]; cbn in *; [|discriminate].
  destruct (Hk a s1) as [T2 R2]. now rewrite T2, T1, app_assoc.
Qed.

Lemma does_bind_raises {A B} (w : world) (m : M A) (k : A -> M B) t e :
  does w m t (Some e) -> does w (bind m k) t (Some e).
Proof.
  intros Hm s. unfold bind. destruct (Hm s) as [T1 R1].
  destruct (m w s) as [[a|e'] s1]; cbn in *; [discriminate|]. auto.
Qed.

Lemma does_try {A} (w : world) (body : M A) handles (handler : exn -> M A) t :
  does w body t None -> does w (try_except body handles handler) t None.
Proof.
  intros Hm s. unfold try_except. destruct (Hm s) as [T1 R1].
  destruct (body w s) as [[a|e'] s1]; cbn in *; [|discriminate]. auto.
Qed.

Lemma does_try_handled {A} (w : world) (body : M A) handles (handler : exn -> M A)
      t1 t2 e r :
  does w body t1 (Some e) -> handles e = true -> does w (handler e) t2 r ->
  does w (try_except body handles handler) (t1 ++ t2) r.
Proof.
  intros Hm He Hh s. unfold try_except. destruct (Hm s) as [T1 R1].
  destruct (body w s) as [[a|e'] s1]; cbn in *; [discriminate|].
  injection R1 as ->. rewrite He.
  destruct (Hh s1) as [T2 R2]. now rewrite T2, T1, app_assoc.
Qed.

Lemma does_try_passed {A} (w : world) (body : M A) handles (handler : exn -> M A)
      t e :
  does w body t (Some e) -> handles e = false ->
  does w (try_except body handles handler) t (Some e).
Proof.
  intros Hm He s. unfold try_except. destruct (Hm s) as [T1 R1].
  destruct (body w s) as [[a|e'] s1]; cbn in *; [discriminate|].
  injection R1 as ->. rewrite He. auto.
Qed.

Lemma does_eq {A} (w : world) (m : M A) t t' r :
  does w m t r -> t = t' -> does w m t' r.
Proof. now intros H <-. Qed.

Lemma does_run {A} (w : world) (m : M A) t r :
  does w m t r -> calls_of m w = t /\ escapes m w = r.
Proof.
  intros H. destruct (H start) as [T R]. split.
  - exact T.
  - unfold escapes, run. rewrite <- R. now destruct (fst (m w start)).
Qed.

(** *** Calls in a row *)

Lemma first_failure_none (w : world) (ops : list op) :
  first_failure w ops = None <-> forallb (works w) ops = true.
Proof.
  induction ops as [|o ops IH]; simpl; [tauto|].
  unfold works at 1. destruct (outcome w o); simpl; [split; discriminate|exact IH].
Qed.

Lemma take_while_all {A} (ok : A -> bool) (l : list A) :
  forallb ok l = true -> take_while ok l = l.
Proof.
  induction l as [|x l IH]; simpl; [reflexivity|].
  destruct (ok x); simpl; [|discriminate]. intros H. now rewrite IH.
Qed.

Lemma take_while_app {A} (ok : A -> bool) (l1 l2 : list A) :
  take_while ok (l1 ++ l2)
  = if forallb ok l1 then l1 ++ take_while ok l2 else take_while ok l1.
Proof.
  induction l1 as [|x l1 IH]; simpl; [reflexivity|].
  destruct (ok x); simpl; [|reflexivity].
  rewrite IH. now destruct (forallb ok l1).
Qed.

Lemma first_failure_app (w : world) (l1 l2 : list op) :
  first_failure w (l1 ++ l2)
  = match first_failure w l1 with
    | Some e => Some e
    | None => first_failure w l2
    end.
Proof.
  induction l1 as [|o l1 IH]; simpl; [reflexivity|].
  now destruct (outcome w o).
Qed.

Lemma first_failure_In (w : world) (ops : list op) (e : exn) :
  first_failure w ops = Some e -> exists o, In o ops /\ outcome w o = Some e.
Proof.
  induction ops as [|o ops IH]; simpl; [discriminate|].
  destruct (outcome w o) as [e'|] eqn:E.
  - intros [= <-]. eauto.
  - intros H. destruct (IH H) as (o' & ? & ?). eauto.
Qed.

Lemma linear_ret {A} (w : world) (a : A) : linear w [] (ret a).
Proof. apply does_ret. Qed.

Lemma linear_call (w : world) (o : op) : linear w [o] (call o).
Proof.
  unfold linear. simpl. unfold works. destruct (outcome w o) eqn:E.
  - now apply does_call_raises.
  - now apply does_call_ok.
Qed.

Lemma linear_bind {A B} (w : world) (m : M A) (k : A -> M B) l1 l2 :
  linear w l1 m -> (forall a, linear w l2 (k a)) -> linear w (l1 ++ l2) (bind m k).
Proof.
  unfold linear. intros Hm Hk.
  rewrite take_while_app, first_failure_app.
  destruct (first_failure w l1) as [e|] eqn:E.
  - assert (F : forallb (works w) l1 = false).
    { destruct (forallb (works w) l1) eqn:F; [|reflexivity].
      apply first_failure_none in F. congruence. }
    rewrite F. now apply does_bind_raises.
  - pose proof (proj1 (first_failure_none w l1) E) as F. rewrite F.
    rewrite (take_while_all _ _ F) in Hm. now apply does_bind.
Qed.

Lemma linear_for_each {A} (w : world) (g : A -> list op) (body : A -> M unit) xs :
  (forall x, linear w (g x) (body x)) -> linear w (flat_map g xs) (for_each xs body).
Proof.
  intros H. induction xs as [|x xs IH]; simpl.
  - apply linear_ret.
  - apply linear_bind; auto.
Qed.

Lemma linear_eq {A} (w : world) (m : M A) l l' :
  linear w l m -> l = l' -> linear w l' m.
Proof. now intros H <-. Qed.

Lemma linear_bind_nil {A B} (w : world) (m : M A) (k : A -> M B) l :
  linear w [] m -> (forall a, linear w l (k a)) -> linear w l (bind m k).
Proof. intros Hm Hk. exact (@linear_bind _ _ w m k [] l Hm Hk). Qed.

Lemma linear_list_comp {A B} (w : world) (g : A -> list op) (f : A -> M B) xs :
  (forall x, linear w (g x) (f x)) -> linear w (flat_map g xs) (list_comp xs f).
Proof.
  intros H. induction xs as [|x xs IH]; simpl.
  - apply linear_ret.
  - apply linear_bind; auto. intros y.
    eapply linear_eq; [apply linear_bind; [exact IH|intros; apply linear_ret]|].
    apply app_nil_r.
Qed.

Lemma linear_list_comp_nil {A B} (w : world) (f : A -> M B) xs :
  (forall x, linear w [] (f x)) -> linear w [] (list_comp xs f).
Proof.
  intros H. induction xs as [|x xs IH]; simpl.
  - apply linear_ret.
  - apply linear_bind_nil; auto. intros y.
    apply linear_bind_nil; auto. intros; apply linear_ret.
Qed.

Lemma linear_fmt_1f (w : world) (x : Q) : linear w [] (fmt_1f x).
Proof. intros s. cbn. now rewrite app_nil_r. Qed.

Lemma linear_normal (w : world) (a b : Q) : linear w [] (normal a b).
Proof. intros s. cbn. now rewrite app_nil_r. Qed.

Lemma linear_prints (w : world) (n : nat) : linear w (repeat print n) (prints n).
Proof.
  unfold prints. induction n as [|n IH]; simpl repeat; cbn [for_each].
  - apply linear_ret.
  - apply (@linear_bind _ _ w (call print) _ [print] (repeat print n));
      [apply linear_call|intros _; exact IH].
Qed.

Lemma linear_works {A} (w : world) (m : M A) l :
  linear w l m -> forallb (works w) l = true -> does w m l None.
Proof.
  unfold linear. intros H F.
  rewrite (take_while_all _ _ F) in H.
  now rewrite (proj2 (first_failure_none w l) F) in H.
Qed.

Lemma works_no_image (w : world) (l : list op) :
  only_image_export_fails w -> forallb (fun o => negb (is_image_export o)) l = true ->
  forallb (works w) l = true.
Proof.
  intros Hw. induction l as [|o l IH]; simpl; [reflexivity|].
  intros H. apply andb_prop in H as [H1 H2].
  unfold works at 1. rewrite (Hw o); [simpl; auto|].
  now destruct (is_image_export o).
Qed.

Lemma works_prints (w : world) (n : nat) :
  print_works w -> forallb (works w) (repeat print n) = true.
Proof.
  intros H. induction n as [|n IH]; simpl; [reflexivity|].
  unfold works at 1. now rewrite H.
Qed.

(** *** Scripts without handlers *)

Ltac linear_steps :=
  repeat first
    [ apply linear_ret | apply linear_fmt_1f | apply linear_normal
    | apply linear_prints | apply linear_call
    | apply linear_list_comp_nil; intros ?
    | eapply linear_bind; [|intros ?] ].

Lemma linear_viz20_chart (w : world) (fn : string) :
  linear w [ plotly fn;
             write_html ("/Users/jefffranzen/cap-data/visualizations/"
                           ++ dict_get Viz20.functions fn EmptyString ++ ".html")%string;
             print ]
         (Viz20.chart fn).
Proof.
  unfold Viz20.chart.
  destruct (String.eqb fn "create_roi_by_disaster") eqn:E.
  - apply String.eqb_eq in E. subst fn.
    unfold Viz20.create_roi_by_disaster, Viz20.save_figure.
    eapply linear_eq; [linear_steps|reflexivity].
  - unfold Viz20.save_figure.
    eapply linear_eq; [linear_steps|reflexivity].
Qed.

Lemma linear_viz20_main (w : world) : linear w (attempted Viz20.main) Viz20.main.
Proof.
  unfold Viz20.main, Viz20.module_body, Viz20.create_all_visualizations.
  eapply linear_eq.
  - eapply linear_bind; [apply linear_call|intros _].
    eapply linear_bind; [|intros ?; apply linear_ret].
    eapply linear_bind; [apply linear_prints|intros _].
    eapply linear_bind; [|intros ?].
    + apply (@linear_list_comp _ _ w
               (fun item : string * string =>
                  [ plotly (fst item);
                    write_html ("/Users/jefffranzen/cap-data/visualizations/"
                                  ++ dict_get Viz20.functions (fst item) EmptyString
                                  ++ ".html")%string;
                    print ])).
      intros [fn name]. apply linear_viz20_chart.
    + eapply linear_bind; [apply linear_prints|intros _; apply linear_ret].
  - vm_compute. reflexivity.
Qed.

Lemma linear_real_cap_main (w : world) : linear w (attempted RealCapPdf.main) RealCapPdf.main.
Proof.
  unfold RealCapPdf.main, RealCapPdf.create_cap_report_pdf.
  eapply linear_eq; [linear_steps|vm_compute; reflexivity].
Qed.

Lemma linear_embed (w : world) (fn img_path : string) :
  linear w ([plotly fn; write_image img_path]
              ++ if path_exists w img_path then [load_image img_path] else [])
         (ProfessionalPdf.embed fn img_path).
Proof.
  unfold ProfessionalPdf.embed.
  apply (@linear_bind _ _ w _ _ [plotly fn]
                      ([write_image img_path]
                         ++ if path_exists w img_path then [load_image img_path] else [])).
  - unfold CapGraphics.chart, CapGraphics.create_speed_comparison.
    destruct (String.eqb fn _) eqn:E;
      [apply String.eqb_eq in E; subst fn|];
      (eapply linear_eq; [linear_steps|reflexivity]).
  - intros _.
    apply (@linear_bind _ _ w _ _ [write_image img_path]); [apply linear_call|intros _].
    intros s. unfold bind, exists_.
    destruct (path_exists w img_path).
    + apply linear_call.
    + apply linear_ret.
Qed.

Lemma linear_professional_main (w : world) :
  linear w (filter (attempts w) (attempted ProfessionalPdf.main)) ProfessionalPdf.main.
Proof.
  unfold ProfessionalPdf.main, ProfessionalPdf.create_professional_pdf.
  eapply linear_eq.
  - eapply linear_bind; [|intros ?; apply linear_prints].
    eapply linear_bind; [apply linear_call|intros _].
    eapply linear_bind; [apply linear_call|intros _].
    eapply linear_bind; [apply linear_embed|intros _].
    eapply linear_bind; [apply linear_embed|intros _].
    eapply linear_bind; [apply linear_embed|intros _].
    linear_steps.
  - match goal with
    | |- _ = filter _ ?l => let l' := eval vm_compute in l in change l with l'
    end.
    cbn [filter attempts].
    destruct (path_exists w _), (path_exists w _), (path_exists w _); reflexivity.
Qed.

(** X10. The scripts without [try] stop at the first call that fails:
    they have completed the calls before it, in order, and end with what
    the call raised; when no call fails they complete all their calls.
    create_professional_pdf.py loads an image only if its file exists. *)
Theorem scripts_without_handlers_stop_at_first_failure (w : world) :
  (calls_of Viz20.main w = take_while (works w) (attempted Viz20.main)
   /\ escapes Viz20.main w = first_failure w (attempted Viz20.main))
  /\ (calls_of RealCapPdf.main w = take_while (works w) (attempted RealCapPdf.main)
      /\ escapes RealCapPdf.main w = first_failure w (attempted RealCapPdf.main))
  /\ (calls_of ProfessionalPdf.main w
      = take_while (works w) (filter (attempts w) (attempted ProfessionalPdf.main))
      /\ escapes ProfessionalPdf.main w
         = first_failure w (filter (attempts w) (attempted ProfessionalPdf.main))).
Proof.
  split; [|split].
  - exact (does_run (linear_viz20_main w)).
  - exact (does_run (linear_real_cap_main w)).
  - exact (does_run (linear_professional_main w)).
Qed.

(** *** Static image export *)

Lemma images_of_app (t1 t2 : list op) :
  images_of (t1 ++ t2) = images_of t1 ++ images_of t2.
Proof. apply filter_app. Qed.

Lemma images_of_none (t : list op) :
  Forall no_image t -> images_of t = [].
Proof.
  induction 1 as [|o t Ho Ht IH]; simpl; [reflexivity|].
  unfold no_image in Ho. now rewrite Ho.
Qed.

Lemma images_of_prints (n : nat) : images_of (repeat print n) = [].
Proof. induction n as [|n IH]; simpl; auto. Qed.

Lemma images_of_take_while {A} (w : world) (f : A -> string) (l : list A) :
  images_of (take_while (works w) (map (fun x => write_image (f x)) l))
  = take_while (works w) (map (fun x => write_image (f x)) l).
Proof.
  induction l as [|x l IH]; simpl; [reflexivity|].
  destruct (works w (write_image (f x))); simpl; [|reflexivity].
  now rewrite <- IH at 2.
Qed.

(** A [try] around calls in a row, with a handler that completes the
    calls [th]. *)
Lemma does_try_linear {A} (w : world) (body : M A) handles (handler : exn -> M A) l th :
  linear w l body ->
  (forall e, first_failure w l = Some e -> handles e = true) ->
  (forall e, does w (handler e) th None) ->
  does w (try_except body handles handler)
       (take_while (works w) l ++ if forallb (works w) l then [] else th) None.
Proof.
  intros Hb Hh Hk. unfold linear in Hb.
  destruct (first_failure w l) as [e|] eqn:E.
  - assert (F : forallb (works w) l = false).
    { destruct (forallb (works w) l) eqn:F; [|reflexivity].
      apply first_failure_none in F. congruence. }
    rewrite F. eapply does_try_handled; eauto.
  - rewrite (proj1 (first_failure_none w l) E), app_nil_r.
    now apply does_try.
Qed.

Lemma for_each_calls {A} (w : world) (f : A -> op) (l : list A) :
  linear w (map f l) (for_each l (fun x => call (f x))).
Proof.
  eapply linear_eq.
  - apply (@linear_for_each _ w (fun x => [f x])). intros x. apply linear_call.
  - induction l as [|x l IH]; simpl; [reflexivity|]. now rewrite IH.
Qed.

Section CapGraphicsMain.

Import CapGraphics.

Variable w : world.
Hypothesis Hw : only_image_export_fails w.

Lemma cap_graphics_main_does :
  does w main
       ((print :: map (fun item => plotly (fst item)) figures)
          ++ map (fun item => write_html (graphics ++ snd item ++ ".html")%string) figures
          ++ take_while (works w)
               (map (fun item => write_image (graphics ++ snd item ++ ".png")%string) figures)
          ++ [print; print; print])
       None.
Proof.
  assert (Hprint : outcome w print = None) by (now apply Hw).
  unfold main.
  eapply does_eq.
  - eapply does_bind; [now apply does_call_ok|intros _].
    eapply does_bind; [|intros _].
    { apply linear_works
        with (l := map (fun item => plotly (fst item)) figures).
      - eapply linear_eq.
        + apply (@linear_for_each _ w (fun item : string * string => [plotly (fst item)])).
          intros [fn name]. unfold chart, create_speed_comparison.
          destruct (String.eqb fn _) eqn:E;
            [apply String.eqb_eq in E; subst fn|];
            (eapply linear_eq; [linear_steps|reflexivity]).
        + reflexivity.
      - apply works_no_image; [assumption|reflexivity]. }
    eapply does_bind; [|intros _].
    { apply linear_works
        with (l := map (fun item => write_html (graphics ++ snd item ++ ".html")%string) figures).
      - eapply linear_eq.
        + apply (@linear_for_each _ w
                   (fun item : string * string =>
                      [write_html (graphics ++ snd item ++ ".html")%string])).
          intros [fn name]. apply linear_call.
        + reflexivity.
      - apply works_no_image; [assumption|reflexivity]. }
    eapply does_bind; [|intros _].
    { apply (@does_try_linear _ w _ bare _
               (map (fun item => write_image (graphics ++ snd item ++ ".png")%string) figures
                  ++ [print])
               [print]).
      - eapply linear_bind; [|intros _; apply linear_call].
        eapply linear_eq.
        + apply (@linear_for_each _ w
                   (fun item : string * string =>
                      [write_image (graphics ++ snd item ++ ".png")%string])).
          intros [fn name]. apply linear_call.
        + reflexivity.
      - reflexivity.
      - intros e. now apply does_call_ok. }
    apply linear_works with (l := repeat print 2); [apply linear_prints|].
    now apply works_prints.
  - assert (Wp : works w print = true) by (unfold works; now rewrite Hprint).
    rewrite take_while_app, forallb_app.
    cbn [forallb take_while]. rewrite Wp, !andb_true_r.
    destruct (forallb (works w) _) eqn:F.
    + rewrite (take_while_all _ _ F).
      cbn [app repeat]. now rewrite <- !app_assoc.
    + cbn [app repeat]. now rewrite <- !app_assoc.
Qed.

End CapGraphicsMain.

(** X11. create_cap_graphics.py, when nothing but static image export
    fails, whatever it raises: the script ends normally, every HTML file
    is written, and the PNG files written are those before the first
    whose export fails, since one [try] holds the whole loop. *)
Theorem cap_graphics_png_export_stops_at_first_failure (w : world) :
  only_image_export_fails w ->
  escapes CapGraphics.main w = None
  /\ (forall fn name,
         In (fn, name) CapGraphics.figures ->
         In (write_html (CapGraphics.graphics ++ name ++ ".html")%string)
            (calls_of CapGraphics.main w))
  /\ images_of (calls_of CapGraphics.main w)
     = take_while (works w)
         (map (fun item => write_image (CapGraphics.graphics ++ snd item ++ ".png")%string)
              CapGraphics.figures).
Proof.
  intros Hw. destruct (does_run (cap_graphics_main_does Hw)) as [T R].
  split; [exact R|]. rewrite T. split.
  - intros fn name H. apply in_or_app. right. apply in_or_app. left.
    apply in_map_iff. exists (fn, name). auto.
  - rewrite !images_of_app.
    rewrite (images_of_take_while w
               (fun item : string * string =>
                  (CapGraphics.graphics ++ snd item ++ ".png")%string)).
    set (a := images_of (print :: _)).
    set (b := images_of (map _ CapGraphics.figures)).
    assert (Ea : a = []) by (vm_compute; reflexivity).
    assert (Eb : b = []) by (vm_compute; reflexivity).
    rewrite Ea, Eb. cbn [images_of filter is_image_export app].
    apply app_nil_r.
Qed.

Lemma fails_only_image_export (path : string) (e : exn) :
  only_image_export_fails (fails_only (write_image path) e).
Proof. intros o H. destruct o; try discriminate H; reflexivity. Qed.

Lemma cap_graphics_png_export_stops_at_first_failure_witness :
  let w := fails_only
             (write_image "/Users/jefffranzen/cap-data/graphics/speed_comparison.png")
             KeyboardInterrupt in
  only_image_export_fails w
  /\ escapes CapGraphics.main w = None
  /\ images_of (calls_of CapGraphics.main w)
     = [write_image "/Users/jefffranzen/cap-data/graphics/roi_comparison.png"].
Proof.
  cbv zeta.
  pose proof (fails_only_image_export
                "/Users/jefffranzen/cap-data/graphics/speed_comparison.png"
                KeyboardInterrupt) as Hw.
  split; [exact Hw|].
  destruct (cap_graphics_png_export_stops_at_first_failure Hw) as (R & _ & I).
  split; [exact R|]. rewrite I. vm_compute. reflexivity.
Defined.

(** *** The cool-visualization scripts *)

Lemma does_list_comp {A B} (w : world) (g : A -> list op) (f : A -> M B) xs :
  (forall x, In x xs -> does w (f x) (g x) None) ->
  does w (list_comp xs f) (flat_map g xs) None.
Proof.
  induction xs as [|x xs IH]; intros H; simpl.
  - apply does_ret.
  - apply does_bind; [apply H; now left|]. intros y.
    eapply does_eq.
    + apply does_bind; [apply IH; intros; apply H; now right|intros; apply does_ret].
    + apply app_nil_r.
Qed.

Lemma does_for_each {A} (w : world) (g : A -> list op) (body : A -> M unit) xs :
  (forall x, does w (body x) (g x) None) -> does w (for_each xs body) (flat_map g xs) None.
Proof.
  intros H. induction xs as [|x xs IH]; simpl.
  - apply does_ret.
  - apply does_bind; auto.
Qed.

(** A static image export inside a bare [try] of its own. *)
Lemma does_try_image (w : world) (path : string) :
  does w (try_except (call (write_image path)) bare (fun _ => ret tt))
       (if works w (write_image path) then [write_image path] else []) None.
Proof.
  unfold works. destruct (outcome w (write_image path)) as [e|] eqn:E.
  - eapply does_eq.
    + eapply does_try_handled; [apply does_call_raises; exact E|reflexivity|apply does_ret].
    + reflexivity.
  - apply does_try. now apply does_call_ok.
Qed.


Lemma cool_save_figure (w : world) (fig : figure) (fn name : string) :
  only_image_export_fails w ->
  does w (CoolViz.save_figure fig name) (tl (cool_chart_calls w (fn, name))) None
  /\ does w (CoolVizFixed.save_figure fig name) (tl (cool_chart_calls w (fn, name))) None.
Proof.
  intros Hw.
  assert (Hprint : outcome w print = None) by (now apply Hw).
  split.
  - unfold CoolViz.save_figure. eapply does_eq.
    + eapply does_bind; [apply does_call_ok; now apply Hw|intros _].
      eapply does_bind; [apply does_try_image|intros _].
      eapply does_bind; [now apply does_call_ok|intros _; apply does_ret].
    + unfold cool_chart_calls. cbn [tl app fst snd]. reflexivity.
  - unfold CoolVizFixed.save_figure. eapply does_eq.
    + eapply does_bind; [apply does_call_ok; now apply Hw|intros _].
      eapply does_bind; [apply does_try_image|intros _].
      eapply does_bind; [now apply does_call_ok|intros _; apply does_ret].
    + unfold cool_chart_calls. cbn [tl app fst snd]. reflexivity.
Qed.

Lemma cool_names (item : string * string) :
  (In item CoolViz.functions ->
   dict_get CoolViz.functions (fst item) EmptyString = snd item)
  /\ (In item CoolVizFixed.functions ->
      dict_get CoolVizFixed.functions (fst item) EmptyString = snd item).
Proof.
  split; intros H; simpl in H;
    repeat (destruct H as [H|H]; [subst item; reflexivity|]);
    contradiction.
Qed.

Lemma cool_chart (w : world) (item : string * string) :
  only_image_export_fails w ->
  In item CoolViz.functions ->
  does w (CoolViz.chart (fst item)) (cool_chart_calls w item) None.
Proof.
  intros Hw H. destruct item as [fn name]. unfold CoolViz.chart.
  rewrite (proj1 (cool_names (fn, name)) H). cbn [fst snd].
  apply (@does_bind _ _ w (call (plotly fn)) _ [plotly fn]
                    (tl (cool_chart_calls w (fn, name)))).
  - apply does_call_ok. now apply Hw.
  - intros _. now apply cool_save_figure.
Qed.

Lemma cool_fixed_chart (w : world) (item : string * string) :
  only_image_export_fails w ->
  In item CoolVizFixed.functions ->
  does w (CoolVizFixed.chart (fst item)) (cool_chart_calls w item) None.
Proof.
  intros Hw H. destruct item as [fn name]. unfold CoolVizFixed.chart.
  pose proof (proj2 (cool_names (fn, name)) H) as N. cbn [fst snd] in *.
  destruct (String.eqb fn "create_3d_scatter") eqn:E.
  - apply String.eqb_eq in E. subst fn. change name with
      (snd ("create_3d_scatter"%string, name)) in N. cbn in N. subst name.
    unfold CoolVizFixed.create_3d_scatter.
    repeat (apply (@does_bind _ _ w _ _ [] _);
            [apply linear_works; [|reflexivity];
             apply linear_list_comp_nil; intros ?;
             apply (@linear_bind _ _ w _ _ [] []);
             [apply linear_normal|intros ?; apply linear_ret]
            |intros ?]).
    apply (@does_bind _ _ w (call (plotly "create_3d_scatter")) _
                      [plotly "create_3d_scatter"]
                      (tl (cool_chart_calls
                             w ("create_3d_scatter"%string,
                                "3d_scatter_performance"%string)))).
    + apply does_call_ok. now apply Hw.
    + intros _. now apply cool_save_figure.
  - rewrite N.
    apply (@does_bind _ _ w (call (plotly fn)) _ [plotly fn]
                      (tl (cool_chart_calls w (fn, name)))).
    + apply does_call_ok. now apply Hw.
    + intros _. now apply cool_save_figure.
Qed.

Lemma images_of_cool_charts (w : world) (l : list (string * string)) :
  images_of (flat_map (cool_chart_calls w) l) = filter (works w) (map cool_png l).
Proof.
  induction l as [|item l IH]; [reflexivity|].
  cbn [flat_map map filter]. rewrite images_of_app, IH.
  unfold cool_chart_calls at 1. unfold cool_png at 2.
  cbv zeta. destruct (works w (write_image _)); reflexivity.
Qed.

Lemma cool_html_written (w : world) (l : list (string * string)) (item : string * string) :
  In item l -> In (cool_html item) (flat_map (cool_chart_calls w) l).
Proof.
  intros H. apply in_flat_map. exists item. split; [assumption|].
  unfold cool_chart_calls, cool_html. simpl. auto.
Qed.

Lemma cool_main_does (w : world) :
  only_image_export_fails w ->
  does w CoolViz.main
       ([makedirs "/Users/jefffranzen/cap-data/cool_visualizations"; print; print]
          ++ flat_map (cool_chart_calls w) CoolViz.functions
          ++ repeat print 16) None
  /\ does w CoolVizFixed.main
          ([makedirs "/Users/jefffranzen/cap-data/cool_visualizations"; print; print]
             ++ flat_map (cool_chart_calls w) CoolVizFixed.functions
             ++ repeat print 13) None.
Proof.
  intros Hw.
  assert (Hprint : print_works w) by (now apply Hw).
  split.
  - unfold CoolViz.main, CoolViz.module_body, CoolViz.create_all_cool_visualizations.
    apply (@does_bind _ _ w _ _ [makedirs "/Users/jefffranzen/cap-data/cool_visualizations"]
                      ([print; print] ++ _));
      [apply does_call_ok; now apply Hw|intros _].
    apply does_bind;
      [apply (linear_works (linear_prints w 2)); now apply works_prints|intros _].
    apply does_bind.
    + apply does_list_comp. intros [fn name] H. now apply (@cool_chart w (fn, name)).
    + intros _. apply (linear_works (linear_prints w 16)). now apply works_prints.
  - unfold CoolVizFixed.main, CoolVizFixed.module_body, CoolVizFixed.main_.
    apply (@does_bind _ _ w _ _ [makedirs "/Users/jefffranzen/cap-data/cool_visualizations"]
                      ([print; print] ++ _));
      [apply does_call_ok; now apply Hw|intros _].
    apply does_bind;
      [apply (linear_works (linear_prints w 2)); now apply works_prints|intros _].
    apply does_bind.
    + apply does_list_comp. intros [fn name] H. now apply (@cool_fixed_chart w (fn, name)).
    + intros _. apply (linear_works (linear_prints w 13)). now apply works_prints.
Qed.



(** *** fortune500_graphics.py *)

Lemma images_of_png_loop (w : world) (l : list (string * string)) :
  print_works w ->
  images_of (take_while (works w) (flat_map (fun item => [f500_png item; print]) l))
  = take_while (works w) (map f500_png l).
Proof.
  intros Hprint.
  assert (Wp : works w print = true) by (unfold works; now rewrite Hprint).
  induction l as [|item l IH]; [reflexivity|].
  cbn [flat_map map app take_while].
  destruct (works w (f500_png item)); [|reflexivity].
  rewrite Wp. cbn [images_of filter]. unfold f500_png at 1. cbn [is_image_export].
  f_equal. exact IH.
Qed.

Section Fortune500GraphicsMain.

Import Fortune500Graphics.

Variable w : world.
Hypothesis Hw : only_image_export_fails w.
Hypothesis Hpng :
  forall item e, In item charts -> outcome w (f500_png item) = Some e ->
                 is_Exception e = true.

Lemma f500_dashboard_does :
  does w create_executive_dashboard
       ([plotly "create_executive_dashboard";
         write_html (graphics_dir ++ "/executive_dashboard.html")%string]
          ++ (if works w (write_image dashboard_png) then [write_image dashboard_png] else [])
          ++ [print]) None.
Proof.
  unfold create_executive_dashboard. eapply does_eq.
  - eapply does_bind; [apply does_call_ok; now apply Hw|intros _].
    eapply does_bind; [apply does_call_ok; now apply Hw|intros _].
    eapply does_bind; [apply does_try_image|intros _].
    apply does_call_ok. now apply Hw.
  - reflexivity.
Qed.

Lemma f500_png_loop_does :
  does w (try_except
            (for_each charts (fun '(name, _) =>
               call (write_image (graphics_dir ++ "/" ++ name ++ ".png")%string) ;;
               call print))
            is_Exception
            (fun _ => prints 2))
       (take_while (works w) (flat_map (fun item => [f500_png item; print]) charts)
          ++ if forallb (works w) (flat_map (fun item => [f500_png item; print]) charts)
             then [] else [print; print]) None.
Proof.
  apply does_try_linear.
  - apply linear_for_each. intros [name fn].
    apply (@linear_bind _ _ w _ _ [f500_png (name, fn)] [print]);
      [apply linear_call|intros _; apply linear_call].
  - intros e H. apply first_failure_In in H as (o & Ho & Eo).
    apply in_flat_map in Ho as (item & Hi & Ho).
    destruct Ho as [<-|[<-|[]]].
    + eapply Hpng; eassumption.
    + rewrite (Hw print eq_refl) in Eo. discriminate.
  - intros _. apply (linear_works (linear_prints w 2)).
    apply works_prints. now apply Hw.
Qed.

Lemma f500_main_does :
  does w main
       (([makedirs graphics_dir]
           ++ repeat print 2
           ++ flat_map (fun item : string * string => [plotly (snd item)]) charts
           ++ [print]
           ++ flat_map (fun item => [f500_html item; print]) charts
           ++ [print]
           ++ (take_while (works w) (flat_map (fun item => [f500_png item; print]) charts)
                 ++ if forallb (works w) (flat_map (fun item => [f500_png item; print]) charts)
                    then [] else [print; print])
           ++ [print]
           ++ ([plotly "create_executive_dashboard";
                write_html (graphics_dir ++ "/executive_dashboard.html")%string]
                 ++ (if works w (write_image dashboard_png)
                     then [write_image dashboard_png] else [])
                 ++ [print])
           ++ repeat print 9)
          ++ repeat print 5)
       None.
Proof.
  assert (Hprint : print_works w) by (now apply Hw).
  unfold main, main_. apply does_try.
  apply does_bind;
    [|intros _; apply (linear_works (linear_prints w 5)); now apply works_prints].
  unfold export_all_visualizations.
  apply does_bind; [apply does_call_ok; now apply Hw|intros _].
  apply does_bind;
    [apply (linear_works (linear_prints w 2)); now apply works_prints|intros _].
  apply does_bind; [|intros _].
  { apply linear_works; [|apply works_no_image; [assumption|reflexivity]].
    apply linear_for_each. intros [name fn]. apply linear_call. }
  apply does_bind; [now apply does_call_ok|intros _].
  apply does_bind; [|intros _].
  { apply linear_works; [|apply works_no_image; [assumption|reflexivity]].
    apply linear_for_each. intros [name fn].
    apply (@linear_bind _ _ w _ _ [f500_html (name, fn)] [print]);
      [apply linear_call|intros _; apply linear_call]. }
  apply does_bind; [now apply does_call_ok|intros _].
  apply does_bind; [apply f500_png_loop_does|intros _].
  apply does_bind; [now apply does_call_ok|intros _].
  apply does_bind; [apply f500_dashboard_does|intros _].
  apply (linear_works (linear_prints w 9)). now apply works_prints.
Qed.

End Fortune500GraphicsMain.

(** X13. fortune500_graphics.py, when nothing but static image export
    fails and the export of a chart raises an [Exception]: the script ends
    normally; every HTML file is written, also that of the dashboard; the
    PNG files of the charts are those before the first whose export fails,
    since one [try] holds the loop; the PNG file of the dashboard, which
    has a [try] of its own, is written whenever its export works. *)
Theorem fortune500_graphics_png_export (w : world) :
  only_image_export_fails w ->
  (forall item e,
      In item Fortune500Graphics.charts ->
      outcome w (f500_png item) = Some e -> is_Exception e = true) ->
  escapes Fortune500Graphics.main w = None
  /\ (forall item, In item Fortune500Graphics.charts ->
                   In (f500_html item) (calls_of Fortune500Graphics.main w))
  /\ In (write_html (Fortune500Graphics.graphics_dir ++ "/executive_dashboard.html")%string)
        (calls_of Fortune500Graphics.main w)
  /\ images_of (calls_of Fortune500Graphics.main w)
     = take_while (works w) (map f500_png Fortune500Graphics.charts)
         ++ if works w (write_image dashboard_png) then [write_image dashboard_png] else [].
Proof.
  intros Hw Hpng. destruct (does_run (f500_main_does Hw Hpng)) as [T R].
  split; [exact R|]. rewrite T. split; [|split].
  - intros item H. apply in_or_app. left.
    do 4 (apply in_or_app; right). apply in_or_app. left.
    apply in_flat_map. exists item. split; [assumption|now left].
  - apply in_or_app. left. do 8 (apply in_or_app; right).
    apply in_or_app. left. apply in_or_app. left. right. now left.
  - rewrite !images_of_app, images_of_png_loop by (now apply Hw).
    rewrite !images_of_prints.
    assert (Ea : images_of (flat_map (fun item : string * string => [plotly (snd item)])
                                     Fortune500Graphics.charts) = [])
      by (vm_compute; reflexivity).
    assert (Eb : images_of (flat_map (fun item => [f500_html item; print])
                                     Fortune500Graphics.charts) = [])
      by (vm_compute; reflexivity).
    rewrite Ea, Eb.
    assert (Ec : images_of (if forallb (works w)
                                 (flat_map (fun item => [f500_png item; print])
                                           Fortune500Graphics.charts)
                            then [] else [print; print]) = [])
      by (destruct (forallb _ _); reflexivity).
    rewrite Ec.
    assert (Ed : images_of (if works w (write_image dashboard_png)
                            then [write_image dashboard_png] else [])
                 = if works w (write_image dashboard_png)
                   then [write_image dashboard_png] else [])
      by (destruct (works w _); reflexivity).
    rewrite Ed.
    cbn [images_of filter is_image_export app]. now rewrite !app_nil_r.
Qed.

Lemma fortune500_graphics_png_export_witness :
  let w := fails_only
             (write_image "/Users/jefffranzen/cap-data/graphics/cost_containment.png")
             (Exception "kaleido is not installed") in
  only_image_export_fails w
  /\ (forall item e,
         In item Fortune500Graphics.charts ->
         outcome w (f500_png item) = Some e -> is_Exception e = true)
  /\ images_of (calls_of Fortune500Graphics.main w)
     = [ write_image "/Users/jefffranzen/cap-data/graphics/roi_disaster_type.png";
         write_image "/Users/jefffranzen/cap-data/graphics/roi_partner_type.png";
         write_image "/Users/jefffranzen/cap-data/graphics/executive_dashboard.png" ].
Proof.
  cbv zeta.
  pose proof (fails_only_image_export
                "/Users/jefffranzen/cap-data/graphics/cost_containment.png"
                (Exception "kaleido is not installed")) as Hw.
  assert (Hpng : forall item e,
             In item Fortune500Graphics.charts ->
             outcome (fails_only
                        (write_image "/Users/jefffranzen/cap-data/graphics/cost_containment.png")
                        (Exception "kaleido is not installed"))
                     (f500_png item) = Some e ->
             is_Exception e = true).
  { intros item e _ H. cbn in H.
    destruct (String.eqb _ _); [injection H as <-; reflexivity|discriminate]. }
  split; [exact Hw|]. split; [exact Hpng|].
  destruct (fortune500_graphics_png_export Hw Hpng) as (_ & _ & _ & I).
  rewrite I. vm_compute. reflexivity.
Defined.

(** *** Scripts with everything inside [try] / [except Exception] *)

Ltac tame_steps :=
  repeat first
    [ apply tame_ret | apply tame_fmt_1f | apply tame_exists | apply tame_normal
    | apply tame_prints; exact I
    | apply tame_call; exact I
    | apply tame_bind; [|intros ?]
    | apply tame_try_except; [|intros ?]
    | apply tame_for_each; intros [? ?]
    | apply tame_list_comp; intros ? ].

Lemma guarded (w : world) (body : M unit) (handler : exn -> M unit) (th : list op) :
  tame (fun _ => True) body ->
  (forall e, does w (handler e) th None) ->
  forall e,
    escapes (try_except body is_Exception handler) w = Some e ->
    is_Exception e = false /\ exists o, outcome w o = Some e.
Proof.
  intros Hb Hh e. unfold escapes, run, try_except.
  destruct (Hb w start) as (t & _ & _ & E).
  destruct (body w start) as [[[]|e'] s1]; cbn [fst snd] in *; [discriminate|].
  destruct (is_Exception e') eqn:X.
  - destruct (Hh e' s1) as [_ R].
    destruct (fst (handler e' w s1)); [discriminate|discriminate R].
  - intros [= <-]. split; [assumption|]. now apply E.
Qed.

(** X14. fortune500_graphics.py and create_pdf_simple.py run everything
    inside [try] / [except Exception]: as long as [print] works, neither
    ends with an [Exception]; it ends normally, or with an exception that
    is no [Exception] ([KeyboardInterrupt], [SystemExit]) and that one of
    its calls raised. *)
Theorem guarded_scripts_end_with_no_Exception (w : world) (e : exn) :
  print_works w ->
  escapes Fortune500Graphics.main w = Some e \/ escapes SimplePdf.main w = Some e ->
  is_Exception e = false /\ exists o, outcome w o = Some e.
Proof.
  intros Hprint [H|H]; revert H.
  - apply guarded with (th := repeat print 3).
    + unfold Fortune500Graphics.export_all_visualizations,
        Fortune500Graphics.create_executive_dashboard.
      tame_steps.
    + intros _. apply (linear_works (linear_prints w 3)). now apply works_prints.
  - apply guarded with (th := [print]).
    + unfold SimplePdf.create_professional_pdf. tame_steps.
    + intros _. now apply does_call_ok.
Qed.

Lemma guarded_scripts_end_with_no_Exception_witness :
  let w := fails_only (build_pdf SimplePdf.pdf_file) KeyboardInterrupt in
  print_works w
  /\ escapes SimplePdf.main w = Some KeyboardInterrupt
  /\ exists o, outcome w o = Some KeyboardInterrupt.
Proof.
  cbv zeta.
  assert (Hprint : print_works (fails_only (build_pdf SimplePdf.pdf_file) KeyboardInterrupt))
    by reflexivity.
  assert (H : escapes SimplePdf.main
                      (fails_only (build_pdf SimplePdf.pdf_file) KeyboardInterrupt)
              = Some KeyboardInterrupt) by (vm_compute; reflexivity).
  split; [exact Hprint|]. split; [exact H|].
  exact (proj2 (guarded_scripts_end_with_no_Exception Hprint (or_intror H))).
Defined.

(** *** create_fortune500_pdf.py *)

Section Fortune500PdfMain.

Import Fortune500Pdf.

Variable w : world.
Hypothesis Hprint : print_works w.
Hypothesis Hexn : only_Exceptions w.

Lemma add_viz_does (story : flowables) (viz_path title description : string) :
  does w (add_viz story viz_path title description) (loaded w [viz_path]) None.
Proof.
  intros s.
  unfold add_viz, add_visualization, bind, exists_, try_except, call, ret.
  unfold loaded, loadable, works. cbn [filter map].
  destruct (path_exists w viz_path); cbn [andb fst snd].
  - destruct (outcome w (load_image viz_path)) as [e|] eqn:E; cbn.
    + assert (X : is_Exception e = true) by (eapply Hexn; exact E).
      rewrite X. cbn. now rewrite app_nil_r.
    + auto.
  - cbn. now rewrite app_nil_r.
Qed.

Lemma prose_does (fn : string) (k : nat) (story : flowables) :
  does w (prose fn k story) [] None.
Proof. apply does_ret. Qed.

Lemma loaded_app (p1 p2 : list string) : loaded w (p1 ++ p2) = loaded w p1 ++ loaded w p2.
Proof. unfold loaded. now rewrite filter_app, map_app. Qed.

Ltac story_steps :=
  repeat first
    [ apply prose_does
    | apply add_viz_does
    | eapply does_bind; [|intros ?] ].

Lemma stories_does (k : flowables -> M string) (t : list op) (r : option exn) :
  (forall story, does w (k story) t r) ->
  does w (story <- prose "create_title_page" 0 [] ;;
          story <- prose "create_toc" 0 story ;;
          story <- create_executive_summary story ;;
          story <- prose "create_methodology_section" 0 story ;;
          story <- create_dro_findings_section story ;;
          story <- create_financial_analysis_section story ;;
          story <- create_halo_effect_section story ;;
          story <- prose "create_challenges_section" 0 story ;;
          story <- prose "create_recommendations_section" 0 story ;;
          story <- prose "create_implementation_section" 0 story ;;
          story <- prose "create_conclusion_section" 0 story ;;
          story <- prose "create_appendices_section" 0 story ;;
          k story)
       (loaded w viz_paths ++ t) r.
Proof.
  intros Hk.
  unfold create_executive_summary, create_dro_findings_section,
    create_financial_analysis_section, create_halo_effect_section.
  eapply does_eq.
  - do 12 (eapply does_bind; [solve [story_steps]|intros ?]).
    apply Hk.
  - change viz_paths with
      ([ "/Users/jefffranzen/cap-data/graphics/executive_dashboard.png"%string ]
         ++ [ "/Users/jefffranzen/cap-data/graphics/ia_uptake.png"%string ]
         ++ [ "/Users/jefffranzen/cap-data/graphics/speed_advantage.png"%string ]
         ++ [ "/Users/jefffranzen/cap-data/graphics/cost_containment.png"%string ]
         ++ [ "/Users/jefffranzen/cap-data/graphics/roi_partner_type.png"%string ]
         ++ [ "/Users/jefffranzen/cap-data/graphics/roi_disaster_type.png"%string ]
         ++ [ "/Users/jefffranzen/cap-data/graphics/volunteer_trends.png"%string ]
         ++ [ "/Users/jefffranzen/cap-data/graphics/homes_safer.png"%string ]
         ++ [ "/Users/jefffranzen/cap-data/graphics/stakeholder_sentiment.png"%string ])%list.
    rewrite !loaded_app. cbn [app]. rewrite ?app_nil_r, <- ?app_assoc.
    reflexivity.
Qed.

End Fortune500PdfMain.

Lemma does_raise {A} (w : world) (e : exn) : does w (@raise A e) [] (Some e).
Proof. intros s. cbn. now rewrite app_nil_r. Qed.

(** A computation that returns [v] whenever it returns. *)
Lemma does_bind_value {A B} (w : world) (m : M A) (k : A -> M B) (v : A) t1 t2 r :
  does w m t1 None ->
  (forall s a s', m w s = (inl a, s') -> a = v) ->
  does w (k v) t2 r ->
  does w (bind m k) (t1 ++ t2) r.
Proof.
  intros Hm Hv Hk s. unfold bind. destruct (Hm s) as [T1 R1].
  destruct (m w s) as [[a|e] s1] eqn:E; cbn in *; [|discriminate].
  rewrite (Hv _ _ _ E).
  destruct (Hk s1) as [T2 R2]. now rewrite T2, T1, app_assoc.
Qed.

Lemma bind_value {A B} (w : world) (m : M A) (k : A -> M B) (v : B) :
  (forall a s b s', k a w s = (inl b, s') -> b = v) ->
  forall s b s', bind m k w s = (inl b, s') -> b = v.
Proof.
  intros Hk s b s'. unfold bind.
  destruct (m w s) as [[a|e] s1]; [apply Hk|discriminate].
Qed.

Lemma filter_load_image_loaded (w : world) (paths : list string) :
  filter is_load_image (loaded w paths) = loaded w paths.
Proof.
  unfold loaded. induction (filter (loadable w) paths) as [|p l IH]; simpl; congruence.
Qed.

Section Fortune500PdfExit.

Import Fortune500Pdf.

Variable w : world.
Hypothesis Hprint : print_works w.
Hypothesis Hexn : only_Exceptions w.

Lemma create_pdf_report_value (s : state) (a : string) (s' : state) :
  create_pdf_report w s = (inl a, s') -> a = output_path.
Proof.
  revert s a s'. unfold create_pdf_report.
  repeat (apply bind_value; intros ?).
  intros s b s' [= <- _]. reflexivity.
Qed.

Lemma create_pdf_report_does :
  does w create_pdf_report
       ([print] ++ loaded w viz_paths
          ++ take_while (works w)
               [print; build_pdf output_path; print; print; getsize output_path; print])
       (first_failure w
          [print; build_pdf output_path; print; print; getsize output_path; print]).
Proof.
  unfold create_pdf_report.
  apply does_bind; [now apply does_call_ok|intros _].
  apply (@stories_does w Hexn
           (fun _ => call print ;; call (build_pdf output_path) ;; prints 2 ;;
                     call (getsize output_path) ;; call print ;; ret output_path)).
  intros _.
  eapply linear_eq; [linear_steps|reflexivity].
Qed.

Lemma handler_does :
  does w (call print ;; @sys_exit unit 1) [print] (Some (SystemExit 1)).
Proof.
  eapply does_eq.
  - eapply does_bind; [now apply does_call_ok|intros _; apply does_raise].
  - reflexivity.
Qed.

Lemma fortune500_pdf_main_does :
  exists t,
    does w main ([print] ++ loaded w viz_paths ++ t)
         (if works w (build_pdf output_path) && works w (getsize output_path) && opened w
          then None else Some (SystemExit 1))
    /\ filter is_load_image t = []
    /\ (In (build_pdf output_path) t <-> works w (build_pdf output_path) = true).
Proof.
  assert (Wp : works w print = true) by (unfold works; now rewrite Hprint).
  pose proof create_pdf_report_does as R.
  cbn [take_while first_failure] in R. rewrite Wp, Hprint in R.
  unfold main. unfold works at 1 2 in R. unfold works, opened.
  destruct (outcome w (build_pdf output_path)) as [e|] eqn:Eb.
  - exists ([print] ++ [print]). cbn [andb]. split; [|split].
    + eapply does_eq.
      * eapply does_try_handled;
          [apply does_bind_raises; exact R|eapply Hexn; exact Eb|apply handler_does].
      * now rewrite <- !app_assoc.
    + reflexivity.
    + simpl. split; [intros [H|[H|[]]]; discriminate|discriminate].
  - destruct (outcome w (getsize output_path)) as [e|] eqn:Eg.
    + exists ([print; build_pdf output_path; print; print] ++ [print]).
      cbn [andb]. split; [|split].
      * eapply does_eq.
        -- eapply does_try_handled;
             [apply does_bind_raises; exact R|eapply Hexn; exact Eg|apply handler_does].
        -- now rewrite <- !app_assoc.
      * reflexivity.
      * simpl. tauto.
    + cbn [andb].
      destruct (outcome w (subprocess_run ["open"%string; output_path])) as [e|] eqn:Es.
      * destruct (is_CalledProcessError e) eqn:C.
        -- exists ([print; build_pdf output_path; print; print; getsize output_path; print]
                     ++ [print]).
           split; [|split].
           ++ eapply does_eq.
              ** apply does_try.
                 eapply does_bind_value;
                   [exact R|exact create_pdf_report_value|].
                 eapply does_try_handled;
                   [apply does_bind_raises; apply does_call_raises; exact Es
                   |exact C|now apply does_call_ok].
              ** cbn [app]. now rewrite <- !app_assoc.
           ++ reflexivity.
           ++ simpl. tauto.
        -- exists ([print; build_pdf output_path; print; print; getsize output_path; print]
                     ++ [print]).
           split; [|split].
           ++ eapply does_eq.
              ** eapply does_try_handled; [|eapply Hexn; exact Es|apply handler_does].
                 eapply does_eq.
                 --- eapply does_bind_value;
                       [exact R|exact create_pdf_report_value|].
                     eapply does_try_passed;
                       [apply does_bind_raises; apply does_call_raises; exact Es|exact C].
                 --- apply app_nil_r.
              ** cbn [app]. now rewrite <- !app_assoc.
           ++ reflexivity.
           ++ simpl. tauto.
      * exists ([print; build_pdf output_path; print; print; getsize output_path; print]
                  ++ [subprocess_run ["open"%string; output_path]; print]).
        split; [|split].
        -- eapply does_eq.
           ++ apply does_try.
              eapply does_bind_value;
                [exact R|exact create_pdf_report_value|].
              apply does_try.
              eapply does_bind; [apply does_call_ok; exact Es|intros _].
              now apply does_call_ok.
           ++ cbn [app]. now rewrite <- !app_assoc.
        -- reflexivity.
        -- simpl. tauto.
Qed.

End Fortune500PdfExit.



(** *** convert_to_images.py *)

Section Convert.

Import ConvertToImages.

#[local] Open Scope Z_scope.

Lemma convert_counts_one (w : world) :
  print_works w -> only_Exceptions w ->
  forall successful failed item s,
  exists successful' failed' t s',
    convert (successful, failed) item w s = (inl (successful', failed'), s')
    /\ trace s' = trace s ++ t
    /\ ((successful' = successful + 1 /\ failed' = failed
         /\ List.length (images_of t) = 2%nat)
        \/ (successful' = successful /\ failed' = failed + 1
            /\ (List.length (images_of t) <= 1)%nat)).
Proof.
  intros Hprint Hexn successful failed [name func] s.
  unfold convert, try_except, bind.
  destruct (tame_viz20_chart func w s) as (t1 & T1 & P1 & E1).
  apply images_of_none in P1.
  destruct (Viz20.chart func w s) as [[fig|e] s1]; cbn [fst snd] in *.
  - unfold call at 1.
    destruct (outcome w (write_image _)) as [e|] eqn:Epng.
    + rewrite (Hexn _ _ Epng). unfold call. rewrite Hprint. cbn.
      exists successful, (failed + 1), (t1 ++ [print]), {| trace := trace s1 ++ [print]; drawn := drawn s1 |}.
      split; [reflexivity|]. cbn. rewrite T1, <- app_assoc. split; [reflexivity|].
      right. rewrite images_of_app, P1. cbn. lia.
    + unfold call at 1. cbn [trace drawn].
      clear Epng.
      destruct (outcome w (write_image _)) as [e|] eqn:Ejpg.
      * rewrite (Hexn _ _ Ejpg). unfold call. rewrite Hprint. cbn.
        eexists successful, (failed + 1), _, _.
        split; [reflexivity|]. cbn. rewrite T1, <- !app_assoc. split; [reflexivity|].
        right. rewrite images_of_app, P1. cbn. lia.
      * unfold call. rewrite Hprint. cbn.
        eexists (successful + 1), failed, _, _.
        split; [reflexivity|]. cbn. rewrite T1, <- !app_assoc. split; [reflexivity|].
        left. rewrite images_of_app, P1. cbn. lia.
  - destruct (E1 e eq_refl) as (o & Ho).
    rewrite (Hexn _ _ Ho). unfold call. rewrite Hprint. cbn.
    eexists successful, (failed + 1), _, _.
    split; [reflexivity|]. cbn. rewrite T1, <- !app_assoc. split; [reflexivity|].
    right. rewrite images_of_app, P1. cbn. lia.
Qed.

Lemma convert_all_counts (w : world) :
  print_works w -> only_Exceptions w ->
  forall items successful failed s,
  exists successful' failed' t s',
    convert_all (successful, failed) items w s = (inl (successful', failed'), s')
    /\ trace s' = trace s ++ t
    /\ successful' + failed' = successful + failed + Z.of_nat (List.length items)
    /\ successful <= successful' /\ failed <= failed'
    /\ 2 * (successful' - successful) <= Z.of_nat (List.length (images_of t))
       <= 2 * (successful' - successful) + (failed' - failed).
Proof.
  intros Hprint Hexn. induction items as [|item items IH]; intros a b s.
  - exists a, b, [], s. cbn [convert_all ret images_of filter List.length].
    rewrite app_nil_r.
    split; [reflexivity|]. split; [reflexivity|]. lia.
  - cbn [convert_all]. unfold bind.
    destruct (convert_counts_one Hprint Hexn a b item s)
      as (a1 & b1 & t1 & s1 & R1 & T1 & C1).
    rewrite R1.
    destruct (IH a1 b1 s1) as (a2 & b2 & t2 & s2 & R2 & T2 & C2).
    exists a2, b2, (t1 ++ t2), s2.
    split; [exact R2|]. rewrite T2, T1, <- app_assoc. split; [reflexivity|].
    rewrite images_of_app, length_app. cbn [List.length].
    destruct C1 as [(-> & -> & L)|(-> & -> & L)]; lia.
Qed.

End Convert.



(** ** The report text *)

(** *** Searching and stripping *)

Lemma lstrip_head (s : str) (c : char) (r : str) :
  lstrip s = c :: r -> isspace c = false.
Proof.
  induction s as [|x s IH]; simpl; [discriminate|].
  destruct (isspace x) eqn:E; [exact IH|].
  intros [= <- _]. exact E.
Qed.

Lemma lstrip_snoc (l : str) (c : char) :
  isspace c = false -> exists p, lstrip (l ++ [c]) = p ++ [c].
Proof.
  intros H. induction l as [|x l IH]; simpl.
  - rewrite H. now exists [].
  - destruct (isspace x); [exact IH|]. now exists (x :: l).
Qed.

Lemma strip_head (s : str) (c : char) (r : str) :
  strip s = c :: r -> isspace c = false.
Proof.
  unfold strip, rstrip. destruct (lstrip s) as [|c' r'] eqn:E.
  - discriminate.
  - pose proof (@lstrip_head s c' r' E) as Hc'.
    simpl rev. destruct (@lstrip_snoc (rev r') c' Hc') as (p & ->).
    rewrite rev_app_distr. simpl. intros [= <- _]. exact Hc'.
Qed.

Lemma startswith_nil (s : str) : startswith s [] = true.
Proof. now destruct s. Qed.

Lemma startswith_cons (c p : char) (r ps : str) :
  startswith (c :: r) (p :: ps) = (c =? p)%N && startswith r ps.
Proof. reflexivity. Qed.

(** *** create_real_cap_pdf.py: the lines of the report *)

Section RealCapLines.

Import RealCapText.

Lemma process_line_in_bullet (roi_exists : bool) (st : list element * bool) (line : str) :
  snd (process_line roi_exists st line) = bullet_line line.
Proof.
  destruct st as [elements in_bullet]. unfold process_line, bullet_line.
  pose proof (@strip_head line) as Hhead.
  destruct (strip line) as [|c r]; [reflexivity|].
  specialize (Hhead c r eq_refl).
  cbn [truthy negb].
  assert (Hsp : startswith (c :: r) (lit " ") = false).
  { cbn. destruct (N.eqb_spec c 32) as [->|]; [discriminate Hhead|reflexivity]. }
  rewrite Hsp. cbn [negb]. rewrite andb_true_r.
  assert (Hb : forall b : bool, (if b then false else b) = false) by (now intros []).
  unfold section_header, subsection_header, bullet, quote.
  repeat match goal with
         | |- context [lit ?s] =>
             let v := eval vm_compute in (lit s) in change (lit s) with v
         end.
  destruct (N.eqb_spec c 226) as [->|N1].
  - cbn. destruct r as [|c2 r]; cbn; [now rewrite Hb|].
    destruct (c2 =? 8364)%N; cbn; [|now rewrite Hb].
    destruct r as [|c3 r]; cbn; [now rewrite Hb|].
    destruct (c3 =? 162)%N; cbn; [|now rewrite Hb].
    destruct r as [|c4 r]; cbn; [now rewrite Hb|].
    destruct (c4 =? 32)%N; cbn; [now rewrite startswith_nil|now rewrite Hb].
  - destruct (N.eqb_spec c 111) as [->|N2].
    + cbn. destruct r as [|c2 r]; cbn; [now rewrite Hb|].
      destruct (c2 =? 32)%N; cbn; [now rewrite startswith_nil|now rewrite Hb].
    + rewrite !startswith_cons.
      apply N.eqb_neq in N1, N2. rewrite N1, N2. cbn [andb orb].
      repeat match goal with
             | |- context [if ?b then _ else _] => destruct b
             end; cbn [snd]; auto.
Qed.


Lemma decorates_refl (line : str) : decorates line line.
Proof. exists [], []. now rewrite app_nil_r. Qed.

Lemma decorates_wrap (before after line : str) : decorates (before ++ line ++ after) line.
Proof. now exists before, after. Qed.

Lemma decorates_indent (before line : str) : decorates (before ++ line) line.
Proof. exists before, []. now rewrite app_nil_r. Qed.

Lemma process_line_appends (roi_exists : bool) (elements : list element)
      (in_bullet : bool) (line : str) :
  exists new,
    fst (process_line roi_exists (elements, in_bullet) line) = elements ++ new
    /\ Forall2 decorates
         (map paragraph_text (filter from_line new))
         (filter truthy [strip line]).
Proof.
  unfold process_line.
  destruct (strip line) as [|c r] eqn:E; cbn [truthy negb filter].
  - destruct in_bullet; cbn [negb fst].
    + exists []. split; [now rewrite app_nil_r|constructor].
    + eexists. split; [reflexivity|constructor].
  - repeat match goal with
           | |- context [if ?b then _ else _] => destruct b
           end; cbn [fst];
      try (eexists; split; [reflexivity|];
           cbn; repeat constructor;
           first [ exact (decorates_refl (c :: r))
                 | exact (decorates_wrap (lit "<b>") (lit "</b>") (c :: r))
                 | exact (decorates_wrap (lit "<i>") (lit "</i>") (c :: r))
                 | exact (decorates_indent (lit "    ") (c :: r)) ]).
    exists (Paragraph (c :: r) "SectionHeader" :: figure_1).
    split; [now rewrite <- app_assoc|].
    cbn. repeat constructor. apply decorates_refl.
Qed.

Lemma process_lines_append (roi_exists : bool) (lines : list str) :
  forall elements in_bullet,
  exists new,
    fst (fold_left (process_line roi_exists) lines (elements, in_bullet))
    = elements ++ new
    /\ Forall2 decorates
         (map paragraph_text (filter from_line new))
         (filter truthy (map strip lines)).
Proof.
  induction lines as [|line lines IH]; intros elements in_bullet.
  - exists []. split; [now rewrite app_nil_r|constructor].
  - cbn [fold_left map].
    destruct (process_line_appends roi_exists elements in_bullet line)
      as (new1 & E1 & D1).
    destruct (process_line roi_exists (elements, in_bullet) line)
      as [elements1 in_bullet1].
    cbn [fst] in E1. subst elements1.
    destruct (IH (elements ++ new1) in_bullet1) as (new2 & E2 & D2).
    exists (new1 ++ new2). split; [now rewrite E2, app_assoc|].
    rewrite filter_app, map_app.
    change (strip line :: map strip lines) with ([strip line] ++ map strip lines).
    rewrite (filter_app truthy).
    now apply Forall2_app.
Qed.

End RealCapLines.

(** X17. create_real_cap_pdf.py: after any line of the report text,
    [in_bullet] says whether this line is a bullet or a sub-bullet,
    whatever it was before; the test [not line.startswith(' ')] on a
    stripped line never fails. So a blank line adds a spacer of 0.1 inch
    unless the line before it is a bullet or a sub-bullet. *)
Theorem real_cap_blank_line_spacing
        (roi_exists : bool) (elements : list RealCapText.element)
        (lines : list str) (prev line : str) :
  strip line = [] ->
  (forall st, snd (RealCapText.process_line roi_exists st prev) = bullet_line prev)
  /\ fst (fold_left (RealCapText.process_line roi_exists)
                    (lines ++ [prev; line]) (elements, false))
     = fst (fold_left (RealCapText.process_line roi_exists)
                      (lines ++ [prev]) (elements, false))
         ++ if bullet_line prev then [] else [RealCapText.Spacer 1 (0.1 * inch)].
Proof.
  intros Hblank. split.
  - intros st. apply process_line_in_bullet.
  - rewrite !fold_left_app. cbn [fold_left].
    pose proof (process_line_in_bullet roi_exists
                  (fold_left (RealCapText.process_line roi_exists) lines
                             (elements, false)) prev) as H.
    destruct (RealCapText.process_line roi_exists _ prev) as [elements1 in_bullet1].
    cbn [snd] in H. subst in_bullet1.
    unfold RealCapText.process_line at 1. rewrite Hblank. cbn [truthy negb fst].
    destruct (bullet_line prev); cbn [negb]; [now rewrite app_nil_r|reflexivity].
Qed.

Lemma real_cap_blank_line_spacing_witness :
  strip (lit "  ") = []
  /\ fst (fold_left (RealCapText.process_line false)
                    ([lit "A. Findings"] ++ [lit "o first point"; lit "  "]) ([], false))
     = [ RealCapText.Paragraph (lit "A. Findings") "SubsectionHeader";
         RealCapText.Paragraph (lit "    o first point") "BulletStyle" ].
Proof.
  assert (H : strip (lit "  ") = []) by reflexivity.
  split; [exact H|].
  rewrite (proj2 (real_cap_blank_line_spacing
                    false [] [lit "A. Findings"] (lit "o first point")
                    (lit "  ") H)).
  vm_compute. reflexivity.
Defined.


(** *** Finding a text *)

Lemma startswith_spec (s p : str) :
  startswith s p = true <-> exists b, s = p ++ b.
Proof.
  revert s. induction p as [|c p IH]; intros s.
  - rewrite startswith_nil. split; [now exists s|reflexivity].
  - destruct s as [|d s]; simpl.
    + split; [discriminate|]. intros (b & H). discriminate H.
    + rewrite andb_true_iff, N.eqb_eq, IH. split.
      * intros (-> & b & ->). now exists b.
      * intros (b & [= -> ->]). eauto.
Qed.

Lemma find_range (s sub : str) : (find s sub = -1 \/ 0 <= find s sub)%Z.
Proof.
  induction s as [|c s IH]; cbn [find].
  - destruct (startswith [] sub); lia.
  - destruct (startswith (c :: s) sub); [lia|].
    destruct (find s sub <? 0)%Z eqn:E; [lia|].
    apply Z.ltb_ge in E. lia.
Qed.

Lemma find_found (s sub : str) :
  (0 <= find s sub)%Z ->
  exists a b, s = a ++ sub ++ b /\ Z.of_nat (List.length a) = find s sub.
Proof.
  induction s as [|c s IH]; cbn [find].
  - destruct (startswith [] sub) eqn:E; [|lia].
    intros _. apply startswith_spec in E as (b & E). exists [], b. auto.
  - destruct (startswith (c :: s) sub) eqn:E.
    + intros _. apply startswith_spec in E as (b & E). exists [], b. auto.
    + destruct (find s sub <? 0)%Z eqn:F; [lia|].
      apply Z.ltb_ge in F. intros _.
      destruct (IH F) as (a & b & -> & L).
      exists (c :: a), b. split; [reflexivity|]. cbn [List.length]. lia.
Qed.

Lemma find_first (s sub a b : str) :
  s = a ++ sub ++ b -> (0 <= find s sub <= Z.of_nat (List.length a))%Z.
Proof.
  revert s. induction a as [|c a IH]; intros s ->.
  - assert (E : startswith ([] ++ sub ++ b) sub = true)
      by (apply startswith_spec; now exists b).
    cbn [app] in *. destruct (sub ++ b) eqn:X; cbn [find List.length]; rewrite E; lia.
  - specialize (IH _ eq_refl). cbn [app find List.length].
    destruct (startswith (c :: a ++ sub ++ b) sub); [lia|].
    destruct (find (a ++ sub ++ b) sub <? 0)%Z eqn:F; [apply Z.ltb_lt in F; lia|].
    lia.
Qed.

Lemma contains_spec (s sub : str) :
  contains s sub = true <-> exists a b, s = a ++ sub ++ b.
Proof.
  induction s as [|c s IH]; cbn [contains].
  - rewrite orb_false_r, startswith_spec. split.
    + intros (b & ->). now exists [], b.
    + intros (a & b & H). destruct a; [now exists b|discriminate H].
  - rewrite orb_true_iff, startswith_spec, IH. split.
    + intros [(b & ->)|(a & b & ->)]; [now exists [], b|now exists (c :: a), b].
    + intros (a & b & H). destruct a as [|d a].
      * left. now exists b.
      * right. injection H as -> ->. now exists a, b.
Qed.

(** What [strip] and a slice keep is a part of the text. *)
Lemma lstrip_part (s : str) : exists a, s = a ++ lstrip s.
Proof.
  induction s as [|c s (a & IH)]; simpl.
  - now exists [].
  - destruct (isspace c); [|now exists []].
    exists (c :: a). simpl. now rewrite <- IH.
Qed.

Lemma strip_part (s : str) : exists a b, s = a ++ strip s ++ b.
Proof.
  unfold strip, rstrip.
  destruct (lstrip_part s) as (a & Ha).
  destruct (lstrip_part (rev (lstrip s))) as (b & Hb).
  exists a, (rev b). rewrite Ha at 1. f_equal.
  rewrite <- rev_app_distr, <- Hb. now rewrite rev_involutive.
Qed.

Lemma slice_part (s : str) (i j : Z) :
  (0 <= i)%Z ->
  exists a b, s = a ++ slice s i j ++ b
              /\ (Z.of_nat (List.length (a ++ slice s i j)) <= Z.max i j)%Z.
Proof.
  intros Hi. unfold slice.
  exists (firstn (Z.to_nat i) s),
         (skipn (Z.to_nat (j - i)) (skipn (Z.to_nat i) s)).
  split.
  - now rewrite firstn_skipn, firstn_skipn.
  - rewrite length_app, !length_firstn, length_skipn. lia.
Qed.

Lemma find_contains (s sub : str) :
  (0 <= find s sub)%Z <-> contains s sub = true.
Proof.
  rewrite contains_spec. split.
  - intros H. destruct (find_found s sub H) as (a & b & E & _). eauto.
  - intros (a & b & E). now apply (@find_first s sub a b E).
Qed.

Lemma find_positive (s sub : str) :
  (0 < find s sub)%Z <-> contains s sub = true /\ startswith s sub = false.
Proof.
  rewrite <- find_contains.
  destruct s as [|c s]; cbn [find].
  - destruct (startswith [] sub); split; try lia; intros [? ?]; try discriminate; lia.
  - destruct (startswith (c :: s) sub).
    + split; [lia|]. intros [_ H]. discriminate H.
    + destruct (find s sub <? 0)%Z eqn:F;
        [apply Z.ltb_lt in F|apply Z.ltb_ge in F]; split; try lia; intros [? _]; lia.
Qed.

Lemma startswith_app (p r : str) : startswith (p ++ r) p = true.
Proof. apply startswith_spec. now exists r. Qed.

Lemma lstrip_app_nonspace (u : str) (c : char) (v : str) :
  isspace c = false -> lstrip (u ++ c :: v) = lstrip u ++ c :: v.
Proof.
  intros H. induction u as [|x u IH]; simpl.
  - now rewrite H.
  - destruct (isspace x); [exact IH|reflexivity].
Qed.

Lemma rstrip_app_nonspace (l : str) (c : char) (r : str) :
  isspace c = false -> rstrip (l ++ c :: r) = l ++ c :: rstrip r.
Proof.
  intros H. unfold rstrip.
  rewrite rev_app_distr. cbn [rev]. rewrite <- app_assoc. cbn [app].
  rewrite (@lstrip_app_nonspace (rev r) c (rev l) H).
  rewrite rev_app_distr. cbn [rev]. rewrite rev_involutive, <- app_assoc.
  reflexivity.
Qed.

(** *** create_pdf_simple.py: the executive summary *)

Section SimpleSummary.

Import SimpleText.

Lemma markers_apart (c a b a' b' : str) :
  c = a ++ summary_marker ++ b ->
  c = a' ++ findings_marker ++ b' ->
  (List.length a < List.length a')%nat ->
  (List.length a + List.length summary_marker <= List.length a')%nat.
Proof.
  intros E1 E2 Hlt.
  destruct (Nat.le_gt_cases (List.length a + List.length summary_marker)
                            (List.length a')) as [|Hin]; [assumption|].
  exfalso.
  assert (N2 : nth_error c (List.length a') = Some 75%N).
  { rewrite E2, nth_error_app2, Nat.sub_diag by lia. reflexivity. }
  assert (N1 : nth_error c (List.length a')
               = nth_error summary_marker (List.length a' - List.length a)).
  { rewrite E1, nth_error_app2 by lia. apply nth_error_app1. lia. }
  rewrite N1 in N2. apply nth_error_In in N2.
  revert N2. vm_compute. intuition discriminate.
Qed.

Lemma exec_text_found (full_content : str) :
  (0 < exec_summary_start full_content)%Z ->
  (0 < exec_summary_end full_content)%Z ->
  let exec_text :=
    strip (slice full_content (exec_summary_start full_content)
                 (exec_summary_end full_content)) in
  contains exec_text findings_marker = false
  /\ if (exec_summary_start full_content <? exec_summary_end full_content)%Z
     then startswith exec_text summary_marker = true
     else exec_text = [].
Proof.
  intros Hi Hj. cbv zeta.
  set (i := exec_summary_start full_content) in *.
  set (j := exec_summary_end full_content) in *.
  split.
  - destruct (contains _ findings_marker) eqn:C; [exfalso|reflexivity].
    apply contains_spec in C as (x & y & C).
    destruct (strip_part (slice full_content i j)) as (a1 & b1 & S1).
    destruct (@slice_part full_content i j) as (a0 & b0 & S0 & L0); [lia|].
    rewrite C in S1. rewrite S1 in S0, L0.
    assert (E : full_content
                = (a0 ++ a1 ++ x) ++ findings_marker ++ (y ++ b1 ++ b0))
      by (rewrite S0 at 1; now rewrite <- !app_assoc).
    pose proof (@find_first _ _ _ _ E) as F. fold (exec_summary_end full_content) in F.
    fold j in F.
    repeat rewrite length_app in L0. repeat rewrite length_app in F.
    change (List.length findings_marker) with 13%nat in L0.
    destruct (Z.max_spec i j) as [[Hlt M]|[Hge M]]; rewrite M in L0; [lia|].
    assert (Z : slice full_content i j = []).
    { unfold slice. replace (Z.to_nat (j - i)) with 0%nat by lia. reflexivity. }
    rewrite Z in S1. destruct a1; [|discriminate S1].
    destruct x; discriminate S1.
  - destruct (i <? j)%Z eqn:Lt.
    + apply Z.ltb_lt in Lt.
      destruct (@find_found full_content summary_marker) as (a & b & E1 & L1);
        [fold (exec_summary_start full_content); lia|].
      destruct (@find_found full_content findings_marker) as (a' & b' & E2 & L2);
        [fold (exec_summary_end full_content); lia|].
      fold (exec_summary_start full_content) in L1.
      fold (exec_summary_end full_content) in L2. fold i in L1. fold j in L2.
      pose proof (@markers_apart full_content a b a' b' E1 E2 ltac:(lia)) as Hap.
      assert (S : slice full_content i j
                  = summary_marker
                      ++ firstn (Z.to_nat (j - i) - List.length summary_marker) b).
      { unfold slice. rewrite E1 at 1.
        replace (Z.to_nat i) with (List.length a) by lia.
        rewrite skipn_app, skipn_all, Nat.sub_diag. cbn [app skipn].
        rewrite firstn_app. rewrite firstn_all2 by lia. reflexivity. }
      rewrite S. unfold strip.
      set (rest := firstn _ b).
      assert (L : lstrip (summary_marker ++ rest) = summary_marker ++ rest)
        by reflexivity.
      rewrite L.
      change (summary_marker ++ rest)
        with (lit "The Community Adaptation Program (CAP" ++ 41%N :: rest).
      rewrite rstrip_app_nonspace by reflexivity.
      change (lit "The Community Adaptation Program (CAP" ++ 41%N :: rstrip rest)
        with (summary_marker ++ rstrip rest).
      apply startswith_app.
    + apply Z.ltb_ge in Lt. unfold slice.
      replace (Z.to_nat (j - i)) with 0%nat by lia. reflexivity.
Qed.

End SimpleSummary.




(** *** create_professional_pdf.py: the sections of the report *)

Section ProfessionalSections.

Import ProfessionalText.

Lemma add_body_lines (lines : list str) :
  forall elements,
    fold_left add_body_line lines elements
    = elements ++ map (fun line => Paragraph line "CustomBody") (filter not_blank lines).
Proof.
  induction lines as [|line lines IH]; intros elements; cbn [fold_left filter map].
  - now rewrite app_nil_r.
  - rewrite IH. unfold add_body_line, not_blank.
    destruct (truthy (strip line)); [|reflexivity].
    now rewrite <- app_assoc.
Qed.

Lemma add_quality_lines (lines : list str) :
  forall elements,
    fold_left add_quality_line lines elements
    = elements ++ map quality_paragraph (filter not_blank lines).
Proof.
  induction lines as [|line lines IH]; intros elements; cbn [fold_left filter map].
  - now rewrite app_nil_r.
  - rewrite IH. unfold add_quality_line, not_blank.
    destruct (truthy (strip line)); cbn [andb map]; [|reflexivity].
    change (quality_paragraph line)
      with (Paragraph line (if contains line bullet then "BulletText" else "CustomBody")%string).
    destruct (contains line bullet); now rewrite <- app_assoc.
Qed.

Lemma exec_summary_found_already (sections : list str) (elements : list element) :
  fold_left exec_summary_section sections (elements, true) = (elements, true).
Proof.
  induction sections as [|section sections IH]; [reflexivity|].
  cbn [fold_left]. unfold exec_summary_section at 2.
  rewrite andb_false_r. exact IH.
Qed.

Lemma add_exec_summary_first (sections : list str) (elements : list element) :
  add_exec_summary elements sections
  = match List.find (fun section => contains section (lit "Executive Summary")) sections with
    | Some section =>
        elements
          ++ map (fun line => Paragraph line "CustomBody")
                 (filter not_blank (firstn 10 (tl (splitlines section))))
    | None => elements
    end.
Proof.
  unfold add_exec_summary.
  induction sections as [|section sections IH]; [reflexivity|].
  cbn [fold_left List.find]. unfold exec_summary_section at 2.
  destruct (contains section (lit "Executive Summary")); cbn [andb negb].
  - rewrite exec_summary_found_already. cbn [fst]. apply add_body_lines.
  - exact IH.
Qed.

Lemma add_quality_all (sections : list str) :
  forall elements,
    add_quality elements sections
    = elements
        ++ flat_map (fun section =>
                       map quality_paragraph
                           (filter not_blank (firstn 7 (skipn 1 (splitlines section)))))
                    (filter (fun section => contains section (lit "Quality of Service:"))
                            sections).
Proof.
  unfold add_quality.
  induction sections as [|section sections IH]; intros elements;
    cbn [fold_left filter].
  - now rewrite app_nil_r.
  - rewrite IH. unfold quality_section.
    destruct (contains section (lit "Quality of Service:")); [|reflexivity].
    cbn [flat_map]. now rewrite add_quality_lines, <- app_assoc.
Qed.

End ProfessionalSections.


